(** * SportLife gym-load tracker: collector and reporter

    A shallow embedding of [fetch_gym_data.py] (the collector) and
    [plot_gym_data.py] (the reporter), together with the parts of the Python
    standard library they rely on: the proleptic Gregorian calendar of
    [datetime], [strftime] / [strptime] for the formats in use, [int()],
    the [csv] writer and reader of the default dialect, and [csv.DictReader].

    Conventions:
    - text is ASCII ([string]); Python integers are [Z];
    - a call that can raise returns [res], and an uncaught exception
      is the value [Raise];
    - [print] appends a line to an explicit output list;
    - the data directory is a finite map from file names to file contents. *)

From Stdlib Require Import ZArith Lia String Ascii List.
From stdpp Require Import gmap strings list sorting.
Import ListNotations.

Local Open Scope string_scope.
Local Open Scope Z_scope.

(** ** Exceptions and results *)

Inductive exn :=
  | ValueError
  | KeyError
  | TypeError
  | AttributeError
  | OverflowError
  | CsvError
  | RequestException (msg : string)
  | JSONDecodeError (msg : string).

Inductive res (A : Type) :=
  | Ok (a : A)
  | Raise (e : exn).
Arguments Ok {A} a.
Arguments Raise {A} e.

Definition bind {A B} (m : res A) (k : A -> res B) : res B :=
  match m with
  | Ok a => k a
  | Raise e => Raise e
  end.

Notation "'let*' x := m 'in' k" := (bind m (fun x => k))
  (at level 10, x name, m at level 100, k at level 200).

(** [try: body except (e1, e2, ...): handler] *)
Definition try_except {A} (body : res A) (catches : exn -> bool) (handler : res A) : res A :=
  match body with
  | Ok a => Ok a
  | Raise e => if catches e then handler else Raise e
  end.

(** ** The calendar of [datetime] *)

Module Calendar.

Record date := mkdate { year : Z; month : Z; day : Z }.

Record datetime := mkdatetime {
  dt_date : date;
  hour : Z;
  minute : Z;
  second : Z;
  microsecond : Z
}.

Definition MINYEAR : Z := 1.
Definition MAXYEAR : Z := 9999.
Definition MAXORDINAL : Z := 3652059.

Definition is_leap (y : Z) : bool :=
  (y mod 4 =? 0) && (negb (y mod 100 =? 0) || (y mod 400 =? 0)).

Definition days_in_month (y m : Z) : Z :=
  match m with
  | 1 => 31 | 2 => if is_leap y then 29 else 28 | 3 => 31 | 4 => 30
  | 5 => 31 | 6 => 30 | 7 => 31 | 8 => 31
  | 9 => 30 | 10 => 31 | 11 => 30 | 12 => 31
  | _ => 0
  end.

Definition DAYS_BEFORE_MONTH (m : Z) : Z :=
  match m with
  | 1 => 0 | 2 => 31 | 3 => 59 | 4 => 90
  | 5 => 120 | 6 => 151 | 7 => 181 | 8 => 212
  | 9 => 243 | 10 => 273 | 11 => 304 | 12 => 334
  | _ => 0
  end.

Definition DAYS_IN_MONTH (m : Z) : Z :=
  match m with
  | 1 => 31 | 2 => 28 | 3 => 31 | 4 => 30
  | 5 => 31 | 6 => 30 | 7 => 31 | 8 => 31
  | 9 => 30 | 10 => 31 | 11 => 30 | 12 => 31
  | _ => 0
  end.

Definition days_before_year (y : Z) : Z :=
  let y' := y - 1 in
  y' * 365 + y' / 4 - y' / 100 + y' / 400.

Definition days_before_month (y m : Z) : Z :=
  DAYS_BEFORE_MONTH m + (if (2 <? m) && is_leap y then 1 else 0).

Definition ymd2ord (d : date) : Z :=
  days_before_year (year d) + days_before_month (year d) (month d) + day d.

Definition DI400Y : Z := 146097.
Definition DI100Y : Z := 36524.
Definition DI4Y : Z := 1461.

Definition ord2ymd (n0 : Z) : date :=
  let n := n0 - 1 in
  let n400 := n / DI400Y in
  let n := n mod DI400Y in
  let y := n400 * 400 + 1 in
  let n100 := n / DI100Y in
  let n := n mod DI100Y in
  let n4 := n / DI4Y in
  let n := n mod DI4Y in
  let n1 := n / 365 in
  let n := n mod 365 in
  let y := y + n100 * 100 + n4 * 4 + n1 in
  if (n1 =? 4) || (n100 =? 4) then mkdate (y - 1) 12 31
  else
    let leapyear := (n1 =? 3) && (negb (n4 =? 24) || (n100 =? 3)) in
    let m := Z.shiftr (n + 50) 5 in
    let preceding := DAYS_BEFORE_MONTH m + (if (2 <? m) && leapyear then 1 else 0) in
    if n <? preceding then
      let m' := m - 1 in
      let preceding' :=
        preceding - (DAYS_IN_MONTH m' + (if (m' =? 2) && leapyear then 1 else 0)) in
      mkdate y m' (n - preceding' + 1)
    else mkdate y m (n - preceding + 1).

(** A date object can only be built with these checks passed. *)
Definition valid_date (d : date) : Prop :=
  MINYEAR <= year d <= MAXYEAR /\ 1 <= month d <= 12 /\
  1 <= day d <= days_in_month (year d) (month d).

Definition valid_dateb (d : date) : bool :=
  (MINYEAR <=? year d) && (year d <=? MAXYEAR) &&
  (1 <=? month d) && (month d <=? 12) &&
  (1 <=? day d) && (day d <=? days_in_month (year d) (month d)).

Definition valid_datetime (t : datetime) : Prop :=
  valid_date (dt_date t) /\ 0 <= hour t < 24 /\ 0 <= minute t < 60 /\
  0 <= second t < 60 /\ 0 <= microsecond t < 1000000.

(** Comparison of dates and datetimes is comparison of their field tuples. *)
Definition date_compare (a b : date) : comparison :=
  match year a ?= year b with
  | Eq => match month a ?= month b with
          | Eq => day a ?= day b
          | c => c
          end
  | c => c
  end.

Definition date_ltb (a b : date) : bool :=
  match date_compare a b with Lt => true | _ => false end.

Definition datetime_compare (a b : datetime) : comparison :=
  match date_compare (dt_date a) (dt_date b) with
  | Eq => match hour a ?= hour b with
          | Eq => match minute a ?= minute b with
                  | Eq => match second a ?= second b with
                          | Eq => microsecond a ?= microsecond b
                          | c => c
                          end
                  | c => c
                  end
          | c => c
          end
  | c => c
  end.

(** [a >= b] *)
Definition datetime_geb (a b : datetime) : bool :=
  match datetime_compare a b with Lt => false | _ => true end.

Definition datetime_le (a b : datetime) : Prop := datetime_geb b a = true.
Definition datetime_lt (a b : datetime) : Prop := datetime_compare a b = Lt.

(** [date - timedelta(days=n)] *)
Definition date_sub_days (d : date) (n : Z) : res date :=
  let o := ymd2ord d - n in
  if (0 <? o) && (o <=? MAXORDINAL) then Ok (ord2ymd o) else Raise OverflowError.

(** [datetime - timedelta(seconds=s)]: the datetime is turned into days,
    seconds and microseconds, the delta is subtracted, and the result is
    normalised so that the seconds lie in a day. *)
Definition datetime_sub_seconds (t : datetime) (s : Z) : res datetime :=
  let secs := hour t * 3600 + minute t * 60 + second t - s in
  let days := ymd2ord (dt_date t) + secs / 86400 in
  let rem := secs mod 86400 in
  if (0 <? days) && (days <=? MAXORDINAL) then
    Ok (mkdatetime (ord2ymd days) (rem / 3600) ((rem mod 3600) / 60)
                   ((rem mod 3600) mod 60) (microsecond t))
  else Raise OverflowError.

(** [t - timedelta(hours=h)] *)
Definition datetime_sub_hours (t : datetime) (h : Z) : res datetime :=
  datetime_sub_seconds t (h * 3600).

(** [t - timedelta(minutes=m)] *)
Definition datetime_sub_minutes (t : datetime) (m : Z) : res datetime :=
  datetime_sub_seconds t (m * 60).

End Calendar.

(** ** Text: characters, integers, dates and times as text *)

Module Text.
Import Calendar.

Definition is_digit (c : ascii) : bool :=
  let n := N_of_ascii c in ((48 <=? n) && (n <=? 57))%N.

Definition digit_val (c : ascii) : Z := Z.of_N (N_of_ascii c) - 48.

Definition digit_char (d : Z) : ascii := ascii_of_N (48 + Z.to_N d).

(** [str.isspace] on ASCII: tab, LF, VT, FF, CR, FS, GS, RS, US and space. *)
Definition is_space (c : ascii) : bool :=
  let n := N_of_ascii c in
  (((9 <=? n) && (n <=? 13)) || ((28 <=? n) && (n <=? 32)))%N.

Definition char_eqb (a b : ascii) : bool := Ascii.eqb a b.

(** *** [str(int)] *)

Fixpoint digits_of (fuel : nat) (n : Z) (acc : string) : string :=
  match fuel with
  | O => acc
  | S f =>
      let acc' := String (digit_char (n mod 10)) acc in
      if n <? 10 then acc' else digits_of f (n / 10) acc'
  end.

Definition str_nonneg (n : Z) : string :=
  digits_of (S (Z.to_nat (Z.log2 n))) n EmptyString.

Definition str_int (z : Z) : string :=
  if z <? 0 then String "-" (str_nonneg (- z)) else str_nonneg z.

(** *** [int(str)], base ten

    White space around the number, a sign, and digits with single
    underscores between them. The interpreter's limit on the number of
    digits is not part of the model. *)

Fixpoint lstrip (s : string) : string :=
  match s with
  | String c s' => if is_space c then lstrip s' else s
  | EmptyString => EmptyString
  end.

Fixpoint rstrip (s : string) : string :=
  match s with
  | String c s' =>
      match rstrip s' with
      | EmptyString => if is_space c then EmptyString else String c EmptyString
      | r => String c r
      end
  | EmptyString => EmptyString
  end.

Definition strip (s : string) : string := rstrip (lstrip s).

(** Digits, with single underscores allowed between two digits. *)
Fixpoint int_digits (s : string) (acc : Z) (after_digit : bool) : option Z :=
  match s with
  | EmptyString => if after_digit then Some acc else None
  | String c s' =>
      if is_digit c then int_digits s' (acc * 10 + digit_val c) true
      else if char_eqb c "_" && after_digit then int_digits s' acc false
      else None
  end.

Definition int_of_str (s : string) : res Z :=
  let body :=
    match strip s with
    | String "-" s' => option_map Z.opp (int_digits s' 0 false)
    | String "+" s' => int_digits s' 0 false
    | s' => int_digits s' 0 false
    end in
  match body with
  | Some z => Ok z
  | None => Raise ValueError
  end.

(** *** [strftime] for the directives in use *)

(** [%02d] *)
Definition zfill2 (n : Z) : string :=
  if n <? 10 then String "0" (str_nonneg n) else str_nonneg n.

(** [%04d] *)
Definition zfill4 (n : Z) : string :=
  if n <? 10 then "000" +:+ str_nonneg n
  else if n <? 100 then "00" +:+ str_nonneg n
  else if n <? 1000 then "0" +:+ str_nonneg n
  else str_nonneg n.

(** [d.strftime("%Y-%m-%d")] and [str(d)]; the year is written on four
    digits, as the library documents for [%Y] and as [isoformat] does. *)
Definition strftime_Ymd (d : date) : string :=
  zfill4 (year d) +:+ "-" +:+ zfill2 (month d) +:+ "-" +:+ zfill2 (day d).

Definition str_date (d : date) : string := strftime_Ymd d.

(** [t.strftime("%H:%M")] *)
Definition strftime_HM (t : datetime) : string :=
  zfill2 (hour t) +:+ ":" +:+ zfill2 (minute t).

(** [str(t)] for a datetime: [YYYY-MM-DD HH:MM:SS], followed by the
    microseconds on six digits when they are not zero. *)
Definition zfill6 (n : Z) : string :=
  zfill2 (n / 10000) +:+ zfill2 ((n / 100) mod 100) +:+ zfill2 (n mod 100).

Definition str_datetime (t : datetime) : string :=
  str_date (dt_date t) +:+ " " +:+ zfill2 (hour t) +:+ ":" +:+ zfill2 (minute t)
    +:+ ":" +:+ zfill2 (second t)
    +:+ (if microsecond t =? 0 then EmptyString else "." +:+ zfill6 (microsecond t)).

(** *** [strptime] for the directives in use

    [strptime] compiles the format into a regular expression whose
    alternatives are tried in order, with backtracking; a parser here takes
    the rest of the expression as a continuation and moves to its next
    alternative when the continuation fails. *)

Section Regex.
Context {R : Type}.

Definition orelse (a b : option R) : option R :=
  match a with Some r => Some r | None => b end.

(** a literal character *)
Definition re_lit (ch : ascii) (k : string -> option R) (s : string) : option R :=
  match s with
  | String c s' => if char_eqb c ch then k s' else None
  | EmptyString => None
  end.

(** [\s*] then [\s+], greedy *)
Fixpoint re_spaces0 (k : string -> option R) (s : string) : option R :=
  match s with
  | String c s' => if is_space c then orelse (re_spaces0 k s') (k s) else k s
  | EmptyString => k s
  end.

Definition re_spaces (k : string -> option R) (s : string) : option R :=
  match s with
  | String c s' => if is_space c then re_spaces0 k s' else None
  | EmptyString => None
  end.

(** two characters in the given ranges, read as a two-digit number *)
Definition re_two (lo1 hi1 lo2 hi2 : Z) (k : Z -> string -> option R) (s : string)
  : option R :=
  match s with
  | String c1 (String c2 s') =>
      if is_digit c1 && is_digit c2
         && (lo1 <=? digit_val c1) && (digit_val c1 <=? hi1)
         && (lo2 <=? digit_val c2) && (digit_val c2 <=? hi2)
      then k (digit_val c1 * 10 + digit_val c2) s'
      else None
  | _ => None
  end.

(** one digit in the given range *)
Definition re_one (lo hi : Z) (k : Z -> string -> option R) (s : string) : option R :=
  match s with
  | String c s' =>
      if is_digit c && (lo <=? digit_val c) && (digit_val c <=? hi)
      then k (digit_val c) s'
      else None
  | EmptyString => None
  end.

(** [%Y]: [\d\d\d\d] *)
Definition re_Y (k : Z -> string -> option R) (s : string) : option R :=
  match s with
  | String c1 (String c2 (String c3 (String c4 s'))) =>
      if is_digit c1 && is_digit c2 && is_digit c3 && is_digit c4
      then k (digit_val c1 * 1000 + digit_val c2 * 100 + digit_val c3 * 10 + digit_val c4) s'
      else None
  | _ => None
  end.

(** [%m]: [1[0-2]|0[1-9]|[1-9]] *)
Definition re_m (k : Z -> string -> option R) (s : string) : option R :=
  orelse (re_two 1 1 0 2 k s) (orelse (re_two 0 0 1 9 k s) (re_one 1 9 k s)).

(** [%d]: [3[0-1]|[1-2]\d|0[1-9]|[1-9]| [1-9]] *)
Definition re_d (k : Z -> string -> option R) (s : string) : option R :=
  orelse (re_two 3 3 0 1 k s)
    (orelse (re_two 1 2 0 9 k s)
       (orelse (re_two 0 0 1 9 k s)
          (orelse (re_one 1 9 k s) (re_lit " " (re_one 1 9 k) s)))).

(** [%H]: [2[0-3]|[0-1]\d|\d] *)
Definition re_H (k : Z -> string -> option R) (s : string) : option R :=
  orelse (re_two 2 2 0 3 k s) (orelse (re_two 0 1 0 9 k s) (re_one 0 9 k s)).

(** [%M]: [[0-5]\d|\d] *)
Definition re_M (k : Z -> string -> option R) (s : string) : option R :=
  orelse (re_two 0 5 0 9 k s) (re_one 0 9 k s).

End Regex.

(** The expression is matched at the start of the text; text left over
    after the match is an error ("unconverted data remains"). *)
(** [datetime.strptime(s, "%Y-%m-%d").date()] *)
Definition strptime_Ymd (s : string) : res date :=
  match
    re_Y (fun y => re_lit "-" (re_m (fun m => re_lit "-" (re_d (fun d rest =>
      Some (mkdate y m d, rest)))))) s
  with
  | Some (d, EmptyString) => if valid_dateb d then Ok d else Raise ValueError
  | _ => Raise ValueError
  end.

(** [datetime.strptime(s, "%Y-%m-%d %H:%M")] *)
Definition strptime_Ymd_HM (s : string) : res datetime :=
  match
    re_Y (fun y => re_lit "-" (re_m (fun m => re_lit "-" (re_d (fun d =>
      re_spaces (re_H (fun h => re_lit ":" (re_M (fun mi rest =>
        Some (mkdatetime (mkdate y m d) h mi 0 0, rest)))))))))) s
  with
  | Some (t, EmptyString) => if valid_dateb (dt_date t) then Ok t else Raise ValueError
  | _ => Raise ValueError
  end.

End Text.

(** ** The [csv] module, default dialect

    Comma as delimiter, the double quote as quote character (doubled
    inside a quoted field), line terminator CR LF, minimal quoting, no
    escape character, not strict. *)

Module Csv.

Definition CR : ascii := ascii_of_N 13.
Definition LF : ascii := ascii_of_N 10.
Definition COMMA : ascii := ascii_of_N 44.
Definition QUOTE : ascii := ascii_of_N 34.
Definition CRLF : string := String CR (String LF EmptyString).

Definition is_newline (c : ascii) : bool := Ascii.eqb c LF || Ascii.eqb c CR.

(** *** Writer *)

Definition needs_quote (c : ascii) : bool :=
  Ascii.eqb c COMMA || Ascii.eqb c QUOTE || is_newline c.

Fixpoint any_char (p : ascii -> bool) (s : string) : bool :=
  match s with
  | String c s' => p c || any_char p s'
  | EmptyString => false
  end.

Fixpoint double_quotes (s : string) : string :=
  match s with
  | String c s' =>
      if Ascii.eqb c QUOTE then String QUOTE (String QUOTE (double_quotes s'))
      else String c (double_quotes s')
  | EmptyString => EmptyString
  end.

Definition write_field (s : string) : string :=
  if any_char needs_quote s
  then String QUOTE (double_quotes s +:+ String QUOTE EmptyString)
  else s.

(** [writer.writerow([a, b])] gives the text appended to the file. *)
Definition writerow2 (a b : string) : string :=
  write_field a +:+ String COMMA (write_field b) +:+ CRLF.

(** *** Lines of a file opened with an empty [newline] argument

    A line ends after LF, after CR LF, or after a CR alone; the line
    ending is kept. *)
Fixpoint lines_from (cur : string) (s : string) : list string :=
  match s with
  | EmptyString => match cur with EmptyString => [] | _ => [cur] end
  | String c s' =>
      if Ascii.eqb c LF then (cur +:+ String c EmptyString) :: lines_from EmptyString s'
      else if Ascii.eqb c CR then
        match s' with
        | String c' s'' =>
            if Ascii.eqb c' LF then (cur +:+ CRLF) :: lines_from EmptyString s''
            else (cur +:+ String c EmptyString) :: lines_from EmptyString s'
        | EmptyString => [cur +:+ String c EmptyString]
        end
      else lines_from (cur +:+ String c EmptyString) s'
  end.

Definition file_lines (s : string) : list string := lines_from EmptyString s.

(** *** Reader

    The state machine of the reader, without the states of an escape
    character (the dialect has none) and without the limit on the size of
    a field. *)

Inductive parser_state :=
  | START_RECORD
  | START_FIELD
  | IN_FIELD
  | IN_QUOTED_FIELD
  | QUOTE_IN_QUOTED_FIELD
  | EAT_CRNL.

Record reader := mkreader {
  state : parser_state;
  field : string;
  fields : list string
}.

Definition parse_reset : reader := mkreader START_RECORD EmptyString [].

Definition parse_save_field (r : reader) : reader :=
  mkreader (state r) EmptyString (fields r ++ [field r])%list.

Definition parse_add_char (r : reader) (c : ascii) : reader :=
  mkreader (state r) (field r +:+ String c EmptyString) (fields r).

Definition set_state (r : reader) (s : parser_state) : reader :=
  mkreader s (field r) (fields r).

Definition start_field (r : reader) (c : ascii) : reader :=
  if is_newline c then set_state (parse_save_field r) EAT_CRNL
  else if Ascii.eqb c QUOTE then set_state r IN_QUOTED_FIELD
  else if Ascii.eqb c COMMA then set_state (parse_save_field r) START_FIELD
  else set_state (parse_add_char r c) IN_FIELD.

Definition parse_process_char (r : reader) (c : ascii) : res reader :=
  match state r with
  | START_RECORD =>
      if is_newline c then Ok (set_state r EAT_CRNL)
      else Ok (start_field r c)
  | START_FIELD => Ok (start_field r c)
  | IN_FIELD =>
      if is_newline c then Ok (set_state (parse_save_field r) EAT_CRNL)
      else if Ascii.eqb c COMMA then Ok (set_state (parse_save_field r) START_FIELD)
      else Ok (parse_add_char r c)
  | IN_QUOTED_FIELD =>
      if Ascii.eqb c QUOTE then Ok (set_state r QUOTE_IN_QUOTED_FIELD)
      else Ok (parse_add_char r c)
  | QUOTE_IN_QUOTED_FIELD =>
      if Ascii.eqb c QUOTE then Ok (set_state (parse_add_char r c) IN_QUOTED_FIELD)
      else if Ascii.eqb c COMMA then Ok (set_state (parse_save_field r) START_FIELD)
      else if is_newline c then Ok (set_state (parse_save_field r) EAT_CRNL)
      else Ok (set_state (parse_add_char r c) IN_FIELD)
  | EAT_CRNL =>
      if is_newline c then Ok r else Raise CsvError
  end.

(** the end of a line *)
Definition parse_process_eol (r : reader) : reader :=
  match state r with
  | START_RECORD => r
  | START_FIELD | IN_FIELD | QUOTE_IN_QUOTED_FIELD =>
      set_state (parse_save_field r) START_RECORD
  | IN_QUOTED_FIELD => r
  | EAT_CRNL => set_state r START_RECORD
  end.

Fixpoint parse_line (r : reader) (line : string) : res reader :=
  match line with
  | EmptyString => Ok r
  | String c line' =>
      let* r' := parse_process_char r c in
      parse_line r' line'
  end.

Definition is_start_record (s : parser_state) : bool :=
  match s with START_RECORD => true | _ => false end.

Definition is_in_quoted_field (s : parser_state) : bool :=
  match s with IN_QUOTED_FIELD => true | _ => false end.

Definition is_empty (s : string) : bool :=
  match s with EmptyString => true | _ => false end.

(** The rows a reader yields over the lines, and the error that ends the
    iteration, if any. *)
Fixpoint reader_rows (r : reader) (lines : list string) : list (list string) * option exn :=
  match lines with
  | [] =>
      if negb (is_empty (field r)) || is_in_quoted_field (state r)
      then ([fields (parse_save_field r)], None)
      else ([], None)
  | line :: rest =>
      match parse_line r line with
      | Raise e => ([], Some e)
      | Ok r' =>
          let r'' := parse_process_eol r' in
          if is_start_record (state r'')
          then let '(rows, err) := reader_rows parse_reset rest in
               (fields r'' :: rows, err)
          else reader_rows r'' rest
      end
  end.

Definition csv_reader (text : string) : list (list string) * option exn :=
  reader_rows parse_reset (file_lines text).

(** *** DictReader *)

(** A value of a row: the text of a field, or [None] for a field the row
    does not have. *)
Inductive cell :=
  | CStr (s : string)
  | CNone.

Fixpoint pad_row (fieldnames : list string) (row : list string) : list (string * cell) :=
  match fieldnames, row with
  | [], _ => []
  | k :: ks, [] => (k, CNone) :: pad_row ks []
  | k :: ks, v :: vs => (k, CStr v) :: pad_row ks vs
  end.

(** The dictionary of a row: later bindings of a repeated field name win.
    Fields beyond the field names go under the key [None], which no lookup
    by name reaches. *)
Definition row_dict (fieldnames : list string) (row : list string) : gmap string cell :=
  fold_left (fun d kv => <[kv.1 := kv.2]> d) (pad_row fieldnames row) ∅.

Definition is_nil {A} (l : list A) : bool :=
  match l with [] => true | _ => false end.

Definition DictReader (text : string) : list (gmap string cell) * option exn :=
  match csv_reader text with
  | ([], err) => ([], err)
  | (fieldnames :: rows, err) =>
      (map (row_dict fieldnames) (filter (fun row => negb (is_nil row)) rows), err)
  end.

Definition getitem (d : gmap string cell) (k : string) : res cell :=
  match d !! k with
  | Some v => Ok v
  | None => Raise KeyError
  end.

(** [int(v)] *)
Definition int_of_cell (v : cell) : res Z :=
  match v with
  | CStr s => Text.int_of_str s
  | CNone => Raise TypeError
  end.

(** a cell inside an f-string *)
Definition format_cell (v : cell) : string :=
  match v with
  | CStr s => s
  | CNone => "None"
  end.

End Csv.

(** ** The data directory

    The scripts are run from their own directory, so [DATA_DIR] is the
    relative path [data] and [OUTPUT_FILE] is [gym_load_chart.png]. The
    directory is absent ([None]) or holds regular files, given as a map
    from file name to content. *)

Definition DATA_DIR : string := "data".
Definition OUTPUT_FILE : string := "gym_load_chart.png".

(** ** The collector, [fetch_gym_data.py] *)

Module Collector.
Import Calendar.

(** A value found in the JSON document: [None], an integer, or any other
    value, of which only its [str()] text is kept. *)
Inductive pyval :=
  | PyNone
  | PyInt (z : Z)
  | PyOther (text : string).

Definition str (v : pyval) : string :=
  match v with
  | PyNone => "None"
  | PyInt z => Text.str_int z
  | PyOther text => text
  end.

(** the text the csv writer makes of a value *)
Definition csv_text (v : pyval) : string :=
  match v with
  | PyNone => EmptyString
  | PyInt z => Text.str_int z
  | PyOther text => text
  end.

(** The decoded body of a response: a JSON object, or a JSON value of
    another kind (array, string, number, boolean, null). *)
Inductive json :=
  | JObject (members : gmap string pyval)
  | JOther.

Record response := mkresponse {
  status_code : Z;
  http_error_msg : string;      (* the text of the HTTPError of this status *)
  body : json + string          (* the decoded body, or the decoder's error text *)
}.

(** What [requests.post] does with [API_URL], [HEADERS], [PAYLOAD] and the
    timeout of ten seconds: it raises (connection error, timeout) or
    returns a response. *)
Inductive post_outcome :=
  | PostRaises (msg : string)
  | PostReturns (r : response).

Definition requests_post (o : post_outcome) : res response :=
  match o with
  | PostRaises msg => Raise (RequestException msg)
  | PostReturns r => Ok r
  end.

(** [response.raise_for_status()] raises for the client and server error
    statuses. *)
Definition raise_for_status (r : response) : res unit :=
  if (400 <=? status_code r) && (status_code r <? 600)
  then Raise (RequestException (http_error_msg r))
  else Ok tt.

Definition response_json (r : response) : res json :=
  match body r with
  | inl j => Ok j
  | inr msg => Raise (JSONDecodeError msg)
  end.

(** [data.get("number")] *)
Definition data_get (data : json) (key : string) : res pyval :=
  match data with
  | JObject members => Ok (default PyNone (members !! key))
  | JOther => Raise AttributeError
  end.

(** [str(e)] *)
Definition exn_text (e : exn) : string :=
  match e with
  | RequestException msg | JSONDecodeError msg => msg
  | _ => EmptyString
  end.

(** [except (requests.RequestException, ValueError, KeyError)]; the error of
    the JSON decoder is both a RequestException and a ValueError. *)
Definition fetch_catches (e : exn) : bool :=
  match e with
  | RequestException _ | JSONDecodeError _ | ValueError | KeyError => true
  | _ => false
  end.

(** The lines printed, and the value returned or the exception raised. *)
Definition fetch_gym_load (o : post_outcome) : list string * res pyval :=
  let body :=
    let* response := requests_post o in
    let* _ := raise_for_status response in
    let* data := response_json response in
    data_get data "number" in
  match body with
  | Ok v => ([], Ok v)
  | Raise e =>
      if fetch_catches e
      then (["Error fetching data: " +:+ exn_text e], Ok PyNone)
      else ([], Raise e)
  end.

Definition csv_name (date_str : string) : string := date_str +:+ ".csv".

Definition header_row : string := Csv.writerow2 "time" "count".

(** The lines printed and the directory afterwards. *)
Definition save_to_csv (now : datetime) (count : pyval)
    (dir : option (gmap string string)) : list string * option (gmap string string) :=
  let files := default ∅ dir in                      (* DATA_DIR.mkdir(exist_ok=True) *)
  let date_str := Text.strftime_Ymd (dt_date now) in
  let time_str := Text.strftime_HM now in
  let csv_path := csv_name date_str in
  let file_exists := bool_decide (is_Some (files !! csv_path)) in
  let old := default EmptyString (files !! csv_path) in
  let appended :=
    (if file_exists then EmptyString else header_row)
      +:+ Csv.writerow2 time_str (csv_text count) in
  (["Saved: " +:+ time_str +:+ " -> " +:+ str count +:+ " people"],
   Some (<[csv_path := old +:+ appended]> files)).

Definition is_none (v : pyval) : bool :=
  match v with PyNone => true | _ => false end.

Definition main (o : post_outcome) (now : datetime)
    (dir : option (gmap string string))
  : list string * res (option (gmap string string)) :=
  match fetch_gym_load o with
  | (out, Raise e) => (out, Raise e)
  | (out, Ok count) =>
      if negb (is_none count) then
        let '(out', dir') := save_to_csv now count dir in
        ((out ++ out')%list, Ok dir')
      else ((out ++ ["Failed to fetch gym load"])%list, Ok dir)
  end.

End Collector.

(** ** The reporter, [plot_gym_data.py] *)

Module Reporter.
Import Calendar.

Definition THRESHOLD : Z := 140.
Definition HOURS_TO_SHOW : Z := 96.

(** [name] matches [*.csv]; the result is the stem of the path. *)
Fixpoint csv_stem (name : string) : option string :=
  match name with
  | EmptyString => None
  | String c s' =>
      if String.eqb name ".csv" then Some EmptyString
      else option_map (String c) (csv_stem s')
  end.

Definition path_le (a b : string * string) : Prop := String.le a.1 b.1.

Global Instance path_le_dec : RelDecision path_le.
Proof. intros a b. unfold path_le. apply _. Defined.

(** [sorted(DATA_DIR.glob("*.csv"))], each path with the content of its file *)
Definition csv_files (files : gmap string string) : list (string * string) :=
  merge_sort path_le
    (filter (fun p => is_Some (csv_stem p.1)) (map_to_list files)).

(** [except ValueError] *)
Definition name_catches (e : exn) : bool :=
  match e with
  | ValueError | JSONDecodeError _ => true
  | _ => false
  end.

(** [except (ValueError, KeyError)] *)
Definition row_catches (e : exn) : bool :=
  match e with
  | ValueError | JSONDecodeError _ | KeyError => true
  | _ => false
  end.

(** The body of the loop over the rows of one file. *)
Definition load_row (cutoff : datetime) (file_date : date) (row : gmap string Csv.cell)
    (acc : list datetime * list Z) : res (list datetime * list Z) :=
  let '(timestamps, counts) := acc in
  try_except
    (let* time_str := Csv.getitem row "time" in
     let* cnt := Csv.getitem row "count" in
     let* count := Csv.int_of_cell cnt in
     let* dt := Text.strptime_Ymd_HM
                  (Text.str_date file_date +:+ " " +:+ Csv.format_cell time_str) in
     if datetime_geb dt cutoff
     then Ok ((timestamps ++ [dt])%list, (counts ++ [count])%list)
     else Ok acc)
    row_catches
    (Ok acc).

Fixpoint load_rows (cutoff : datetime) (file_date : date)
    (rows : list (gmap string Csv.cell)) (acc : list datetime * list Z)
  : res (list datetime * list Z) :=
  match rows with
  | [] => Ok acc
  | row :: rows' =>
      let* acc' := load_row cutoff file_date row acc in
      load_rows cutoff file_date rows' acc'
  end.

(** The body of the loop over the files. *)
Definition load_file (cutoff : datetime) (path : string * string)
    (acc : list datetime * list Z) : res (list datetime * list Z) :=
  match Text.strptime_Ymd (default EmptyString (csv_stem path.1)) with
  | Raise e => if name_catches e then Ok acc else Raise e
  | Ok file_date =>
      let* limit := date_sub_days (dt_date cutoff) 1 in
      if date_ltb file_date limit then Ok acc
      else
        let '(rows, err) := Csv.DictReader path.2 in
        let* acc' := load_rows cutoff file_date rows acc in
        match err with
        | Some e => Raise e
        | None => Ok acc'
        end
  end.

Fixpoint load_files (cutoff : datetime) (paths : list (string * string))
    (acc : list datetime * list Z) : res (list datetime * list Z) :=
  match paths with
  | [] => Ok acc
  | path :: paths' =>
      let* acc' := load_file cutoff path acc in
      load_files cutoff paths' acc'
  end.

Definition load_data (now : datetime) (hours : Z) (files : gmap string string)
  : res (list datetime * list Z) :=
  let* cutoff := datetime_sub_hours now hours in
  load_files cutoff (csv_files files) ([], []).

(** What is drawn: the bars with their colours, the threshold line and
    the statistics box. The average is kept as the sum and the number of
    counts; its rendering with no decimals is left to the plotting
    library. *)
Record chart := mkchart {
  bar_times : list datetime;
  bar_counts : list Z;
  bar_colors : list string;
  threshold_line : Z;
  stats : option (Z * Z * (Z * Z))       (* min, max, (sum, len) *)
}.

Definition color_of (c : Z) : string :=
  if THRESHOLD <=? c then "#e74c3c" else "#2ecc71".

Definition list_min (l : list Z) : Z :=
  match l with [] => 0 | x :: l' => fold_left Z.min l' x end.

Definition list_max (l : list Z) : Z :=
  match l with [] => 0 | x :: l' => fold_left Z.max l' x end.

Definition list_sum (l : list Z) : Z := fold_left Z.add l 0.

(** The lines printed, and the content of [OUTPUT_FILE] afterwards. *)
Definition plot_chart (timestamps : list datetime) (counts : list Z)
    (artifact : option chart) : list string * option chart :=
  match timestamps with
  | [] => (["No data to plot"], artifact)
  | first :: _ =>
      let colors := map color_of counts in
      let has_counts := negb (Csv.is_nil counts) in
      let st :=
        if has_counts
        then Some (list_min counts, list_max counts,
                   (list_sum counts, Z.of_nat (length counts)))
        else None in
      let fig := mkchart timestamps counts colors THRESHOLD st in
      ((["Chart saved to: " +:+ OUTPUT_FILE;
         "Data points: " +:+ Text.str_int (Z.of_nat (length counts))]
          ++ (if has_counts
              then ["Time range: " +:+ Text.str_datetime first +:+ " to "
                      +:+ Text.str_datetime (List.last timestamps first)]
              else []))%list,
       Some fig)
  end.

Definition main (now : datetime) (dir : option (gmap string string))
    (artifact : option chart) : list string * res (option chart) :=
  match dir with
  | None =>
      (["Data directory not found: " +:+ DATA_DIR;
        "Run fetch_gym_data.py first to collect data."], Ok artifact)
  | Some files =>
      match load_data now HOURS_TO_SHOW files with
      | Raise e => ([], Raise e)
      | Ok (timestamps, counts) =>
          let '(out, artifact') := plot_chart timestamps counts artifact in
          (out, Ok artifact')
      end
  end.

End Reporter.

(** ** A functional reading of the reporter's loops

    [load_data] grows two lists in step; the definitions below give, for a
    row, a file and a list of files, the readings that the loops append,
    as one list of pairs. *)

Module Readings.
Import Calendar.

(** The timestamp of a reading: the collector's clock cut to the minute. *)
Definition minute_of (t : datetime) : datetime :=
  mkdatetime (dt_date t) (hour t) (minute t) 0 0.

(** What a row holds: its timestamp and count, or the exception raised
    while reading it. *)
Definition row_reading (file_date : date) (row : gmap string Csv.cell) : res (datetime * Z) :=
  let* time_str := Csv.getitem row "time" in
  let* cnt := Csv.getitem row "count" in
  let* count := Csv.int_of_cell cnt in
  let* dt := Text.strptime_Ymd_HM
               (Text.str_date file_date +:+ " " +:+ Csv.format_cell time_str) in
  Ok (dt, count).

Fixpoint kept_rows (cutoff : datetime) (file_date : date)
    (rows : list (gmap string Csv.cell)) : res (list (datetime * Z)) :=
  match rows with
  | [] => Ok []
  | row :: rows' =>
      match row_reading file_date row with
      | Ok (dt, count) =>
          let* k := kept_rows cutoff file_date rows' in
          Ok (if datetime_geb dt cutoff then (dt, count) :: k else k)
      | Raise e =>
          if Reporter.row_catches e then kept_rows cutoff file_date rows' else Raise e
      end
  end.

Definition kept_file (cutoff : datetime) (path : string * string)
  : res (list (datetime * Z)) :=
  match Text.strptime_Ymd (default EmptyString (Reporter.csv_stem path.1)) with
  | Raise e => if Reporter.name_catches e then Ok [] else Raise e
  | Ok file_date =>
      let* limit := date_sub_days (dt_date cutoff) 1 in
      if date_ltb file_date limit then Ok []
      else
        let* k := kept_rows cutoff file_date (Csv.DictReader path.2).1 in
        match (Csv.DictReader path.2).2 with
        | Some e => Raise e
        | None => Ok k
        end
  end.

Fixpoint kept_files (cutoff : datetime) (paths : list (string * string))
  : res (list (datetime * Z)) :=
  match paths with
  | [] => Ok []
  | path :: paths' =>
      let* k := kept_file cutoff path in
      let* k' := kept_files cutoff paths' in
      Ok (k ++ k')%list
  end.

(** adding readings to the two lists *)
Definition extend (acc : list datetime * list Z) (k : list (datetime * Z))
  : list datetime * list Z :=
  ((acc.1 ++ map fst k)%list, (acc.2 ++ map snd k)%list).

End Readings.

(** ** The reporter without its date pre-filter

    The same loops, with the test on the date of the file taken out of
    the loop over the files; used to compare with [load_data]. *)

Module NoPrefilter.
Import Calendar.

Definition load_file_nofilter (cutoff : datetime) (path : string * string)
    (acc : list datetime * list Z) : res (list datetime * list Z) :=
  match Text.strptime_Ymd (default EmptyString (Reporter.csv_stem path.1)) with
  | Raise e => if Reporter.name_catches e then Ok acc else Raise e
  | Ok file_date =>
      let '(rows, err) := Csv.DictReader path.2 in
      let* acc' := Reporter.load_rows cutoff file_date rows acc in
      match err with
      | Some e => Raise e
      | None => Ok acc'
      end
  end.

Fixpoint load_files_nofilter (cutoff : datetime) (paths : list (string * string))
    (acc : list datetime * list Z) : res (list datetime * list Z) :=
  match paths with
  | [] => Ok acc
  | path :: paths' =>
      let* acc' := load_file_nofilter cutoff path acc in
      load_files_nofilter cutoff paths' acc'
  end.

Definition load_data_nofilter (now : datetime) (hours : Z) (files : gmap string string)
  : res (list datetime * list Z) :=
  let* cutoff := datetime_sub_hours now hours in
  load_files_nofilter cutoff (Reporter.csv_files files) ([], []).

End NoPrefilter.

(** ** Notions used to state and prove the properties *)

Module Notions.
Import Calendar Text Csv Reporter Readings NoPrefilter.

(** a date of any year *)
Definition wf_date (d : date) : Prop :=
  1 <= month d <= 12 /\ 1 <= day d <= days_in_month (year d) (month d).

(** the month and the day that [ord2ymd] finds for day [n] of a year *)
Definition month_day (leapyear : bool) (n : Z) : Z * Z :=
  let m := Z.shiftr (n + 50) 5 in
  let preceding := DAYS_BEFORE_MONTH m + (if (2 <? m) && leapyear then 1 else 0) in
  if n <? preceding then
    let m' := m - 1 in
    let preceding' :=
      preceding - (DAYS_IN_MONTH m' + (if (m' =? 2) && leapyear then 1 else 0)) in
    (m', n - preceding' + 1)
  else (m, n - preceding + 1).

(** seconds since the start of the calendar *)
Definition to_seconds (t : datetime) : Z :=
  ymd2ord (dt_date t) * 86400 + hour t * 3600 + minute t * 60 + second t.

Definition wf_datetime (t : datetime) : Prop :=
  wf_date (dt_date t) /\ 0 <= hour t < 24 /\ 0 <= minute t < 60 /\
  0 <= second t < 60 /\ 0 <= microsecond t < 1000000.

Fixpoint all_digits (s : string) : bool :=
  match s with
  | String c s' => is_digit c && all_digits s'
  | EmptyString => true
  end.

Fixpoint no_space (s : string) : bool :=
  match s with
  | String c s' => negb (is_space c) && no_space s'
  | EmptyString => true
  end.

(** two digits *)
Definition two_digits (n : Z) (rest : string) : string :=
  String (digit_char (n / 10)) (String (digit_char (n mod 10)) rest).

Definition four_digits (n : Z) (rest : string) : string :=
  String (digit_char (n / 1000))
    (String (digit_char (n / 100 mod 10))
       (String (digit_char (n / 10 mod 10)) (String (digit_char (n mod 10)) rest))).

(** The time part of the row format. *)
Definition re_time (d : date) : string -> option (datetime * string) :=
  re_spaces0 (re_H (fun h => re_lit ":" (re_M (fun mi rest =>
    Some (mkdatetime d h mi 0 0, rest))))).

(** text that the writer leaves unquoted *)
Definition clean (s : string) : Prop := any_char needs_quote s = false.

Definition no_newline (s : string) : Prop := any_char is_newline s = false.

(** the text of rows of two fields *)
Fixpoint rows_text (rows : list (string * string)) : string :=
  match rows with
  | [] => EmptyString
  | (a, b) :: rows' => writerow2 a b +:+ rows_text rows'
  end.

Definition clean_row (r : string * string) : Prop :=
  clean r.1 /\ clean r.2 /\ r.1 <> EmptyString /\ r.2 <> EmptyString.

(** comparison of pairs from the comparisons of their components *)
Definition lex (c1 c2 : comparison) : comparison :=
  match c1 with Eq => c2 | c => c end.

(** what makes a three-way comparison an order *)
Record compare_order {A} (cmp : A -> A -> comparison) : Prop := {
  co_refl : forall a, cmp a a = Eq;
  co_eq_l : forall a b c, cmp a b = Eq -> cmp a c = cmp b c;
  co_eq_r : forall a b c, cmp b c = Eq -> cmp a c = cmp a b;
  co_lt : forall a b c, cmp a b = Lt -> cmp b c = Lt -> cmp a c = Lt;
  co_anti : forall a b, cmp b a = CompOpp (cmp a b)
}.

(** the readings of the rows of a file that can be read, in file order *)
Fixpoint rows_readings (fd : date) (rows : list (gmap string cell)) : list (datetime * Z) :=
  match rows with
  | [] => []
  | row :: rows' =>
      match row_reading fd row with
      | Ok r => r :: rows_readings fd rows'
      | Raise _ => rows_readings fd rows'
      end
  end.

Definition in_window (cutoff : datetime) (r : datetime * Z) : bool :=
  datetime_geb r.1 cutoff.

(** a reading comes from a row of a file *)
Definition from_row (cutoff : datetime) (paths : list (string * string))
    (r : datetime * Z) : Prop :=
  exists path fd row,
    In path paths /\
    strptime_Ymd (default EmptyString (csv_stem path.1)) = Ok fd /\
    In row (DictReader path.2).1 /\
    row_reading fd row = Ok r /\
    datetime_geb r.1 cutoff = true.

Definition partition_date (name : string) : res date :=
  strptime_Ymd (default EmptyString (csv_stem name)).

(** Every file that is read as a partition has the name the collector
    gives to the partition of its date. *)
Definition canonical_names (files : gmap string string) : Prop :=
  forall name content fd,
    files !! name = Some content -> partition_date name = Ok fd ->
    name = Collector.csv_name (strftime_Ymd fd).

(** The readings of each partition are in the order of their times. *)
Definition chronological (files : gmap string string) : Prop :=
  forall name content fd,
    files !! name = Some content -> partition_date name = Ok fd ->
    Sorted datetime_le (map fst (rows_readings fd (DictReader content).1)).

(** a reading as the collector writes it: hour, minute, count *)
Definition entry : Type := Z * Z * Z.

Definition entry_ok (e : entry) : Prop :=
  0 <= e.1.1 <= 23 /\ 0 <= e.1.2 <= 59.

Definition entry_row (e : entry) : string * string :=
  (zfill2 e.1.1 +:+ ":" +:+ zfill2 e.1.2, str_int e.2).

Definition entry_reading (d : date) (e : entry) : datetime * Z :=
  (mkdatetime d e.1.1 e.1.2 0 0, e.2).

Definition partition_text (entries : list entry) : string :=
  Collector.header_row +:+ rows_text (map entry_row entries).

(** the file of date [d] holds the header and the rows of [entries] *)
Definition partition_of (d : date) (entries : list entry) (path : string * string) : Prop :=
  valid_date d /\ Forall entry_ok entries /\
  path.1 = Collector.csv_name (strftime_Ymd d) /\
  path.2 = partition_text entries.

Definition written_store (files : gmap string string) : Prop :=
  forall name content, files !! name = Some content ->
    exists d entries, partition_of d entries (name, content).

(** the directories the collector makes *)
Inductive collected : option (gmap string string) -> Prop :=
  | collected_absent : collected None
  | collected_empty : collected (Some ∅)
  | collected_save dir now count :
      collected dir -> valid_datetime now ->
      collected (Collector.save_to_csv now (Collector.PyInt count) dir).2.

Definition now_entry (now : datetime) (count : Z) : entry := (hour now, minute now, count).

Definition entry_dict (e : entry) : gmap string cell :=
  row_dict ["time"; "count"] [(entry_row e).1; (entry_row e).2].

(** the readings of a file, as far as its name and its rows can be read *)
Definition partition_readings (path : string * string) : list (datetime * Z) :=
  match partition_date path.1 with
  | Ok d => rows_readings d (DictReader path.2).1
  | Raise _ => []
  end.

Definition header_line : string := "time,count" +:+ CRLF.

Definition data_line (now : datetime) (count : Z) : string :=
  strftime_HM now +:+ "," +:+ str_int count +:+ CRLF.

Definition error_status (r : Collector.response) : bool :=
  (400 <=? Collector.status_code r) && (Collector.status_code r <? 600).

Definition number_reply (status : Z) (z : Z) : Collector.response :=
  Collector.mkresponse status "error"
    (inl (Collector.JObject {[ "number" := Collector.PyInt z ]})).

Definition march_1 : date := mkdate 2024 3 1.
Definition noon_march_1 : datetime := mkdatetime march_1 12 0 0 0.

(** one good row, then a last line cut before its comma *)
Definition short_row_file : string :=
  header_line +:+ "10:00,5" +:+ CRLF +:+ "10:1".

(** one good row and a row whose count is no number: the row is left out *)
Definition bad_count_file : string :=
  header_line +:+ "10:00,5" +:+ CRLF +:+ "10:10,many" +:+ CRLF.

Definition late_feb_29 : datetime := mkdatetime (mkdate 2024 2 29) 23 50 12 5.
Definition early_march_1 : datetime := mkdatetime march_1 0 5 40 0.
Definition three_days_on : datetime := mkdatetime (mkdate 2024 3 4) 9 30 15 250.

(** two partitions of one reading each *)
Definition sample_dir : option (gmap string string) :=
  (Collector.save_to_csv early_march_1 (Collector.PyInt 141)
     (Collector.save_to_csv late_feb_29 (Collector.PyInt 120) None).2).2.

Definition sample_files : gmap string string := default ∅ sample_dir.

(** several readings recorded one after the other *)
Definition record_all (rs : list (datetime * Z)) (dir : option (gmap string string))
  : option (gmap string string) :=
  fold_left (fun d r => (Collector.save_to_csv r.1 (Collector.PyInt r.2) d).2) rs dir.

(** the data lines of readings, in order *)
Fixpoint lines_text (rs : list (datetime * Z)) : string :=
  match rs with
  | [] => EmptyString
  | r :: rs' => data_line r.1 r.2 +:+ lines_text rs'
  end.

(** the outcomes after which [fetch_gym_load] returns [None] *)
Definition fetch_fails (o : Collector.post_outcome) : bool :=
  match o with
  | Collector.PostRaises _ => true
  | Collector.PostReturns r =>
      error_status r ||
      match Collector.body r with
      | inr _ => true
      | inl (Collector.JObject members) =>
          Collector.is_none (default Collector.PyNone (members !! "number"))
      | inl Collector.JOther => false
      end
  end.

(** the outcomes after which [fetch_gym_load] lets an exception escape *)
Definition fetch_crashes (o : Collector.post_outcome) : bool :=
  match o with
  | Collector.PostRaises _ => false
  | Collector.PostReturns r =>
      negb (error_status r) &&
      match Collector.body r with
      | inl Collector.JOther => true
      | _ => false
      end
  end.

Fixpoint all_newline (s : string) : bool :=
  match s with
  | EmptyString => true
  | String c s' => is_newline c && all_newline s'
  end.

(** newline characters stand at the end of the line only *)
Fixpoint line_ok (s : string) : bool :=
  match s with
  | EmptyString => true
  | String c s' => if is_newline c then all_newline s' else line_ok s'
  end.

Definition same_date (d : date) (x : datetime * Z) : bool :=
  match date_compare (dt_date x.1) d with Eq => true | _ => false end.

(** the readings of one date, in the order they were recorded *)
Definition on_date (d : date) (rs : list (datetime * Z)) : list (datetime * Z) :=
  List.filter (same_date d) rs.

(** the file of a date: absent when nothing was recorded on it *)
Definition partition_content (l : list (datetime * Z)) : option string :=
  match l with
  | [] => None
  | _ => Some (header_line +:+ lines_text l)
  end.

(** the reading that the reporter makes of a recorded one *)
Definition charted (x : datetime * Z) : datetime * Z := (minute_of x.1, x.2).

(** the directory holds the partitions of the history, and nothing else *)
Definition holds_history (rs : list (datetime * Z)) (files : gmap string string) : Prop :=
  (forall d, valid_date d ->
     files !! Collector.csv_name (strftime_Ymd d) = partition_content (on_date d rs)) /\
  (forall name content, files !! name = Some content ->
     exists d, valid_date d /\ name = Collector.csv_name (strftime_Ymd d)).

(** the clock never goes back from one write to the next *)
Definition steady_clock (rs : list (datetime * Z)) : Prop :=
  StronglySorted (fun a b : datetime * Z => datetime_le a.1 b.1) rs.

End Notions.

(** * Properties *)

Import Calendar Text Csv Reporter Readings NoPrefilter Notions.

(** ** The calendar: dates and their ordinals *)

Lemma is_leap_spec y :
  is_leap y = true <-> (y mod 4 = 0 /\ (y mod 100 <> 0 \/ y mod 400 = 0)).
Proof.
  unfold is_leap.
  rewrite andb_true_iff, orb_true_iff, negb_true_iff, !Z.eqb_eq, Z.eqb_neq.
  tauto.
Qed.

Lemma days_before_year_succ y :
  days_before_year (y + 1) =
  days_before_year y + (if is_leap y then 366 else 365).
Proof.
  unfold days_before_year.
  replace (y + 1 - 1) with y by lia.
  destruct (is_leap y) eqn:E.
  - apply is_leap_spec in E. Z.div_mod_to_equations. lia.
  - assert (H : ~ (y mod 4 = 0 /\ (y mod 100 <> 0 \/ y mod 400 = 0))).
    { rewrite <- is_leap_spec. congruence. }
    Z.div_mod_to_equations. lia.
Qed.

Lemma days_before_year_mono y y' : y <= y' -> days_before_year y <= days_before_year y'.
Proof.
  unfold days_before_year. Z.div_mod_to_equations. lia.
Qed.

Lemma month_cases m : 1 <= m <= 12 ->
  m = 1 \/ m = 2 \/ m = 3 \/ m = 4 \/ m = 5 \/ m = 6 \/
  m = 7 \/ m = 8 \/ m = 9 \/ m = 10 \/ m = 11 \/ m = 12.
Proof. lia. Qed.

Ltac month_split H :=
  apply month_cases in H;
  repeat (destruct H as [H | H]); subst.

Lemma days_before_month_next y m : 1 <= m <= 11 ->
  days_before_month y (m + 1) = days_before_month y m + days_in_month y m.
Proof.
  intros H. unfold days_before_month, days_in_month.
  assert (H' : 1 <= m <= 12) by lia.
  month_split H'; try lia; simpl; destruct (is_leap y); simpl; lia.
Qed.

Lemma days_before_month_bounds y m : 1 <= m <= 12 ->
  0 <= days_before_month y m /\
  days_before_month y m + days_in_month y m <= (if is_leap y then 366 else 365).
Proof.
  intros H. unfold days_before_month, days_in_month.
  month_split H; simpl; destruct (is_leap y); simpl; lia.
Qed.

Lemma days_before_month_lt y m m' : 1 <= m -> m < m' -> m' <= 12 ->
  days_before_month y m + days_in_month y m <= days_before_month y m'.
Proof.
  intros H1 H2 H3. unfold days_before_month, days_in_month.
  assert (Hm : 1 <= m <= 12) by lia.
  assert (Hm' : 1 <= m' <= 12) by lia.
  month_split Hm; month_split Hm'; try lia; simpl; destruct (is_leap y); simpl; lia.
Qed.

Lemma ymd2ord_lt a b :
  wf_date a -> wf_date b -> date_compare a b = Lt -> ymd2ord a < ymd2ord b.
Proof.
  intros [Ha1 Ha2] [Hb1 Hb2]. unfold date_compare, ymd2ord.
  destruct a as [ya ma da], b as [yb mb db]; cbn [year month day] in *.
  destruct (Z.compare_spec ya yb) as [-> | Hy | Hy]; try discriminate.
  - destruct (Z.compare_spec ma mb) as [-> | Hm | Hm]; try discriminate.
    + intros H. change (da < db) in H. lia.
    + intros _. pose proof (days_before_month_lt yb ma mb). lia.
  - intros _.
    pose proof (days_before_month_bounds ya ma Ha1).
    pose proof (days_before_month_bounds yb mb Hb1).
    pose proof (days_before_year_succ ya).
    pose proof (days_before_year_mono (ya + 1) yb).
    destruct (is_leap ya); lia.
Qed.

Lemma month_day_spec leapyear n : 0 <= n < 365 ->
  let '(m, d) := month_day leapyear n in
  1 <= m <= 12 /\
  1 <= d <= DAYS_IN_MONTH m + (if (m =? 2) && leapyear then 1 else 0) /\
  DAYS_BEFORE_MONTH m + (if (2 <? m) && leapyear then 1 else 0) + d = n + 1.
Proof.
  intros Hn. unfold month_day.
  rewrite Z.shiftr_div_pow2 by lia. change (2 ^ 5) with 32.
  assert (Hm : 1 <= (n + 50) / 32 <= 12) by (Z.div_mod_to_equations; lia).
  assert (Hr : 32 * ((n + 50) / 32) <= n + 50 < 32 * ((n + 50) / 32) + 32)
    by (Z.div_mod_to_equations; lia).
  revert Hr. generalize dependent ((n + 50) / 32). intros m Hm Hr.
  month_split Hm; destruct leapyear; simpl;
    match goal with
    | |- context [?a <? ?b] => destruct (Z.ltb_spec a b)
    end; simpl; lia.
Qed.

Lemma days_in_month_alt y m :
  days_in_month y m = DAYS_IN_MONTH m + (if (m =? 2) && is_leap y then 1 else 0).
Proof.
  unfold days_in_month, DAYS_IN_MONTH.
  destruct m as [|p|p]; try reflexivity.
  do 4 (try destruct p as [p|p|]; try reflexivity); simpl; destruct (is_leap y); reflexivity.
Qed.

Lemma year_split n400 n100 n4 n1 :
  0 <= n100 <= 3 -> 0 <= n4 <= 24 -> 0 <= n1 <= 3 ->
  let y := n400 * 400 + 1 + n100 * 100 + n4 * 4 + n1 in
  days_before_year y = 146097 * n400 + 36524 * n100 + 1461 * n4 + 365 * n1 /\
  is_leap y = (n1 =? 3) && (negb (n4 =? 24) || (n100 =? 3)).
Proof.
  intros H100 H4 H1 y. subst y. split.
  - unfold days_before_year. Z.div_mod_to_equations. lia.
  - apply eq_true_iff_eq. rewrite is_leap_spec.
    rewrite andb_true_iff, orb_true_iff, negb_true_iff, !Z.eqb_eq, Z.eqb_neq.
    Z.div_mod_to_equations. lia.
Qed.

Lemma ord2ymd_spec n :
  wf_date (ord2ymd n) /\ ymd2ord (ord2ymd n) = n.
Proof.
  unfold ord2ymd, DI400Y, DI100Y, DI4Y.
  pose proof (Z.div_mod (n - 1) 146097 ltac:(lia)) as E1.
  pose proof (Z.mod_pos_bound (n - 1) 146097 ltac:(lia)) as B1.
  set (n400 := (n - 1) / 146097) in *. set (r1 := (n - 1) mod 146097) in *.
  pose proof (Z.div_mod r1 36524 ltac:(lia)) as E2.
  pose proof (Z.mod_pos_bound r1 36524 ltac:(lia)) as B2.
  set (n100 := r1 / 36524) in *. set (r2 := r1 mod 36524) in *.
  pose proof (Z.div_mod r2 1461 ltac:(lia)) as E3.
  pose proof (Z.mod_pos_bound r2 1461 ltac:(lia)) as B3.
  set (n4 := r2 / 1461) in *. set (r3 := r2 mod 1461) in *.
  pose proof (Z.div_mod r3 365 ltac:(lia)) as E4.
  pose proof (Z.mod_pos_bound r3 365 ltac:(lia)) as B4.
  set (n1 := r3 / 365) in *. set (r4 := r3 mod 365) in *.
  clearbody n400 r1 n100 r2 n4 r3 n1 r4.
  assert (H100 : 0 <= n100 <= 4) by lia.
  assert (H4 : 0 <= n4 <= 24) by lia.
  assert (H1 : 0 <= n1 <= 4) by lia.
  destruct ((n1 =? 4) || (n100 =? 4)) eqn:Ex.
  - apply orb_true_iff in Ex. rewrite !Z.eqb_eq in Ex.
    split.
    + unfold wf_date; simpl. lia.
    + unfold ymd2ord, days_before_month; cbn [year month day].
      assert (Hl : is_leap (n400 * 400 + 1 + n100 * 100 + n4 * 4 + n1 - 1) = true).
      { apply is_leap_spec. Z.div_mod_to_equations. lia. }
      rewrite Hl. simpl.
      unfold days_before_year. Z.div_mod_to_equations. lia.
  - apply orb_false_iff in Ex. rewrite !Z.eqb_neq in Ex.
    destruct (year_split n400 n100 n4 n1) as [Hd Hl]; [lia | lia | lia |].
    cbv zeta in Hd, Hl.
    set (y := n400 * 400 + 1 + n100 * 100 + n4 * 4 + n1) in *.
    set (leapyear := (n1 =? 3) && (negb (n4 =? 24) || (n100 =? 3))) in *.
    pose proof (month_day_spec leapyear r4 ltac:(lia)) as Hmd.
    unfold month_day in Hmd. cbv zeta in Hmd.
    destruct (r4 <? _).
    + destruct Hmd as (Hm & Hday & Hsum).
      split.
      * unfold wf_date; cbn [year month day]. rewrite days_in_month_alt, Hl. lia.
      * unfold ymd2ord, days_before_month; cbn [year month day]. rewrite Hl, Hd. lia.
    + destruct Hmd as (Hm & Hday & Hsum).
      split.
      * unfold wf_date; cbn [year month day]. rewrite days_in_month_alt, Hl. lia.
      * unfold ymd2ord, days_before_month; cbn [year month day]. rewrite Hl, Hd. lia.
Qed.

Lemma date_compare_eq a b : date_compare a b = Eq -> a = b.
Proof.
  destruct a as [ya ma da], b as [yb mb db]. unfold date_compare; cbn [year month day].
  destruct (Z.compare_spec ya yb); try discriminate.
  destruct (Z.compare_spec ma mb); try discriminate.
  destruct (Z.compare_spec da db); try discriminate.
  intros _. congruence.
Qed.

Lemma date_compare_refl a : date_compare a a = Eq.
Proof. unfold date_compare. rewrite !Z.compare_refl. reflexivity. Qed.

Lemma date_compare_antisym a b : date_compare b a = CompOpp (date_compare a b).
Proof.
  unfold date_compare.
  rewrite (Z.compare_antisym (year a)), (Z.compare_antisym (month a)),
    (Z.compare_antisym (day a)).
  destruct (year a ?= year b), (month a ?= month b), (day a ?= day b); reflexivity.
Qed.

Lemma ymd2ord_compare a b :
  wf_date a -> wf_date b -> date_compare a b = (ymd2ord a ?= ymd2ord b).
Proof.
  intros Ha Hb. destruct (date_compare a b) eqn:E; symmetry.
  - apply date_compare_eq in E. subst. apply Z.compare_refl.
  - apply Z.compare_lt_iff. apply ymd2ord_lt; assumption.
  - apply Z.compare_gt_iff. apply ymd2ord_lt; try assumption.
    rewrite date_compare_antisym, E. reflexivity.
Qed.

Lemma ord2ymd_ymd2ord d : wf_date d -> ord2ymd (ymd2ord d) = d.
Proof.
  intros Hd. destruct (ord2ymd_spec (ymd2ord d)) as [Hw He].
  apply date_compare_eq. rewrite ymd2ord_compare by assumption.
  rewrite He. apply Z.compare_refl.
Qed.

Lemma ord2ymd_year n : 1 <= n <= MAXORDINAL -> MINYEAR <= year (ord2ymd n) <= MAXYEAR.
Proof.
  intros Hn. destruct (ord2ymd_spec n) as [Hw He].
  unfold MINYEAR, MAXYEAR, MAXORDINAL in *.
  assert (H1 : wf_date (mkdate 1 1 1)) by (unfold wf_date; simpl; lia).
  assert (H2 : wf_date (mkdate 9999 12 31)) by (unfold wf_date; simpl; lia).
  pose proof (ymd2ord_compare (ord2ymd n) (mkdate 1 1 1) Hw H1) as C1.
  pose proof (ymd2ord_compare (ord2ymd n) (mkdate 9999 12 31) Hw H2) as C2.
  rewrite He in C1, C2.
  change (ymd2ord (mkdate 1 1 1)) with 1 in C1.
  change (ymd2ord (mkdate 9999 12 31)) with 3652059 in C2.
  unfold date_compare in C1, C2. cbn [year month day] in C1, C2.
  destruct Hw as [Hm Hday]. split.
  - destruct (Z.compare_spec (year (ord2ymd n)) 1); try lia.
    destruct (Z.compare_spec n 1); try discriminate; lia.
  - destruct (Z.compare_spec (year (ord2ymd n)) 9999); try lia.
    destruct (Z.compare_spec n 3652059); try discriminate; lia.
Qed.

Lemma valid_date_wf d : valid_date d -> wf_date d.
Proof. unfold valid_date, wf_date. tauto. Qed.

Lemma ord2ymd_valid n : 1 <= n <= MAXORDINAL -> valid_date (ord2ymd n).
Proof.
  intros Hn. pose proof (ord2ymd_year n Hn). destruct (ord2ymd_spec n) as [[? ?] _].
  unfold valid_date. tauto.
Qed.

Lemma datetime_compare_linear a b :
  wf_datetime a -> wf_datetime b ->
  datetime_compare a b =
  (to_seconds a * 1000000 + microsecond a ?= to_seconds b * 1000000 + microsecond b).
Proof.
  intros (Ha & ? & ? & ? & ?) (Hb & ? & ? & ? & ?).
  unfold datetime_compare, to_seconds. rewrite ymd2ord_compare by assumption.
  symmetry.
  destruct (Z.compare_spec (ymd2ord (dt_date a)) (ymd2ord (dt_date b))) as [E|E|E].
  - rewrite E.
    destruct (Z.compare_spec (hour a) (hour b)) as [E1|E1|E1].
    + rewrite E1.
      destruct (Z.compare_spec (minute a) (minute b)) as [E2|E2|E2].
      * rewrite E2.
        destruct (Z.compare_spec (second a) (second b)) as [E3|E3|E3].
        -- rewrite E3.
           destruct (Z.compare_spec (microsecond a) (microsecond b)) as [E4|E4|E4].
           ++ rewrite E4. apply Z.compare_refl.
           ++ apply Z.compare_lt_iff. lia.
           ++ apply Z.compare_gt_iff. lia.
        -- apply Z.compare_lt_iff. lia.
        -- apply Z.compare_gt_iff. lia.
      * apply Z.compare_lt_iff. lia.
      * apply Z.compare_gt_iff. lia.
    + apply Z.compare_lt_iff. lia.
    + apply Z.compare_gt_iff. lia.
  - apply Z.compare_lt_iff. lia.
  - apply Z.compare_gt_iff. lia.
Qed.

Lemma datetime_sub_seconds_spec t s t' :
  wf_datetime t -> datetime_sub_seconds t s = Ok t' ->
  wf_datetime t' /\ to_seconds t' = to_seconds t - s /\ microsecond t' = microsecond t.
Proof.
  intros (Hd & Hh & Hm & Hs & Hu). unfold datetime_sub_seconds.
  destruct (_ && _) eqn:E; [|discriminate]. intros [= <-].
  set (secs := hour t * 3600 + minute t * 60 + second t - s) in *.
  set (days := ymd2ord (dt_date t) + secs / 86400) in *.
  destruct (ord2ymd_spec days) as [Hw He].
  unfold wf_datetime, to_seconds; cbn [dt_date hour minute second microsecond].
  rewrite He. subst days.
  split; [split; [assumption|]|split; [|reflexivity]].
  - Z.div_mod_to_equations. lia.
  - subst secs. Z.div_mod_to_equations. lia.
Qed.

(** ** Text *)

Lemma sapp_cons (c : ascii) (s t : string) : String c s +:+ t = String c (s +:+ t).
Proof. reflexivity. Qed.

Lemma sapp_nil_l (s : string) : EmptyString +:+ s = s.
Proof. reflexivity. Qed.

Lemma sapp_nil_r (s : string) : s +:+ EmptyString = s.
Proof. induction s as [|c s IH]; [reflexivity|]. rewrite sapp_cons, IH. reflexivity. Qed.

Lemma sapp_assoc (a b c : string) : (a +:+ b) +:+ c = a +:+ (b +:+ c).
Proof. induction a as [|x a IH]; [reflexivity|]. rewrite !sapp_cons, IH. reflexivity. Qed.

Lemma digit_cases d : 0 <= d <= 9 ->
  d = 0 \/ d = 1 \/ d = 2 \/ d = 3 \/ d = 4 \/ d = 5 \/ d = 6 \/ d = 7 \/ d = 8 \/ d = 9.
Proof. lia. Qed.

Ltac digit_split H :=
  apply digit_cases in H; repeat (destruct H as [H | H]); subst.

Ltac eval_digit_chars :=
  repeat match goal with
         | |- context [digit_char ?k] =>
             let v := eval vm_compute in (digit_char k) in
             change (digit_char k) with v in *
         end.

Lemma is_digit_digit_char d : 0 <= d <= 9 -> is_digit (digit_char d) = true.
Proof. intros H. digit_split H; reflexivity. Qed.

Lemma digit_val_digit_char d : 0 <= d <= 9 -> digit_val (digit_char d) = d.
Proof. intros H. digit_split H; reflexivity. Qed.

Lemma is_space_digit_char d : 0 <= d <= 9 -> is_space (digit_char d) = false.
Proof. intros H. digit_split H; reflexivity. Qed.

Lemma is_digit_cases c : is_digit c = true -> exists d, 0 <= d <= 9 /\ c = digit_char d.
Proof.
  intros H. exists (digit_val c). unfold is_digit, digit_val, digit_char in *.
  apply andb_true_iff in H. destruct H as [H1 H2].
  apply N.leb_le in H1, H2. split; [lia|].
  replace (48 + Z.to_N (Z.of_N (N_of_ascii c) - 48))%N with (N_of_ascii c) by lia.
  symmetry. apply ascii_N_embedding.
Qed.

Lemma digits_of_all_digits fuel n acc :
  all_digits acc = true -> all_digits (digits_of fuel n acc) = true.
Proof.
  revert n acc. induction fuel as [|f IH]; intros n acc Hacc; simpl; [assumption|].
  assert (Hd : all_digits (String (digit_char (n mod 10)) acc) = true).
  { simpl. rewrite is_digit_digit_char, Hacc; [reflexivity|].
    pose proof (Z.mod_pos_bound n 10). lia. }
  destruct (n <? 10); [assumption|]. apply IH. assumption.
Qed.

Lemma str_nonneg_all_digits n : all_digits (str_nonneg n) = true.
Proof. apply digits_of_all_digits. reflexivity. Qed.

Lemma digits_of_nonempty fuel n acc :
  digits_of (S fuel) n acc <> EmptyString.
Proof.
  revert n acc. induction fuel as [|f IH]; intros n acc.
  - simpl. destruct (n <? 10); discriminate.
  - change (digits_of (S (S f)) n acc) with
      (let acc' := String (digit_char (n mod 10)) acc in
       if n <? 10 then acc' else digits_of (S f) (n / 10) acc').
    cbv zeta. destruct (n <? 10); [discriminate|]. apply IH.
Qed.

(** reading back the digits that [digits_of] writes *)
Lemma int_digits_digits_of f n rest b :
  0 <= n < 2 ^ Z.of_nat (S f) ->
  int_digits (digits_of (S f) n rest) 0 b = int_digits rest n true.
Proof.
  revert n rest b. induction f as [|f IH]; intros n rest b Hn.
  - change (2 ^ Z.of_nat 1) with 2 in Hn. simpl.
    destruct (Z.ltb_spec n 10); [|lia].
    simpl. rewrite is_digit_digit_char, digit_val_digit_char
      by (pose proof (Z.mod_pos_bound n 10); lia).
    rewrite Z.mod_small by lia. reflexivity.
  - change (digits_of (S (S f)) n rest) with
      (let acc' := String (digit_char (n mod 10)) rest in
       if n <? 10 then acc' else digits_of (S f) (n / 10) acc').
    cbv zeta. destruct (Z.ltb_spec n 10).
    + simpl. rewrite is_digit_digit_char, digit_val_digit_char
        by (pose proof (Z.mod_pos_bound n 10); lia).
      rewrite Z.mod_small by lia. reflexivity.
    + rewrite IH.
      * simpl. rewrite is_digit_digit_char, digit_val_digit_char
          by (pose proof (Z.mod_pos_bound n 10); lia).
        f_equal. pose proof (Z.div_mod n 10). lia.
      * rewrite Nat2Z.inj_succ, Z.pow_succ_r in Hn by lia.
        split; [apply Z.div_pos; lia|].
        apply Z.div_lt_upper_bound; lia.
Qed.

Lemma str_nonneg_fuel n : 0 <= n -> n < 2 ^ Z.of_nat (S (Z.to_nat (Z.log2 n))).
Proof.
  intros Hn. rewrite Nat2Z.inj_succ, Z2Nat.id by apply Z.log2_nonneg.
  destruct (Z.eq_dec n 0) as [->|Hne]; [reflexivity|].
  apply Z.log2_spec. lia.
Qed.

Lemma int_digits_str_nonneg n b : 0 <= n ->
  int_digits (str_nonneg n) 0 b = Some n.
Proof.
  intros Hn. unfold str_nonneg. rewrite int_digits_digits_of.
  - reflexivity.
  - split; [assumption|]. apply str_nonneg_fuel. assumption.
Qed.

Lemma lstrip_no_space s : no_space s = true -> lstrip s = s.
Proof.
  destruct s as [|c s]; [reflexivity|]. simpl. intros H.
  apply andb_true_iff in H. destruct H as [H _].
  apply negb_true_iff in H. rewrite H. reflexivity.
Qed.

Lemma rstrip_no_space s : no_space s = true -> rstrip s = s.
Proof.
  induction s as [|c s IH]; [reflexivity|]. simpl. intros H.
  apply andb_true_iff in H. destruct H as [Hc Hs].
  apply negb_true_iff in Hc. rewrite IH, Hc by assumption.
  destruct s; reflexivity.
Qed.

Lemma strip_no_space s : no_space s = true -> strip s = s.
Proof.
  intros H. unfold strip. rewrite lstrip_no_space by assumption.
  apply rstrip_no_space. assumption.
Qed.

Lemma all_digits_no_space s : all_digits s = true -> no_space s = true.
Proof.
  induction s as [|c s IH]; [reflexivity|]. simpl. intros H.
  apply andb_true_iff in H. destruct H as [Hc Hs].
  rewrite IH by assumption. apply is_digit_cases in Hc. destruct Hc as (d & Hd & ->).
  rewrite is_space_digit_char by assumption. reflexivity.
Qed.

Lemma str_nonneg_cons n : exists d s, 0 <= d <= 9 /\ str_nonneg n = String (digit_char d) s.
Proof.
  pose proof (str_nonneg_all_digits n) as Hall.
  pose proof (digits_of_nonempty (Z.to_nat (Z.log2 n)) n EmptyString) as Hne.
  fold (str_nonneg n) in Hne.
  destruct (str_nonneg n) as [|c s]; [congruence|].
  simpl in Hall. apply andb_true_iff in Hall. destruct Hall as [Hc _].
  apply is_digit_cases in Hc. destruct Hc as (d & Hd & ->). eauto.
Qed.

(** [int(str(z)) == z] *)
Lemma int_of_str_str_int z : int_of_str (str_int z) = Ok z.
Proof.
  unfold int_of_str, str_int. destruct (Z.ltb_spec z 0) as [Hz|Hz].
  - rewrite strip_no_space.
    + rewrite int_digits_str_nonneg by lia. simpl. f_equal. lia.
    + simpl. apply all_digits_no_space, str_nonneg_all_digits.
  - rewrite strip_no_space by apply all_digits_no_space, str_nonneg_all_digits.
    pose proof (int_digits_str_nonneg z false Hz) as Hv.
    destruct (str_nonneg_cons z) as (d & s & Hd & E). rewrite E in *.
    digit_split Hd; eval_digit_chars; cbv iota beta; rewrite Hv; reflexivity.
Qed.

Lemma digits_of_step f n acc :
  digits_of (S f) n acc =
  if n <? 10 then String (digit_char (n mod 10)) acc
  else digits_of f (n / 10) (String (digit_char (n mod 10)) acc).
Proof. reflexivity. Qed.

Lemma log2_fuel n k : 2 ^ Z.of_nat k <= n -> exists f, Z.to_nat (Z.log2 n) = (k + f)%nat.
Proof.
  intros H. exists (Z.to_nat (Z.log2 n) - k)%nat.
  assert (Z.of_nat k <= Z.log2 n).
  { apply Z.log2_le_pow2; [|assumption].
    pose proof (Z.pow_pos_nonneg 2 (Z.of_nat k)). lia. }
  lia.
Qed.

Lemma str_nonneg_1 n : 0 <= n < 10 ->
  str_nonneg n = String (digit_char n) EmptyString.
Proof.
  intros H. unfold str_nonneg. rewrite digits_of_step.
  destruct (Z.ltb_spec n 10); [|lia]. rewrite Z.mod_small by lia. reflexivity.
Qed.

Lemma str_nonneg_2 n : 10 <= n < 100 ->
  str_nonneg n = String (digit_char (n / 10)) (String (digit_char (n mod 10)) EmptyString).
Proof.
  intros H. unfold str_nonneg.
  destruct (log2_fuel n 1) as [f ->]; [simpl; lia|].
  rewrite digits_of_step. destruct (Z.ltb_spec n 10); [lia|].
  cbn [Nat.add]. rewrite digits_of_step.
  destruct (Z.ltb_spec (n / 10) 10) as [_|Hc]; [|Z.div_mod_to_equations; lia].
  rewrite (Z.mod_small (n / 10)) by (Z.div_mod_to_equations; lia). reflexivity.
Qed.

Lemma str_nonneg_3 n : 100 <= n < 1000 ->
  str_nonneg n =
  String (digit_char (n / 100))
    (String (digit_char (n / 10 mod 10)) (String (digit_char (n mod 10)) EmptyString)).
Proof.
  intros H. unfold str_nonneg.
  destruct (log2_fuel n 2) as [f ->]; [simpl; lia|].
  rewrite digits_of_step. destruct (Z.ltb_spec n 10); [lia|].
  cbn [Nat.add]. rewrite digits_of_step.
  destruct (Z.ltb_spec (n / 10) 10) as [Hc|_]; [Z.div_mod_to_equations; lia|].
  rewrite digits_of_step.
  destruct (Z.ltb_spec (n / 10 / 10) 10) as [_|Hc]; [|Z.div_mod_to_equations; lia].
  rewrite (Z.mod_small (n / 10 / 10)) by (Z.div_mod_to_equations; lia).
  rewrite Z.div_div by lia. reflexivity.
Qed.

Lemma str_nonneg_4 n : 1000 <= n < 10000 ->
  str_nonneg n =
  String (digit_char (n / 1000))
    (String (digit_char (n / 100 mod 10))
       (String (digit_char (n / 10 mod 10)) (String (digit_char (n mod 10)) EmptyString))).
Proof.
  intros H. unfold str_nonneg.
  destruct (log2_fuel n 3) as [f ->]; [simpl; lia|].
  rewrite digits_of_step. destruct (Z.ltb_spec n 10); [lia|].
  cbn [Nat.add]. rewrite digits_of_step.
  destruct (Z.ltb_spec (n / 10) 10) as [Hc|_]; [Z.div_mod_to_equations; lia|].
  rewrite digits_of_step.
  destruct (Z.ltb_spec (n / 10 / 10) 10) as [Hc|_]; [Z.div_mod_to_equations; lia|].
  rewrite digits_of_step.
  destruct (Z.ltb_spec (n / 10 / 10 / 10) 10) as [_|Hc]; [|Z.div_mod_to_equations; lia].
  rewrite (Z.mod_small (n / 10 / 10 / 10)) by (Z.div_mod_to_equations; lia).
  rewrite !Z.div_div by lia. reflexivity.
Qed.

Lemma zfill2_digits n : 0 <= n < 100 -> zfill2 n = two_digits n EmptyString.
Proof.
  intros H. unfold zfill2, two_digits. destruct (Z.ltb_spec n 10).
  - rewrite str_nonneg_1 by lia. rewrite Z.div_small, Z.mod_small by lia. reflexivity.
  - apply str_nonneg_2. lia.
Qed.

Lemma zfill2_app n rest : 0 <= n < 100 -> zfill2 n +:+ rest = two_digits n rest.
Proof. intros H. rewrite zfill2_digits by assumption. reflexivity. Qed.

Lemma zfill4_digits n : 0 <= n < 10000 -> zfill4 n = four_digits n EmptyString.
Proof.
  intros H. unfold zfill4, four_digits.
  destruct (Z.ltb_spec n 10).
  { rewrite str_nonneg_1 by lia.
    rewrite !Z.div_small, !Z.mod_small by lia. reflexivity. }
  destruct (Z.ltb_spec n 100).
  { rewrite str_nonneg_2 by lia.
    rewrite (Z.div_small n 1000), (Z.div_small n 100) by lia.
    rewrite (Z.mod_small (n / 10)) by (Z.div_mod_to_equations; lia). reflexivity. }
  destruct (Z.ltb_spec n 1000).
  { rewrite str_nonneg_3 by lia.
    rewrite (Z.div_small n 1000) by lia.
    rewrite (Z.mod_small (n / 100)) by (Z.div_mod_to_equations; lia). reflexivity. }
  apply str_nonneg_4. lia.
Qed.

Lemma zfill4_app n rest : 0 <= n < 10000 -> zfill4 n +:+ rest = four_digits n rest.
Proof. intros H. rewrite zfill4_digits by assumption. reflexivity. Qed.

(** *** The regular expressions on zero-padded numbers *)

Section RegexFacts.
Context {R : Type}.

Lemma re_two_digits lo1 hi1 lo2 hi2 (k : Z -> string -> option R) a b rest :
  0 <= a <= 9 -> 0 <= b <= 9 ->
  re_two lo1 hi1 lo2 hi2 k (String (digit_char a) (String (digit_char b) rest)) =
  if (lo1 <=? a) && (a <=? hi1) && (lo2 <=? b) && (b <=? hi2)
  then k (a * 10 + b) rest else None.
Proof.
  intros Ha Hb. unfold re_two.
  rewrite !is_digit_digit_char, !digit_val_digit_char by assumption.
  reflexivity.
Qed.

Lemma re_one_digit lo hi (k : Z -> string -> option R) a rest :
  0 <= a <= 9 ->
  re_one lo hi k (String (digit_char a) rest) =
  if (lo <=? a) && (a <=? hi) then k a rest else None.
Proof.
  intros Ha. unfold re_one.
  rewrite !is_digit_digit_char, !digit_val_digit_char by assumption.
  reflexivity.
Qed.

Lemma re_lit_space_digit (k : string -> option R) a rest :
  0 <= a <= 9 -> re_lit " " k (String (digit_char a) rest) = None.
Proof. intros Ha. digit_split Ha; reflexivity. Qed.

Lemma re_lit_dash_digit (k : string -> option R) a rest :
  0 <= a <= 9 -> re_lit "-" k (String (digit_char a) rest) = None.
Proof. intros Ha. digit_split Ha; reflexivity. Qed.

Lemma re_lit_colon_digit (k : string -> option R) a rest :
  0 <= a <= 9 -> re_lit ":" k (String (digit_char a) rest) = None.
Proof. intros Ha. digit_split Ha; reflexivity. Qed.

Lemma re_spaces_digit (k : string -> option R) a rest :
  0 <= a <= 9 -> re_spaces k (String (digit_char a) rest) = None.
Proof. intros Ha. unfold re_spaces. rewrite is_space_digit_char by assumption. reflexivity. Qed.

Lemma orelse_None_r (x : option R) : orelse x None = x.
Proof. destruct x; reflexivity. Qed.

Ltac bool_arith :=
  repeat match goal with
         | |- context [?a <=? ?b] => destruct (Z.leb_spec a b)
         end; cbn [andb orb negb]; try lia.

Ltac orelse_done :=
  cbn [orelse]; rewrite ?orelse_None_r; try reflexivity;
  match goal with
  | |- context [orelse ?x _] => destruct x; reflexivity
  end.

Lemma re_Y_digits (k : Z -> string -> option R) y rest :
  0 <= y < 10000 -> re_Y k (four_digits y rest) = k y rest.
Proof.
  intros Hy. unfold re_Y, four_digits.
  rewrite !is_digit_digit_char, !digit_val_digit_char by (Z.div_mod_to_equations; lia).
  cbn [andb]. f_equal. Z.div_mod_to_equations. lia.
Qed.

Lemma re_m_digits (k : Z -> string -> option R) m rest :
  1 <= m <= 12 ->
  re_m k (two_digits m rest) =
  orelse (k m rest)
    (if 10 <=? m then k 1 (String (digit_char (m mod 10)) rest) else None).
Proof.
  intros Hm. unfold re_m, two_digits.
  rewrite !re_two_digits, re_one_digit by (Z.div_mod_to_equations; lia).
  assert (E : m / 10 * 10 + m mod 10 = m) by (Z.div_mod_to_equations; lia).
  rewrite E.
  destruct (Z.leb_spec 10 m).
  - assert (Ha : m / 10 = 1) by (Z.div_mod_to_equations; lia). rewrite Ha.
    assert (Hb : 0 <= m mod 10 <= 2) by (Z.div_mod_to_equations; lia).
    bool_arith; orelse_done.
  - assert (Ha : m / 10 = 0) by (Z.div_mod_to_equations; lia). rewrite Ha.
    assert (Hb : 1 <= m mod 10 <= 9) by (Z.div_mod_to_equations; lia).
    bool_arith; orelse_done.
Qed.

Lemma re_d_digits (k : Z -> string -> option R) d rest :
  1 <= d <= 31 ->
  re_d k (two_digits d rest) =
  orelse (k d rest)
    (if 10 <=? d then k (d / 10) (String (digit_char (d mod 10)) rest) else None).
Proof.
  intros Hd. unfold re_d, two_digits.
  rewrite !re_two_digits, re_one_digit, re_lit_space_digit by (Z.div_mod_to_equations; lia).
  assert (E : d / 10 * 10 + d mod 10 = d) by (Z.div_mod_to_equations; lia).
  rewrite E.
  assert (Ha : 0 <= d / 10 <= 3) by (Z.div_mod_to_equations; lia).
  assert (Hb : 0 <= d mod 10 <= 9) by (Z.div_mod_to_equations; lia).
  assert (Hc : d / 10 = 3 -> d mod 10 <= 1) by (Z.div_mod_to_equations; lia).
  assert (Hc' : d / 10 = 0 -> 1 <= d mod 10) by (Z.div_mod_to_equations; lia).
  assert (Hc'' : 10 <= d <-> 1 <= d / 10) by (Z.div_mod_to_equations; lia).
  assert (Hq : d / 10 = 0 \/ d / 10 = 1 \/ d / 10 = 2 \/ d / 10 = 3) by lia.
  destruct (Z.leb_spec 10 d);
    destruct Hq as [Hq | [Hq | [Hq | Hq]]]; rewrite Hq in *; try lia;
    cbn [Z.leb Z.compare Pos.compare Pos.compare_cont andb orelse];
    bool_arith; orelse_done.
Qed.

Lemma re_H_digits (k : Z -> string -> option R) h rest :
  0 <= h <= 23 ->
  re_H k (two_digits h rest) =
  orelse (k h rest) (k (h / 10) (String (digit_char (h mod 10)) rest)).
Proof.
  intros Hh. unfold re_H, two_digits.
  rewrite !re_two_digits, re_one_digit by (Z.div_mod_to_equations; lia).
  assert (E : h / 10 * 10 + h mod 10 = h) by (Z.div_mod_to_equations; lia).
  rewrite E.
  assert (Ha : 0 <= h / 10 <= 2) by (Z.div_mod_to_equations; lia).
  assert (Hb : 0 <= h mod 10 <= 9) by (Z.div_mod_to_equations; lia).
  assert (Hc : h / 10 = 2 -> h mod 10 <= 3) by (Z.div_mod_to_equations; lia).
  bool_arith; orelse_done.
Qed.

Lemma re_M_digits (k : Z -> string -> option R) m rest :
  0 <= m <= 59 ->
  re_M k (two_digits m rest) =
  orelse (k m rest) (k (m / 10) (String (digit_char (m mod 10)) rest)).
Proof.
  intros Hm. unfold re_M, two_digits.
  rewrite !re_two_digits, re_one_digit by (Z.div_mod_to_equations; lia).
  assert (E : m / 10 * 10 + m mod 10 = m) by (Z.div_mod_to_equations; lia).
  rewrite E.
  assert (Ha : 0 <= m / 10 <= 5) by (Z.div_mod_to_equations; lia).
  assert (Hb : 0 <= m mod 10 <= 9) by (Z.div_mod_to_equations; lia).
  bool_arith; orelse_done.
Qed.

End RegexFacts.

Lemma valid_dateb_spec d : valid_dateb d = true <-> valid_date d.
Proof.
  unfold valid_dateb, valid_date.
  rewrite !andb_true_iff, !Z.leb_le. tauto.
Qed.

Lemma days_in_month_le y m : days_in_month y m <= 31.
Proof.
  unfold days_in_month.
  destruct m as [|p|p]; try lia.
  do 4 (try destruct p as [p|p|]; try lia); destruct (is_leap y); lia.
Qed.

Lemma strftime_Ymd_digits d rest :
  valid_date d ->
  strftime_Ymd d +:+ rest =
  four_digits (year d) (String "-" (two_digits (month d) (String "-" (two_digits (day d) rest)))).
Proof.
  intros (Hy & Hm & Hd). unfold MINYEAR, MAXYEAR in Hy.
  pose proof (days_in_month_le (year d) (month d)).
  unfold strftime_Ymd. rewrite !sapp_assoc.
  rewrite zfill4_app by lia.
  rewrite !(sapp_cons "-"), !sapp_nil_l.
  rewrite !zfill2_app by lia. reflexivity.
Qed.

Section DatePrefix.
Context {R : Type}.

(** The date part of both formats on the text of a date. *)
Lemma re_date_prefix (k : Z -> Z -> Z -> string -> option R) d rest :
  valid_date d ->
  re_Y (fun y => re_lit "-" (re_m (fun m => re_lit "-" (re_d (fun dd => k y m dd)))))
    (strftime_Ymd d +:+ rest) =
  orelse (k (year d) (month d) (day d) rest)
    (if 10 <=? day d
     then k (year d) (month d) (day d / 10) (String (digit_char (day d mod 10)) rest)
     else None).
Proof.
  intros Hv. rewrite strftime_Ymd_digits by assumption.
  destruct Hv as (Hy & Hm & Hd). unfold MINYEAR, MAXYEAR in Hy.
  pose proof (days_in_month_le (year d) (month d)).
  rewrite re_Y_digits by lia.
  change (re_lit "-" ?f (String "-" ?s)) with (f s).
  rewrite re_m_digits by lia.
  change (re_lit "-" ?f (String "-" ?s)) with (f s).
  rewrite re_d_digits by lia.
  rewrite re_lit_dash_digit by (Z.div_mod_to_equations; lia).
  destruct (10 <=? month d); apply orelse_None_r.
Qed.

End DatePrefix.

(** A file name written by the collector is read back as its date. *)
Lemma strptime_Ymd_strftime d : valid_date d -> strptime_Ymd (strftime_Ymd d) = Ok d.
Proof.
  intros Hv. unfold strptime_Ymd.
  rewrite <- (sapp_nil_r (strftime_Ymd d)).
  rewrite (re_date_prefix (fun y m dd rest => Some (mkdate y m dd, rest))) by assumption.
  cbn [orelse]. destruct d as [y m dd]; cbn [year month day].
  apply valid_dateb_spec in Hv. rewrite Hv. reflexivity.
Qed.

Lemma strptime_Ymd_valid s d : strptime_Ymd s = Ok d -> valid_date d.
Proof.
  unfold strptime_Ymd.
  destruct (re_Y _ s) as [[d' [|? ?]]|]; try discriminate.
  destruct (valid_dateb d') eqn:E; [|discriminate].
  intros [= <-]. apply valid_dateb_spec. assumption.
Qed.

Lemma re_time_date d t dt r : re_time d t = Some (dt, r) -> dt_date dt = d.
Proof.
  unfold re_time.
  assert (Hk : forall s v r, re_H (fun h => re_lit ":" (re_M (fun mi rest =>
             Some (mkdatetime d h mi 0 0, rest)))) s = Some (v, r) ->
             dt_date v = d).
  { intros s v r'. unfold re_H, re_M, re_two, re_one, re_lit, orelse.
    repeat match goal with
           | |- context [match ?x with _ => _ end] =>
               lazymatch x with
               | context [match _ with _ => _ end] => fail
               | _ => destruct x eqn:?
               end
           end; try discriminate; intros [= <- <-]; reflexivity. }
  revert dt r. induction t as [|c t IH]; intros dt r; simpl.
  - apply Hk.
  - destruct (is_space c); [|apply Hk].
    unfold orelse. destruct (re_spaces0 _ t) as [[v r']|] eqn:E.
    + intros [= -> ->]. eapply IH. reflexivity.
    + apply Hk.
Qed.

Lemma strptime_Ymd_HM_unfold d t :
  valid_date d ->
  strptime_Ymd_HM (str_date d +:+ " " +:+ t) =
  match re_time d t with
  | Some (dt, EmptyString) => Ok dt
  | _ => Raise ValueError
  end.
Proof.
  intros Hv. unfold strptime_Ymd_HM, str_date.
  rewrite (re_date_prefix (fun y m dd => re_spaces (re_H (fun h => re_lit ":"
    (re_M (fun mi rest => Some (mkdatetime (mkdate y m dd) h mi 0 0, rest))))))) by assumption.
  pose proof Hv as (Hy & Hm & Hd).
  pose proof (days_in_month_le (year d) (month d)).
  rewrite re_spaces_digit by (Z.div_mod_to_equations; lia).
  assert (E : forall x : option (datetime * string),
             orelse x (if 10 <=? day d then None else None) = x)
    by (intros x; destruct (10 <=? day d); apply orelse_None_r).
  rewrite E. rewrite sapp_cons, sapp_nil_l.
  change (re_spaces ?f (String " " ?s)) with (re_spaces0 f s).
  destruct d as [y m dd]; cbn [year month day] in *. fold (re_time (mkdate y m dd)).
  destruct (re_time (mkdate y m dd) t) as [[dt [|? ?]]|] eqn:Et; try reflexivity.
  apply re_time_date in Et. rewrite Et.
  apply valid_dateb_spec in Hv. rewrite Hv. reflexivity.
Qed.

Lemma strptime_Ymd_HM_date d t dt :
  valid_date d -> strptime_Ymd_HM (str_date d +:+ " " +:+ t) = Ok dt -> dt_date dt = d.
Proof.
  intros Hv. rewrite strptime_Ymd_HM_unfold by assumption.
  destruct (re_time d t) as [[dt' [|? ?]]|] eqn:Et; try discriminate.
  intros [= <-]. eapply re_time_date. eassumption.
Qed.

Lemma re_time_strftime d h m :
  0 <= h <= 23 -> 0 <= m <= 59 ->
  re_time d (zfill2 h +:+ ":" +:+ zfill2 m) = Some (mkdatetime d h m 0 0, EmptyString).
Proof.
  intros Hh Hm. unfold re_time.
  rewrite zfill2_app by lia. rewrite sapp_cons, sapp_nil_l, zfill2_digits by lia.
  unfold two_digits at 1. cbn [re_spaces0].
  rewrite is_space_digit_char by (Z.div_mod_to_equations; lia).
  fold (two_digits h (String ":" (two_digits m EmptyString))).
  rewrite re_H_digits by lia.
  change (re_lit ":" ?f (String ":" ?s)) with (f s).
  rewrite re_M_digits by lia. reflexivity.
Qed.

(** A row written by the collector is read back as its timestamp. *)
Lemma strptime_Ymd_HM_strftime t :
  valid_datetime t ->
  strptime_Ymd_HM (str_date (dt_date t) +:+ " " +:+ strftime_HM t) = Ok (minute_of t).
Proof.
  intros (Hd & Hh & Hm & _). rewrite strptime_Ymd_HM_unfold by assumption.
  unfold strftime_HM. rewrite re_time_strftime by lia. reflexivity.
Qed.

(** ** The csv writer and reader on unquoted fields *)

Lemma any_char_app p a b : any_char p (a +:+ b) = any_char p a || any_char p b.
Proof.
  induction a as [|c a IH]; [reflexivity|].
  rewrite sapp_cons. simpl. rewrite IH. apply orb_assoc.
Qed.

Lemma write_field_clean s : clean s -> write_field s = s.
Proof. unfold clean, write_field. intros ->. reflexivity. Qed.

Lemma needs_quote_digit d : 0 <= d <= 9 -> needs_quote (digit_char d) = false.
Proof. intros H. digit_split H; reflexivity. Qed.

Lemma all_digits_clean s : all_digits s = true -> clean s.
Proof.
  unfold clean. induction s as [|c s IH]; [reflexivity|]. simpl. intros H.
  apply andb_true_iff in H. destruct H as [Hc Hs].
  apply is_digit_cases in Hc. destruct Hc as (d & Hd & ->).
  rewrite needs_quote_digit, IH by assumption. reflexivity.
Qed.

Lemma str_int_clean z : clean (str_int z).
Proof.
  unfold str_int. destruct (z <? 0).
  - unfold clean. simpl. apply all_digits_clean, str_nonneg_all_digits.
  - apply all_digits_clean, str_nonneg_all_digits.
Qed.

Lemma str_int_nonempty z : str_int z <> EmptyString.
Proof.
  unfold str_int. destruct (z <? 0); [discriminate|].
  destruct (str_nonneg_cons z) as (d & s & _ & ->). discriminate.
Qed.

Lemma zfill2_all_digits n : all_digits (zfill2 n) = true.
Proof.
  unfold zfill2. destruct (n <? 10); simpl; apply str_nonneg_all_digits.
Qed.

Lemma strftime_HM_clean t : clean (strftime_HM t).
Proof.
  unfold clean, strftime_HM. rewrite !any_char_app.
  rewrite (all_digits_clean _ (zfill2_all_digits (hour t))).
  rewrite (all_digits_clean _ (zfill2_all_digits (minute t))).
  reflexivity.
Qed.

Lemma zfill2_nonempty n : zfill2 n <> EmptyString.
Proof.
  unfold zfill2. destruct (n <? 10); [discriminate|].
  destruct (str_nonneg_cons n) as (d & s & _ & ->). discriminate.
Qed.

Lemma strftime_HM_nonempty t : strftime_HM t <> EmptyString.
Proof.
  unfold strftime_HM. pose proof (zfill2_nonempty (hour t)).
  destruct (zfill2 (hour t)); [congruence|discriminate].
Qed.

(** *** Lines *)

Lemma clean_cons c s : clean (String c s) -> needs_quote c = false /\ clean s.
Proof. unfold clean. simpl. intros H. apply orb_false_iff in H. exact H. Qed.

Lemma needs_quote_false c :
  needs_quote c = false ->
  Ascii.eqb c COMMA = false /\ Ascii.eqb c QUOTE = false /\
  Ascii.eqb c LF = false /\ Ascii.eqb c CR = false /\ is_newline c = false.
Proof.
  unfold needs_quote, is_newline. intros H.
  apply orb_false_iff in H. destruct H as [H Hnl].
  apply orb_false_iff in H. destruct H as [Hc Hq].
  pose proof Hnl as Hnl'. apply orb_false_iff in Hnl'. tauto.
Qed.

Lemma clean_no_newline s : clean s -> no_newline s.
Proof.
  unfold clean, no_newline. induction s as [|c s IH]; [reflexivity|].
  simpl. intros H. apply orb_false_iff in H. destruct H as [Hc Hs].
  apply needs_quote_false in Hc. destruct Hc as (_ & _ & _ & _ & ->).
  apply IH. assumption.
Qed.

Lemma lines_from_line s cur rest :
  no_newline s ->
  lines_from cur (s +:+ CRLF +:+ rest) = (cur +:+ s +:+ CRLF) :: lines_from EmptyString rest.
Proof.
  revert cur. induction s as [|c s IH]; intros cur Hs.
  - rewrite sapp_nil_l. reflexivity.
  - unfold no_newline in Hs. simpl in Hs. apply orb_false_iff in Hs.
    destruct Hs as [Hc Hs]. unfold is_newline in Hc.
    apply orb_false_iff in Hc. destruct Hc as [Hlf Hcr].
    rewrite sapp_cons. cbn [lines_from]. rewrite Hlf, Hcr.
    rewrite IH by assumption. rewrite sapp_assoc. reflexivity.
Qed.

(** *** One row of two unquoted fields *)

Lemma parse_line_in_field s f fs rest :
  clean s ->
  parse_line (mkreader IN_FIELD f fs) (s +:+ rest) =
  parse_line (mkreader IN_FIELD (f +:+ s) fs) rest.
Proof.
  revert f. induction s as [|c s IH]; intros f Hs.
  - rewrite sapp_nil_l, sapp_nil_r. reflexivity.
  - apply clean_cons in Hs. destruct Hs as [Hc Hs].
    apply needs_quote_false in Hc. destruct Hc as (Hcomma & _ & _ & _ & Hnl).
    rewrite sapp_cons. cbn [parse_line bind parse_process_char state].
    rewrite Hnl, Hcomma. cbn [bind]. unfold parse_add_char; cbn [state field fields].
    rewrite IH by assumption. rewrite sapp_assoc. reflexivity.
Qed.

Lemma parse_line_start_field s st fs rest :
  clean s -> s <> EmptyString -> st = START_RECORD \/ st = START_FIELD ->
  parse_line (mkreader st EmptyString fs) (s +:+ rest) =
  parse_line (mkreader IN_FIELD s fs) rest.
Proof.
  intros Hs Hne Hst. destruct s as [|c s]; [congruence|].
  apply clean_cons in Hs. destruct Hs as [Hc Hs].
  apply needs_quote_false in Hc. destruct Hc as (Hcomma & Hq & _ & _ & Hnl).
  rewrite sapp_cons. cbn [parse_line].
  assert (E : parse_process_char (mkreader st EmptyString fs) c =
              Ok (mkreader IN_FIELD (String c EmptyString) fs)).
  { destruct Hst as [-> | ->]; unfold parse_process_char, start_field; cbn [state];
      rewrite ?Hnl, ?Hq, ?Hcomma; reflexivity. }
  rewrite E. cbn [bind].
  rewrite parse_line_in_field by assumption. reflexivity.
Qed.

Lemma parse_line_row a b :
  clean a -> clean b -> a <> EmptyString -> b <> EmptyString ->
  parse_line parse_reset (writerow2 a b) = Ok (mkreader EAT_CRNL EmptyString [a; b]).
Proof.
  intros Ha Hb Hae Hbe. unfold writerow2, parse_reset.
  rewrite !write_field_clean by assumption.
  rewrite parse_line_start_field by auto.
  rewrite sapp_cons. cbn [parse_line parse_process_char state].
  change (is_newline COMMA) with false. change (Ascii.eqb COMMA COMMA) with true.
  cbv iota. cbn [bind]. unfold parse_save_field, set_state; cbn [state field fields].
  rewrite parse_line_start_field by auto.
  reflexivity.
Qed.

Lemma file_lines_row a b rest :
  clean a -> clean b ->
  lines_from EmptyString (writerow2 a b +:+ rest) =
  writerow2 a b :: lines_from EmptyString rest.
Proof.
  intros Ha Hb. unfold writerow2.
  rewrite !write_field_clean by assumption.
  assert (Hc : no_newline (a +:+ String COMMA b)).
  { unfold no_newline. rewrite any_char_app. simpl.
    rewrite (clean_no_newline a), (clean_no_newline b) by assumption. reflexivity. }
  replace ((a +:+ String COMMA b +:+ CRLF) +:+ rest)
    with ((a +:+ String COMMA b) +:+ CRLF +:+ rest)
    by (rewrite !sapp_assoc; reflexivity).
  rewrite lines_from_line by assumption.
  rewrite sapp_nil_l, sapp_assoc, sapp_cons. reflexivity.
Qed.

Lemma csv_reader_rows rows :
  Forall clean_row rows ->
  csv_reader (rows_text rows) = (map (fun r => [r.1; r.2]) rows, None).
Proof.
  unfold csv_reader, file_lines.
  induction 1 as [|[a b] rows (Ha & Hb & Hae & Hbe) _ IH]; [reflexivity|].
  cbn [rows_text]. rewrite file_lines_row by assumption.
  cbn [reader_rows]. rewrite parse_line_row by assumption.
  cbn [parse_process_eol state set_state is_start_record fields field].
  rewrite IH. reflexivity.
Qed.

Lemma rows_text_app r1 r2 : rows_text (r1 ++ r2) = rows_text r1 +:+ rows_text r2.
Proof.
  induction r1 as [|[a b] r1 IH]; [reflexivity|].
  cbn [rows_text app]. rewrite IH, sapp_assoc. reflexivity.
Qed.

(** ** The order of dates and datetimes *)

(** *** Comparison of field tuples is an order *)

Lemma compare_order_Z {A} (f : A -> Z) : compare_order (fun a b => f a ?= f b).
Proof.
  split.
  - intros a. apply Z.compare_refl.
  - intros a b c H. apply Z.compare_eq in H. rewrite H. reflexivity.
  - intros a b c H. apply Z.compare_eq in H. rewrite H. reflexivity.
  - intros a b c H1 H2. change (f a < f b) in H1. change (f b < f c) in H2.
    apply Z.compare_lt_iff. lia.
  - intros a b. apply Z.compare_antisym.
Qed.

Lemma compare_order_lex {A} (c1 c2 : A -> A -> comparison) :
  compare_order c1 -> compare_order c2 ->
  compare_order (fun a b => lex (c1 a b) (c2 a b)).
Proof.
  intros O1 O2. split.
  - intros a. rewrite (co_refl _ O1). apply (co_refl _ O2).
  - intros a b c. unfold lex. destruct (c1 a b) eqn:E1; try discriminate.
    intros E2. rewrite (co_eq_l _ O1 a b c E1), (co_eq_l _ O2 a b c E2). reflexivity.
  - intros a b c. unfold lex. destruct (c1 b c) eqn:E1; try discriminate.
    intros E2. rewrite (co_eq_r _ O1 a b c E1), (co_eq_r _ O2 a b c E2). reflexivity.
  - intros a b c. unfold lex.
    destruct (c1 a b) eqn:E1; try discriminate;
      destruct (c1 b c) eqn:E2; try discriminate; intros H1 H2.
    + rewrite (co_eq_l _ O1 a b c E1), E2. eapply (co_lt _ O2); eassumption.
    + rewrite (co_eq_l _ O1 a b c E1), E2. reflexivity.
    + rewrite (co_eq_r _ O1 a b c E2), E1. reflexivity.
    + rewrite (co_lt _ O1 a b c E1 E2). reflexivity.
  - intros a b. rewrite (co_anti _ O1 a b), (co_anti _ O2 a b).
    unfold lex. destruct (c1 a b); reflexivity.
Qed.

Lemma compare_order_ext {A} (c1 c2 : A -> A -> comparison) :
  (forall a b, c1 a b = c2 a b) -> compare_order c1 -> compare_order c2.
Proof.
  intros E O. split; intros *; rewrite <- !E.
  - apply (co_refl _ O).
  - apply (co_eq_l _ O).
  - apply (co_eq_r _ O).
  - apply (co_lt _ O).
  - apply (co_anti _ O).
Qed.

Lemma compare_order_date : compare_order date_compare.
Proof.
  apply (compare_order_ext (fun a b : date =>
            lex (year a ?= year b) (lex (month a ?= month b) (day a ?= day b)))).
  { intros a b. unfold date_compare, lex.
    destruct (year a ?= year b), (month a ?= month b); reflexivity. }
  apply (compare_order_lex (fun a b => year a ?= year b)
           (fun a b => lex (month a ?= month b) (day a ?= day b))).
  - apply (compare_order_Z year).
  - apply (compare_order_lex (fun a b => month a ?= month b) (fun a b => day a ?= day b)).
    + apply (compare_order_Z month).
    + apply (compare_order_Z day).
Qed.

Lemma compare_order_datetime : compare_order datetime_compare.
Proof.
  apply (compare_order_ext (fun a b : datetime =>
            lex (date_compare (dt_date a) (dt_date b))
              (lex (hour a ?= hour b) (lex (minute a ?= minute b)
                 (lex (second a ?= second b) (microsecond a ?= microsecond b)))))).
  { intros a b. unfold datetime_compare, lex.
    destruct (date_compare (dt_date a) (dt_date b)), (hour a ?= hour b),
      (minute a ?= minute b), (second a ?= second b); reflexivity. }
  apply (compare_order_lex (fun a b => date_compare (dt_date a) (dt_date b))
    (fun a b => lex (hour a ?= hour b) (lex (minute a ?= minute b)
       (lex (second a ?= second b) (microsecond a ?= microsecond b))))).
  - pose proof compare_order_date as O. split; intros.
    + apply (co_refl _ O).
    + apply (co_eq_l _ O); assumption.
    + apply (co_eq_r _ O); assumption.
    + eapply (co_lt _ O); eassumption.
    + apply (co_anti _ O).
  - repeat apply (compare_order_lex (A := datetime)).
    + apply (compare_order_Z hour).
    + apply (compare_order_Z minute).
    + apply (compare_order_Z second).
    + apply (compare_order_Z microsecond).
Qed.

Lemma datetime_le_refl a : datetime_le a a.
Proof.
  unfold datetime_le, datetime_geb.
  rewrite (co_refl _ compare_order_datetime). reflexivity.
Qed.

Lemma datetime_le_alt a b : datetime_le a b <-> datetime_compare a b <> Gt.
Proof.
  unfold datetime_le, datetime_geb.
  rewrite (co_anti _ compare_order_datetime a b).
  destruct (datetime_compare a b); simpl; split; congruence.
Qed.

Lemma datetime_le_trans a b c : datetime_le a b -> datetime_le b c -> datetime_le a c.
Proof.
  rewrite !datetime_le_alt. pose proof compare_order_datetime as O.
  destruct (datetime_compare a b) eqn:E1; try congruence;
    destruct (datetime_compare b c) eqn:E2; try congruence; intros _ _.
  - rewrite (co_eq_l _ O a b c E1), E2. discriminate.
  - rewrite (co_eq_l _ O a b c E1), E2. discriminate.
  - rewrite (co_eq_r _ O a b c E2), E1. discriminate.
  - rewrite (co_lt _ O a b c E1 E2). discriminate.
Qed.

Global Instance datetime_le_transitive : Transitive datetime_le.
Proof. intros a b c. apply datetime_le_trans. Qed.

Lemma datetime_lt_le a b : datetime_lt a b -> datetime_le a b.
Proof. unfold datetime_lt. rewrite datetime_le_alt. congruence. Qed.

Lemma datetime_geb_lt a b : datetime_geb a b = false <-> datetime_lt a b.
Proof.
  unfold datetime_geb, datetime_lt. destruct (datetime_compare a b); split; congruence.
Qed.

Lemma datetime_compare_date_lt a b :
  date_compare (dt_date a) (dt_date b) = Lt -> datetime_compare a b = Lt.
Proof. unfold datetime_compare. intros ->. reflexivity. Qed.

Lemma date_ltb_lt a b : date_ltb a b = true <-> date_compare a b = Lt.
Proof. unfold date_ltb. destruct (date_compare a b); split; congruence. Qed.

Lemma date_compare_lt_trans a b c :
  date_compare a b = Lt -> date_compare b c <> Gt -> date_compare a c = Lt.
Proof.
  pose proof compare_order_date as O. intros H1 H2.
  destruct (date_compare b c) eqn:E; try congruence.
  - rewrite (co_eq_r _ O a b c E). assumption.
  - eapply (co_lt _ O); eassumption.
Qed.

(** the day before is an earlier date *)
Lemma date_sub_days_lt d limit :
  wf_date d -> date_sub_days d 1 = Ok limit -> date_compare limit d = Lt.
Proof.
  intros Hd. unfold date_sub_days. destruct (_ && _); [|discriminate].
  intros [= <-]. destruct (ord2ymd_spec (ymd2ord d - 1)) as [Hw He].
  rewrite ymd2ord_compare by assumption. rewrite He.
  apply Z.compare_lt_iff. lia.
Qed.

Lemma datetime_sub_seconds_wf_date t s t' :
  datetime_sub_seconds t s = Ok t' -> wf_date (dt_date t').
Proof.
  unfold datetime_sub_seconds. destruct (_ && _); [|discriminate].
  intros [= <-]. cbn [dt_date]. apply ord2ymd_spec.
Qed.

(** A row of a file that the pre-filter skips is older than the cutoff. *)
Lemma prefilter_sound now hours cutoff limit fd dt :
  datetime_sub_hours now hours = Ok cutoff ->
  date_sub_days (dt_date cutoff) 1 = Ok limit ->
  date_ltb fd limit = true ->
  dt_date dt = fd ->
  datetime_geb dt cutoff = false.
Proof.
  intros Hc Hl Hlt Hdt. apply datetime_geb_lt. apply datetime_compare_date_lt.
  rewrite Hdt. apply date_ltb_lt in Hlt.
  eapply date_compare_lt_trans; [eassumption|].
  erewrite date_sub_days_lt; [discriminate| |eassumption].
  eapply datetime_sub_seconds_wf_date. exact Hc.
Qed.

(** ** The loops of the reporter *)

Lemma extend_nil acc : extend acc [] = acc.
Proof. destruct acc as [ts cs]. unfold extend; simpl. rewrite !app_nil_r. reflexivity. Qed.

Lemma extend_app acc k k' : extend (extend acc k) k' = extend acc (k ++ k').
Proof.
  destruct acc as [ts cs]. unfold extend; simpl.
  rewrite !map_app, !List.app_assoc. reflexivity.
Qed.

Lemma load_row_eq cutoff fd row acc :
  load_row cutoff fd row acc =
  match row_reading fd row with
  | Ok (dt, c) => if datetime_geb dt cutoff then Ok (extend acc [(dt, c)]) else Ok acc
  | Raise e => if row_catches e then Ok acc else Raise e
  end.
Proof.
  destruct acc as [ts cs]. unfold load_row, row_reading, try_except, bind.
  destruct (getitem row "time") as [time_str|e]; [|reflexivity].
  destruct (getitem row "count") as [cnt|e]; [|reflexivity].
  destruct (int_of_cell cnt) as [count|e]; [|reflexivity].
  destruct (strptime_Ymd_HM _) as [dt|e]; [|reflexivity].
  destruct (datetime_geb dt cutoff); reflexivity.
Qed.

Lemma load_rows_eq cutoff fd rows acc :
  load_rows cutoff fd rows acc =
  let* k := kept_rows cutoff fd rows in Ok (extend acc k).
Proof.
  revert acc. induction rows as [|row rows IH]; intros acc.
  - simpl. rewrite extend_nil. reflexivity.
  - cbn [load_rows kept_rows]. rewrite load_row_eq.
    destruct (row_reading fd row) as [[dt c]|e].
    + destruct (datetime_geb dt cutoff); cbn [bind]; rewrite IH;
        destruct (kept_rows cutoff fd rows) as [k|e]; cbn [bind]; try reflexivity.
      rewrite extend_app. reflexivity.
    + destruct (row_catches e); cbn [bind]; [apply IH|reflexivity].
Qed.

Lemma load_file_eq cutoff path acc :
  load_file cutoff path acc =
  let* k := kept_file cutoff path in Ok (extend acc k).
Proof.
  unfold load_file, kept_file.
  destruct (strptime_Ymd _) as [fd|e].
  - destruct (date_sub_days (dt_date cutoff) 1) as [limit|e]; cbn [bind]; [|reflexivity].
    destruct (date_ltb fd limit); cbn [bind]; [rewrite extend_nil; reflexivity|].
    destruct (DictReader path.2) as [rows err]. cbn [fst snd].
    rewrite load_rows_eq.
    destruct (kept_rows cutoff fd rows) as [k|e]; cbn [bind]; [|reflexivity].
    destruct err; reflexivity.
  - destruct (name_catches e); cbn [bind]; [rewrite extend_nil|]; reflexivity.
Qed.

Lemma load_files_eq cutoff paths acc :
  load_files cutoff paths acc =
  let* k := kept_files cutoff paths in Ok (extend acc k).
Proof.
  revert acc. induction paths as [|path paths IH]; intros acc.
  - simpl. rewrite extend_nil. reflexivity.
  - cbn [load_files kept_files]. rewrite load_file_eq.
    destruct (kept_file cutoff path) as [k|e]; cbn [bind]; [|reflexivity].
    rewrite IH. destruct (kept_files cutoff paths) as [k'|e]; cbn [bind]; [|reflexivity].
    rewrite extend_app. reflexivity.
Qed.

Lemma load_data_eq now hours files :
  load_data now hours files =
  let* cutoff := datetime_sub_hours now hours in
  let* k := kept_files cutoff (csv_files files) in
  Ok (map fst k, map snd k).
Proof.
  unfold load_data. destruct (datetime_sub_hours now hours) as [cutoff|e]; [|reflexivity].
  cbn [bind]. rewrite load_files_eq. reflexivity.
Qed.

(** *** Where the kept readings come from *)

Lemma row_reading_date fd row dt c :
  valid_date fd -> row_reading fd row = Ok (dt, c) -> dt_date dt = fd.
Proof.
  intros Hv. unfold row_reading, bind.
  destruct (getitem row "time") as [time_str|]; [|discriminate].
  destruct (getitem row "count") as [cnt|]; [|discriminate].
  destruct (int_of_cell cnt) as [count|]; [|discriminate].
  destruct (strptime_Ymd_HM _) as [dt'|] eqn:E; [|discriminate].
  intros [= <- <-]. eapply strptime_Ymd_HM_date; eassumption.
Qed.

Lemma kept_rows_filter cutoff fd rows k :
  kept_rows cutoff fd rows = Ok k ->
  k = List.filter (in_window cutoff) (rows_readings fd rows).
Proof.
  revert k. induction rows as [|row rows IH]; intros k; cbn [kept_rows rows_readings].
  - intros [= <-]. reflexivity.
  - destruct (row_reading fd row) as [[dt c]|e].
    + destruct (kept_rows cutoff fd rows) as [k'|]; cbn [bind]; [|discriminate].
      intros [= <-]. cbn [List.filter]. unfold in_window at 1. cbn [fst].
      rewrite <- (IH k' eq_refl). reflexivity.
    + destruct (row_catches e); [apply IH|discriminate].
Qed.

Lemma rows_readings_elem fd rows r :
  In r (rows_readings fd rows) -> exists row, In row rows /\ row_reading fd row = Ok r.
Proof.
  induction rows as [|row rows IH]; cbn [rows_readings]; [intros []|].
  destruct (row_reading fd row) as [r'|e] eqn:E.
  - intros [<- | H].
    + exists row. split; [left; reflexivity|assumption].
    + destruct (IH H) as (row' & ? & ?). exists row'. split; [right|]; assumption.
  - intros H. destruct (IH H) as (row' & ? & ?). exists row'. split; [right|]; assumption.
Qed.

Lemma kept_file_origin cutoff path k r :
  kept_file cutoff path = Ok k -> In r k -> from_row cutoff [path] r.
Proof.
  unfold kept_file. destruct (strptime_Ymd _) as [fd|e] eqn:Efd.
  - destruct (date_sub_days _ 1) as [limit|]; cbn [bind]; [|discriminate].
    destruct (date_ltb fd limit); [intros [= <-] []|].
    destruct (kept_rows cutoff fd _) as [k'|] eqn:Ek; cbn [bind]; [|discriminate].
    destruct (DictReader path.2).2; [discriminate|]. intros [= <-] Hin.
    apply kept_rows_filter in Ek. subst k'.
    apply filter_In in Hin. destruct Hin as [Hin Hw].
    apply rows_readings_elem in Hin. destruct Hin as (row & Hrow & Hr).
    exists path, fd, row. repeat split; try assumption. left. reflexivity.
  - destruct (name_catches e); [intros [= <-] []|discriminate].
Qed.

Lemma from_row_mono cutoff p1 p2 r :
  (forall p, In p p1 -> In p p2) -> from_row cutoff p1 r -> from_row cutoff p2 r.
Proof.
  intros Hsub (path & fd & row & Hin & H). exists path, fd, row. split; [auto|exact H].
Qed.

Lemma kept_files_origin cutoff paths k :
  kept_files cutoff paths = Ok k -> Forall (from_row cutoff paths) k.
Proof.
  revert k. induction paths as [|path paths IH]; intros k; cbn [kept_files].
  - intros [= <-]. constructor.
  - destruct (kept_file cutoff path) as [k1|] eqn:E1; cbn [bind]; [|discriminate].
    destruct (kept_files cutoff paths) as [k2|]; cbn [bind]; [|discriminate].
    intros [= <-]. apply Forall_app. split.
    + apply List.Forall_forall. intros r Hr.
      eapply from_row_mono; [|eapply kept_file_origin; eassumption].
      intros p [<- | []]. left. reflexivity.
    + eapply List.Forall_impl; [|apply IH; reflexivity].
      intros r. apply from_row_mono. intros p Hp. right. assumption.
Qed.

(** *** The two lists go in step *)

Lemma load_data_kept now hours files ts cs :
  load_data now hours files = Ok (ts, cs) ->
  exists cutoff k,
    datetime_sub_hours now hours = Ok cutoff /\
    kept_files cutoff (csv_files files) = Ok k /\
    ts = map fst k /\ cs = map snd k.
Proof.
  rewrite load_data_eq.
  destruct (datetime_sub_hours now hours) as [cutoff|]; cbn [bind]; [|discriminate].
  destruct (kept_files cutoff (csv_files files)) as [k|] eqn:Ek; cbn [bind]; [|discriminate].
  intros [= <- <-]. exists cutoff, k. repeat split; assumption || reflexivity.
Qed.

Lemma load_row_both_or_neither cutoff fd row ts cs acc' :
  load_row cutoff fd row (ts, cs) = Ok acc' ->
  acc' = (ts, cs) \/
  exists dt c, row_reading fd row = Ok (dt, c) /\ acc' = ((ts ++ [dt])%list, (cs ++ [c])%list).
Proof.
  rewrite load_row_eq. destruct (row_reading fd row) as [[dt c]|e].
  - destruct (datetime_geb dt cutoff); intros [= <-]; [right|left; reflexivity].
    exists dt, c. split; reflexivity.
  - destruct (row_catches e); [|discriminate]. intros [= <-]. left. reflexivity.
Qed.

(** C10. The two lists that [load_data] returns have the same length, and
    the timestamp and the count at an index come from the same row of a
    file of the directory. *)
Theorem load_data_parallel_lists now hours files ts cs :
  load_data now hours files = Ok (ts, cs) ->
  length ts = length cs /\
  exists cutoff,
    datetime_sub_hours now hours = Ok cutoff /\
    forall (i : nat) t c,
      nth_error ts i = Some t -> nth_error cs i = Some c ->
      from_row cutoff (csv_files files) (t, c).
Proof.
  intros H. apply load_data_kept in H.
  destruct H as (cutoff & k & Hc & Hk & -> & ->).
  split; [rewrite !length_map; reflexivity|].
  exists cutoff. split; [assumption|].
  intros i t c Ht Hcnt.
  apply kept_files_origin in Hk.
  rewrite nth_error_map in Ht, Hcnt.
  destruct (nth_error k i) as [[t' c']|] eqn:E; [|discriminate].
  cbn in Ht, Hcnt. injection Ht as <-. injection Hcnt as <-.
  apply nth_error_In in E.
  rewrite List.Forall_forall in Hk. apply Hk. assumption.
Qed.

(** *** The date pre-filter *)

Lemma kept_rows_old cutoff fd rows k :
  valid_date fd ->
  (forall dt, dt_date dt = fd -> datetime_geb dt cutoff = false) ->
  kept_rows cutoff fd rows = Ok k -> k = [].
Proof.
  intros Hv Hold Hk. apply kept_rows_filter in Hk. subst k.
  induction rows as [|row rows IH]; [reflexivity|]. cbn [rows_readings].
  destruct (row_reading fd row) as [[dt c]|e] eqn:E; [|assumption].
  cbn [List.filter]. unfold in_window at 1. cbn [fst].
  rewrite Hold by (eapply row_reading_date; eassumption). assumption.
Qed.

Lemma load_file_nofilter_eq cutoff path acc :
  load_file_nofilter cutoff path acc =
  match strptime_Ymd (default EmptyString (csv_stem path.1)) with
  | Raise e => if name_catches e then Ok acc else Raise e
  | Ok fd =>
      let* k := kept_rows cutoff fd (DictReader path.2).1 in
      match (DictReader path.2).2 with
      | Some e => Raise e
      | None => Ok (extend acc k)
      end
  end.
Proof.
  unfold load_file_nofilter. destruct (strptime_Ymd _) as [fd|e]; [|reflexivity].
  destruct (DictReader path.2) as [rows err]. cbn [fst snd].
  rewrite load_rows_eq. destruct (kept_rows cutoff fd rows); cbn [bind]; reflexivity.
Qed.

Lemma load_file_prefilter now hours cutoff limit path acc acc' :
  datetime_sub_hours now hours = Ok cutoff ->
  date_sub_days (dt_date cutoff) 1 = Ok limit ->
  load_file_nofilter cutoff path acc = Ok acc' ->
  load_file cutoff path acc = Ok acc'.
Proof.
  intros Hc Hl. rewrite load_file_nofilter_eq, load_file_eq. unfold kept_file.
  destruct (strptime_Ymd _) as [fd|e] eqn:Efd.
  - rewrite Hl. cbn [bind].
    destruct (kept_rows cutoff fd _) as [k|] eqn:Ek; cbn [bind]; [|discriminate].
    destruct (DictReader path.2).2; [discriminate|]. intros [= <-].
    destruct (date_ltb fd limit) eqn:Elt; cbn [bind]; [|reflexivity].
    assert (k = []) as ->; [|reflexivity].
    eapply kept_rows_old; [| |eassumption].
    + eapply strptime_Ymd_valid. eassumption.
    + intros dt Hdt. eapply prefilter_sound; eassumption.
  - destruct (name_catches e); [|discriminate]. intros [= <-].
    cbn [bind]. rewrite extend_nil. reflexivity.
Qed.

Lemma load_files_prefilter now hours cutoff limit paths acc acc' :
  datetime_sub_hours now hours = Ok cutoff ->
  date_sub_days (dt_date cutoff) 1 = Ok limit ->
  load_files_nofilter cutoff paths acc = Ok acc' ->
  load_files cutoff paths acc = Ok acc'.
Proof.
  intros Hc Hl. revert acc. induction paths as [|path paths IH]; intros acc.
  - exact (fun H => H).
  - cbn [load_files_nofilter load_files].
    destruct (load_file_nofilter cutoff path acc) as [acc1|] eqn:E1; cbn [bind]; [|discriminate].
    rewrite (load_file_prefilter now hours cutoff limit path acc acc1) by assumption.
    cbn [bind]. apply IH.
Qed.

(** C6, amended. Whenever the loop without the date pre-filter returns a
    result, [load_data] returns the same result, provided the day before
    the cutoff date is a date of the calendar. *)
Theorem prefilter_keeps_result now hours files cutoff limit r :
  datetime_sub_hours now hours = Ok cutoff ->
  date_sub_days (dt_date cutoff) 1 = Ok limit ->
  load_data_nofilter now hours files = Ok r ->
  load_data now hours files = Ok r.
Proof.
  intros Hc Hl. unfold load_data_nofilter, load_data. rewrite Hc. cbn [bind].
  eapply load_files_prefilter; eassumption.
Qed.

(** *** Nothing in the window *)


Lemma csv_files_empty : csv_files ∅ = [].
Proof. unfold csv_files. rewrite map_to_list_empty. reflexivity. Qed.


Lemma empty_directory now hours cutoff :
  datetime_sub_hours now hours = Ok cutoff ->
  load_data now hours ∅ = Ok ([], []).
Proof.
  intros Hc. unfold load_data. rewrite Hc, csv_files_empty. reflexivity.
Qed.

(** ** File names *)

(** *** File names in date order *)

Lemma ascii_compare_digits a b :
  0 <= a <= 9 -> 0 <= b <= 9 ->
  Ascii.compare (digit_char a) (digit_char b) = (a ?= b).
Proof.
  intros Ha Hb. unfold Ascii.compare, digit_char.
  rewrite !N_ascii_embedding by lia.
  rewrite <- N2Z.inj_compare, !N2Z.inj_add, !Z2N.id by lia.
  apply Z.add_compare_mono_l.
Qed.

Lemma compare_two_digits n1 n2 r1 r2 :
  0 <= n1 < 100 -> 0 <= n2 < 100 ->
  String.compare (two_digits n1 r1) (two_digits n2 r2) =
  lex (n1 ?= n2) (String.compare r1 r2).
Proof.
  intros H1 H2. unfold two_digits. cbn [String.compare].
  rewrite !ascii_compare_digits by (Z.div_mod_to_equations; lia).
  unfold lex.
  destruct (Z.compare_spec (n1 / 10) (n2 / 10));
    destruct (Z.compare_spec (n1 mod 10) (n2 mod 10));
    destruct (Z.compare_spec n1 n2); try reflexivity;
    exfalso; Z.div_mod_to_equations; lia.
Qed.

Lemma four_digits_two n r :
  0 <= n < 10000 -> four_digits n r = two_digits (n / 100) (two_digits (n mod 100) r).
Proof.
  intros H. unfold four_digits, two_digits.
  assert (E1 : n / 100 / 10 = n / 1000) by (Z.div_mod_to_equations; lia).
  assert (E2 : n mod 100 / 10 = n / 10 mod 10) by (Z.div_mod_to_equations; lia).
  assert (E3 : (n mod 100) mod 10 = n mod 10) by (Z.div_mod_to_equations; lia).
  rewrite E1, E2, E3. reflexivity.
Qed.

Lemma compare_four_digits n1 n2 r1 r2 :
  0 <= n1 < 10000 -> 0 <= n2 < 10000 ->
  String.compare (four_digits n1 r1) (four_digits n2 r2) =
  lex (n1 ?= n2) (String.compare r1 r2).
Proof.
  intros H1 H2. rewrite !four_digits_two by assumption.
  rewrite !compare_two_digits by (Z.div_mod_to_equations; lia).
  unfold lex.
  destruct (Z.compare_spec (n1 / 100) (n2 / 100));
    destruct (Z.compare_spec (n1 mod 100) (n2 mod 100));
    destruct (Z.compare_spec n1 n2); try reflexivity;
    exfalso; Z.div_mod_to_equations; lia.
Qed.

Lemma compare_refl_string s : String.compare s s = Eq.
Proof.
  induction s as [|c s IH]; [reflexivity|]. cbn [String.compare].
  unfold Ascii.compare. rewrite N.compare_refl. assumption.
Qed.

Lemma compare_names d1 d2 :
  valid_date d1 -> valid_date d2 ->
  String.compare (Collector.csv_name (strftime_Ymd d1)) (Collector.csv_name (strftime_Ymd d2)) =
  date_compare d1 d2.
Proof.
  intros Hv1 Hv2. unfold Collector.csv_name.
  rewrite !strftime_Ymd_digits by assumption.
  destruct Hv1 as (Hy1 & Hm1 & Hd1), Hv2 as (Hy2 & Hm2 & Hd2).
  unfold MINYEAR, MAXYEAR in *.
  pose proof (days_in_month_le (year d1) (month d1)).
  pose proof (days_in_month_le (year d2) (month d2)).
  rewrite compare_four_digits by lia. cbn [String.compare].
  change (Ascii.compare "-" "-") with Eq. cbv iota.
  rewrite compare_two_digits by lia. cbn [String.compare].
  change (Ascii.compare "-" "-") with Eq. cbv iota.
  rewrite compare_two_digits by lia.
  rewrite compare_refl_string.
  unfold date_compare, lex.
  destruct (year d1 ?= year d2), (month d1 ?= month d2), (day d1 ?= day d2); reflexivity.
Qed.

Lemma names_in_date_order d1 d2 :
  valid_date d1 -> valid_date d2 ->
  String.le (Collector.csv_name (strftime_Ymd d1)) (Collector.csv_name (strftime_Ymd d2)) ->
  d1 <> d2 ->
  date_compare d1 d2 = Lt.
Proof.
  intros Hv1 Hv2 Hle Hne. unfold String.le, String.leb in Hle.
  rewrite compare_names in Hle by assumption.
  destruct (date_compare d1 d2) eqn:E; [|reflexivity|contradiction].
  apply date_compare_eq in E. contradiction.
Qed.

Lemma slength_app a b : String.length (a +:+ b) = (String.length a + String.length b)%nat.
Proof.
  induction a as [|c a IH]; [reflexivity|]. rewrite sapp_cons. simpl. rewrite IH. reflexivity.
Qed.

(** the stem of a name that ends in [.csv] *)
Lemma csv_stem_name s : csv_stem (Collector.csv_name s) = Some s.
Proof.
  unfold Collector.csv_name.
  induction s as [|c s IH]; [reflexivity|].
  rewrite sapp_cons. cbn [csv_stem]. rewrite IH.
  destruct (String.eqb_spec (String c (s +:+ ".csv")) ".csv") as [E|_]; [|reflexivity].
  exfalso. apply (f_equal String.length) in E.
  rewrite <- sapp_cons in E. rewrite slength_app in E. simpl in E. lia.
Qed.

Lemma partition_date_name d :
  valid_date d ->
  strptime_Ymd (default EmptyString (csv_stem (Collector.csv_name (strftime_Ymd d)))) = Ok d.
Proof.
  intros Hv. rewrite csv_stem_name. cbn [default]. apply strptime_Ymd_strftime. assumption.
Qed.

(** ** Order of the result *)

(** *** The sorted list of files *)

Global Instance path_le_transitive : Transitive path_le.
Proof. intros a b c. unfold path_le. apply transitivity. Qed.

Global Instance path_le_total : Total path_le.
Proof. intros a b. unfold path_le. apply total, _. Qed.

Lemma csv_files_sorted files : StronglySorted path_le (csv_files files).
Proof. apply StronglySorted_merge_sort; apply _. Qed.

Lemma csv_files_elem files name content :
  In (name, content) (csv_files files) <->
  files !! name = Some content /\ is_Some (csv_stem name).
Proof.
  rewrite <- list_elem_of_In. unfold csv_files.
  rewrite merge_sort_Permutation, list_elem_of_filter, elem_of_map_to_list.
  cbn [fst]. tauto.
Qed.

Lemma csv_files_NoDup files : NoDup (csv_files files).*1.
Proof.
  unfold csv_files. rewrite merge_sort_Permutation.
  eapply sublist_NoDup; [apply (NoDup_fst_map_to_list files)|].
  apply fmap_sublist, sublist_filter.
Qed.

(** *** Chronological order *)

Lemma StronglySorted_map_filter {A B} (R : relation B) (g : A -> B) (f : A -> bool) l :
  StronglySorted R (map g l) -> StronglySorted R (map g (List.filter f l)).
Proof.
  induction l as [|x l IH]; [intros; constructor|].
  cbn [map List.filter]. intros H. apply StronglySorted_inv in H. destruct H as [Hs Hall].
  destruct (f x); [|apply IH; assumption].
  cbn [map]. constructor; [apply IH; assumption|].
  rewrite List.Forall_forall in *. intros y Hy. apply Hall.
  apply in_map_iff in Hy. destruct Hy as (a & <- & Ha).
  apply filter_In in Ha. apply in_map. tauto.
Qed.

Lemma kept_file_sorted cutoff files name content k :
  chronological files -> files !! name = Some content ->
  kept_file cutoff (name, content) = Ok k ->
  StronglySorted datetime_le (map fst k) /\
  (k = [] \/ exists fd, partition_date name = Ok fd /\ Forall (fun r => dt_date r.1 = fd) k).
Proof.
  intros Hchron Hfile. unfold kept_file. cbn [fst snd]. fold (partition_date name).
  destruct (partition_date name) as [fd|e] eqn:Efd.
  - destruct (date_sub_days _ 1) as [limit|]; cbn [bind]; [|discriminate].
    destruct (date_ltb fd limit).
    { intros [= <-]. split; [constructor|left; reflexivity]. }
    destruct (kept_rows cutoff fd _) as [k'|] eqn:Ek; cbn [bind]; [|discriminate].
    destruct (DictReader content).2; [discriminate|]. intros [= <-].
    apply kept_rows_filter in Ek. subst k'. split.
    + apply StronglySorted_map_filter. apply Sorted_StronglySorted; [apply _|].
      eapply Hchron; eassumption.
    + right. exists fd. split; [reflexivity|].
      apply List.Forall_forall. intros [dt c] Hin. cbn [fst].
      apply filter_In in Hin. destruct Hin as [Hin _].
      apply rows_readings_elem in Hin. destruct Hin as (row & _ & Hr).
      eapply row_reading_date; [|eassumption].
      eapply strptime_Ymd_valid. exact Efd.
  - destruct (name_catches e); [|discriminate].
    intros [= <-]. split; [constructor|left; reflexivity].
Qed.

Lemma kept_files_sorted cutoff files paths k :
  canonical_names files -> chronological files ->
  (forall name content, In (name, content) paths -> files !! name = Some content) ->
  StronglySorted path_le paths -> NoDup paths.*1 ->
  kept_files cutoff paths = Ok k ->
  StronglySorted datetime_le (map fst k) /\
  Forall (fun r => exists name content fd,
            In (name, content) paths /\ partition_date name = Ok fd /\ dt_date r.1 = fd) k.
Proof.
  intros Hcanon Hchron. revert k.
  induction paths as [|[name content] paths IH]; intros k Hin Hsorted Hnodup; cbn [kept_files].
  - intros [= <-]. split; constructor.
  - destruct (kept_file cutoff (name, content)) as [k1|] eqn:E1; cbn [bind]; [|discriminate].
    destruct (kept_files cutoff paths) as [k2|] eqn:E2; cbn [bind]; [|discriminate].
    intros [= <-].
    apply StronglySorted_inv in Hsorted. destruct Hsorted as [Hsorted Hle].
    rewrite fmap_cons in Hnodup. apply NoDup_cons in Hnodup. destruct Hnodup as [Hnotin Hnodup].
    destruct (IH k2) as [IHs IHd]; try assumption; try reflexivity.
    { intros n c Hnc. apply Hin. right. assumption. }
    assert (Hfile : files !! name = Some content) by (apply Hin; left; reflexivity).
    destruct (kept_file_sorted cutoff files name content k1 Hchron Hfile E1) as [Hs1 Hd1].
    split.
    + rewrite map_app. apply StronglySorted_app. split; [|split; assumption].
      intros t1 t2 Ht1 Ht2.
      apply list_elem_of_In, in_map_iff in Ht1. destruct Ht1 as ([t1' c1] & <- & Hr1).
      apply list_elem_of_In, in_map_iff in Ht2. destruct Ht2 as ([t2' c2] & <- & Hr2).
      cbn [fst].
      destruct Hd1 as [-> | (fd1 & Hfd1 & Hall1)]; [destruct Hr1|].
      rewrite List.Forall_forall in Hall1, IHd.
      specialize (Hall1 _ Hr1). cbn [fst] in Hall1.
      destruct (IHd _ Hr2) as (name2 & content2 & fd2 & Hin2 & Hfd2 & Hdate2).
      cbn [fst] in Hdate2.
      apply datetime_lt_le. apply datetime_compare_date_lt. rewrite Hall1, Hdate2.
      rewrite List.Forall_forall in Hle. specialize (Hle _ Hin2).
      unfold path_le in Hle. cbn [fst] in Hle.
      assert (Hfile2 : files !! name2 = Some content2) by (apply Hin; right; assumption).
      rewrite (Hcanon _ _ _ Hfile Hfd1), (Hcanon _ _ _ Hfile2 Hfd2) in Hle.
      apply names_in_date_order; try assumption.
      * eapply strptime_Ymd_valid. exact Hfd1.
      * eapply strptime_Ymd_valid. exact Hfd2.
      * intros ->. apply Hnotin.
        rewrite (Hcanon _ _ _ Hfile Hfd1), <- (Hcanon _ _ _ Hfile2 Hfd2).
        apply list_elem_of_fmap. exists (name2, content2). split; [reflexivity|].
        apply list_elem_of_In. assumption.
    + apply Forall_app. split.
      * destruct Hd1 as [-> | (fd1 & Hfd1 & Hall1)]; [constructor|].
        eapply List.Forall_impl; [|exact Hall1].
        intros r Hr. exists name, content, fd1. split; [left; reflexivity|]. tauto.
      * eapply List.Forall_impl; [|exact IHd].
        intros r (n & c & fd & Hnc & H). exists n, c, fd. split; [right; assumption|exact H].
Qed.

(** C5. When the partitions have the names the collector gives them and
    the readings of each partition are in the order of their times, the
    timestamps that [load_data] returns are in nondecreasing order. *)
Theorem load_data_sorted now hours files ts cs :
  canonical_names files -> chronological files ->
  load_data now hours files = Ok (ts, cs) ->
  StronglySorted datetime_le ts.
Proof.
  intros Hcanon Hchron H. apply load_data_kept in H.
  destruct H as (cutoff & k & _ & Hk & -> & _).
  eapply kept_files_sorted; try eassumption.
  - intros name content Hin. apply csv_files_elem in Hin. tauto.
  - apply csv_files_sorted.
  - apply csv_files_NoDup.
Qed.

(** ** Directories written by the collector *)

(** *** Partitions written by the collector *)

Lemma entry_row_now now count :
  entry_row (now_entry now count) = (strftime_HM now, str_int count).
Proof. reflexivity. Qed.

Lemma entry_row_clean e : clean_row (entry_row e).
Proof.
  destruct e as [[h m] c]. unfold clean_row, entry_row; cbn [fst snd].
  change (zfill2 h +:+ ":" +:+ zfill2 m) with (strftime_HM (mkdatetime (mkdate 0 0 0) h m 0 0)).
  repeat split.
  - apply strftime_HM_clean.
  - apply str_int_clean.
  - apply strftime_HM_nonempty.
  - apply str_int_nonempty.
Qed.

Lemma header_clean : clean_row ("time", "count").
Proof. unfold clean_row, clean. cbn. repeat split; discriminate. Qed.

Lemma partition_text_rows entries :
  partition_text entries = rows_text (("time", "count") :: map entry_row entries).
Proof. reflexivity. Qed.

Lemma partition_text_snoc entries now count :
  partition_text entries +:+
    (EmptyString +:+ writerow2 (strftime_HM now) (Collector.csv_text (Collector.PyInt count))) =
  partition_text (entries ++ [now_entry now count]).
Proof.
  rewrite sapp_nil_l. unfold partition_text.
  rewrite map_app, rows_text_app, sapp_assoc. cbn [map rows_text].
  rewrite entry_row_now. cbn [Collector.csv_text]. rewrite sapp_nil_r. reflexivity.
Qed.

Lemma partition_text_single now count :
  EmptyString +:+
    (Collector.header_row +:+ writerow2 (strftime_HM now) (Collector.csv_text (Collector.PyInt count))) =
  partition_text [now_entry now count].
Proof.
  rewrite sapp_nil_l. unfold partition_text. cbn [map rows_text].
  rewrite entry_row_now, sapp_nil_r. reflexivity.
Qed.

(** What [save_to_csv] does to the directory. *)
Lemma save_to_csv_files now count dir :
  (Collector.save_to_csv now count dir).2 =
  let files := default ∅ dir in
  let name := Collector.csv_name (strftime_Ymd (dt_date now)) in
  Some (<[name :=
            default EmptyString (files !! name) +:+
            ((if bool_decide (is_Some (files !! name)) then EmptyString
              else Collector.header_row)
             +:+ writerow2 (strftime_HM now) (Collector.csv_text count))]> files).
Proof. reflexivity. Qed.

Lemma valid_datetime_entry now count : valid_datetime now -> entry_ok (now_entry now count).
Proof. intros (_ & Hh & Hm & _). unfold entry_ok, now_entry; cbn [fst snd]. lia. Qed.

Lemma save_written files now count :
  written_store files -> valid_datetime now ->
  exists files',
    (Collector.save_to_csv now (Collector.PyInt count) (Some files)).2 = Some files' /\
    written_store files' /\
    exists entries,
      files' !! Collector.csv_name (strftime_Ymd (dt_date now)) =
        Some (partition_text (entries ++ [now_entry now count])) /\
      Forall entry_ok entries.
Proof.
  intros Hw Hnow. rewrite save_to_csv_files.
  change (default ∅ (Some files)) with files. cbv zeta.
  set (name := Collector.csv_name (strftime_Ymd (dt_date now))).
  eexists. split; [reflexivity|].
  destruct (files !! name) as [old|] eqn:Eold.
  - destruct (Hw _ _ Eold) as (d & entries & Hvd & Hok & Hname & Htext).
    cbn [fst snd] in Hname, Htext. subst old.
    rewrite bool_decide_eq_true_2 by eauto.
    change (default EmptyString (Some ?x)) with x.
    rewrite partition_text_snoc.
    split.
    + intros n c. rewrite lookup_insert. case_decide as Hn.
      * intros [= <-]. subst n. exists d, (entries ++ [now_entry now count])%list.
        split; [exact Hvd|]. split; [|split; [exact Hname|reflexivity]].
        apply Forall_app. split; [assumption|]. constructor; [|constructor].
        apply valid_datetime_entry. assumption.
      * apply Hw.
    + exists entries. rewrite lookup_insert_eq. split; [reflexivity|assumption].
  - rewrite bool_decide_eq_false_2 by (intros [? ?]; discriminate).
    change (default EmptyString None) with EmptyString.
    rewrite partition_text_single.
    split.
    + intros n c. rewrite lookup_insert. case_decide as Hn.
      * intros [= <-]. subst n. exists (dt_date now), [now_entry now count].
        split; [apply Hnow|]. split; [|split; reflexivity].
        constructor; [|constructor]. apply valid_datetime_entry. assumption.
      * apply Hw.
    + exists []. rewrite lookup_insert_eq. split; [reflexivity|constructor].
Qed.

Lemma written_store_empty : written_store ∅.
Proof. intros name content. rewrite lookup_empty. discriminate. Qed.

Lemma collected_written dir : collected dir -> written_store (default ∅ dir).
Proof.
  induction 1 as [| |dir now count Hc IH Hnow].
  - apply written_store_empty.
  - apply written_store_empty.
  - destruct (save_written (default ∅ dir) now count IH Hnow) as (files' & E & Hw & _).
    assert (E' : (Collector.save_to_csv now (Collector.PyInt count) dir).2 = Some files').
    { rewrite <- E. rewrite !save_to_csv_files. reflexivity. }
    rewrite E'. exact Hw.
Qed.

(** *** Reading back what the collector wrote *)

Lemma DictReader_partition entries :
  DictReader (partition_text entries) = (map entry_dict entries, None).
Proof.
  unfold DictReader. rewrite partition_text_rows.
  rewrite csv_reader_rows.
  2:{ constructor; [apply header_clean|].
      apply List.Forall_forall. intros r Hr. apply in_map_iff in Hr.
      destruct Hr as (e & <- & _). apply entry_row_clean. }
  cbn [map fst snd]. f_equal.
  induction entries as [|e entries IH]; [reflexivity|].
  cbn [map]. rewrite filter_cons. cbn [is_nil negb].
  destruct (decide _) as [_|Hn]; [|exfalso; apply Hn; exact I].
  cbn [map]. unfold entry_dict at 1. f_equal. exact IH.
Qed.

Lemma row_reading_entry d e :
  valid_date d -> entry_ok e -> row_reading d (entry_dict e) = Ok (entry_reading d e).
Proof.
  intros Hd [Hh Hm]. destruct e as [[h m] c]. cbn [fst snd] in Hh, Hm.
  unfold row_reading, entry_dict, entry_row, row_dict, getitem. cbn [fst snd pad_row fold_left].
  rewrite lookup_insert_ne by discriminate. rewrite !lookup_insert_eq.
  cbn [bind int_of_cell format_cell].
  rewrite int_of_str_str_int. cbn [bind].
  rewrite strptime_Ymd_HM_unfold by assumption.
  rewrite re_time_strftime by assumption. reflexivity.
Qed.

Lemma rows_readings_partition d entries :
  valid_date d -> Forall entry_ok entries ->
  rows_readings d (map entry_dict entries) = map (entry_reading d) entries.
Proof.
  intros Hd. induction 1 as [|e entries He _ IH]; [reflexivity|].
  cbn [map rows_readings]. rewrite row_reading_entry by assumption.
  rewrite IH. reflexivity.
Qed.

Lemma kept_rows_partition cutoff d entries :
  valid_date d -> Forall entry_ok entries ->
  kept_rows cutoff d (map entry_dict entries) =
  Ok (List.filter (in_window cutoff) (map (entry_reading d) entries)).
Proof.
  intros Hd. induction 1 as [|e entries He _ IH]; [reflexivity|].
  cbn [map kept_rows List.filter]. rewrite row_reading_entry by assumption.
  rewrite IH. unfold in_window at 2. unfold entry_reading at 1 2 3. cbn [bind fst].
  destruct (datetime_geb _ cutoff); reflexivity.
Qed.

Lemma partition_readings_written d entries path :
  partition_of d entries path ->
  partition_readings path = map (entry_reading d) entries.
Proof.
  intros (Hd & Hok & Hname & Htext). unfold partition_readings, partition_date.
  rewrite Hname, partition_date_name by assumption.
  rewrite Htext, DictReader_partition. cbn [fst].
  apply rows_readings_partition; assumption.
Qed.

Lemma kept_file_partition now hours cutoff limit d entries path :
  datetime_sub_hours now hours = Ok cutoff ->
  date_sub_days (dt_date cutoff) 1 = Ok limit ->
  partition_of d entries path ->
  kept_file cutoff path = Ok (List.filter (in_window cutoff) (partition_readings path)).
Proof.
  intros Hc Hl Hp. rewrite (partition_readings_written d entries path Hp).
  destruct Hp as (Hd & Hok & Hname & Htext). unfold kept_file.
  rewrite Hname, partition_date_name by assumption. rewrite Hl. cbn [bind].
  rewrite Htext, DictReader_partition. cbn [fst snd].
  rewrite kept_rows_partition by assumption. cbn [bind].
  destruct (date_ltb d limit) eqn:Elt; [|reflexivity].
  f_equal. symmetry. clear Hok Htext.
  induction entries as [|e entries IH]; [reflexivity|].
  cbn [map List.filter]. unfold in_window at 1. unfold entry_reading at 1. cbn [fst].
  rewrite (prefilter_sound now hours cutoff limit d) by (assumption || reflexivity).
  apply IH.
Qed.

Lemma kept_files_written now hours cutoff limit paths :
  datetime_sub_hours now hours = Ok cutoff ->
  date_sub_days (dt_date cutoff) 1 = Ok limit ->
  (forall path, In path paths -> exists d entries, partition_of d entries path) ->
  exists k,
    kept_files cutoff paths = Ok k /\
    forall r, In r k <->
      in_window cutoff r = true /\ exists path, In path paths /\ In r (partition_readings path).
Proof.
  intros Hc Hl. induction paths as [|path paths IH]; intros Hall.
  - exists []. split; [reflexivity|]. intros r. split; [intros []|].
    intros (_ & p & [] & _).
  - destruct (Hall path) as (d & entries & Hp); [left; reflexivity|].
    destruct IH as (k & Hk & Hiff); [intros p Hin; apply Hall; right; assumption|].
    cbn [kept_files].
    rewrite (kept_file_partition now hours cutoff limit d entries path) by assumption.
    rewrite Hk. cbn [bind]. eexists. split; [reflexivity|].
    intros r. rewrite in_app_iff, filter_In, Hiff. split.
    + intros [[Hin Hw] | (Hw & p & Hin & Hr)].
      * split; [assumption|]. exists path. split; [left; reflexivity|assumption].
      * split; [assumption|]. exists p. split; [right|]; assumption.
    + intros (Hw & p & [<- | Hin] & Hr).
      * left. split; assumption.
      * right. split; [assumption|]. exists p. split; assumption.
Qed.


Lemma load_files_nofilter_written cutoff paths acc :
  (forall path, In path paths -> exists d entries, partition_of d entries path) ->
  exists acc', load_files_nofilter cutoff paths acc = Ok acc'.
Proof.
  revert acc. induction paths as [|path paths IH]; intros acc Hall.
  - exists acc. reflexivity.
  - destruct (Hall path) as (d & entries & Hd & Hok & Hname & Htext); [left; reflexivity|].
    cbn [load_files_nofilter]. rewrite load_file_nofilter_eq.
    rewrite Hname, partition_date_name by assumption.
    rewrite Htext, DictReader_partition. cbn [fst snd].
    rewrite kept_rows_partition by assumption. cbn [bind].
    apply IH. intros p Hp. apply Hall. right. assumption.
Qed.

(** On a directory written by the collector the pre-filter changes nothing. *)
Lemma prefilter_equivalent_on_written now hours cutoff limit files :
  written_store files ->
  datetime_sub_hours now hours = Ok cutoff ->
  date_sub_days (dt_date cutoff) 1 = Ok limit ->
  load_data now hours files = load_data_nofilter now hours files.
Proof.
  intros Hw Hc Hl. unfold load_data, load_data_nofilter. rewrite Hc. cbn [bind].
  destruct (load_files_nofilter_written cutoff (csv_files files) ([], [])) as [acc' E].
  { intros [name content] Hin. apply csv_files_elem in Hin. apply Hw. tauto. }
  rewrite E. eapply load_files_prefilter; eassumption.
Qed.

Lemma combine_fst_snd {A B} (k : list (A * B)) : combine (map fst k) (map snd k) = k.
Proof. induction k as [|[a b] k IH]; [reflexivity|]. cbn. rewrite IH. reflexivity. Qed.

Lemma datetime_sub_minutes_lt t t' :
  wf_datetime t -> datetime_sub_minutes t 1 = Ok t' -> datetime_lt t' t.
Proof.
  intros Hw H. unfold datetime_sub_minutes in H.
  destruct (datetime_sub_seconds_spec t (1 * 60) t' Hw H) as (Hw' & Hs & Hu).
  unfold datetime_lt. rewrite datetime_compare_linear by assumption.
  apply Z.compare_lt_iff. lia.
Qed.

Lemma valid_datetime_wf t : valid_datetime t -> wf_datetime t.
Proof. intros (Hd & H). split; [apply valid_date_wf; assumption|exact H]. Qed.

(** C1, amended. A reading that [save_to_csv] writes into a directory made
    by the collector is returned by [load_data] exactly when its timestamp
    is not before [now - window]: it is returned when the window start is
    at or before it, and left out when it is before the window start. No
    test against [now] is made. At the boundary, a reading stamped
    [now - window] is returned and a reading stamped one minute earlier is
    not. The window start and the day before it are assumed to be dates of
    the calendar. *)
Theorem round_trip dir now_c count now hours cutoff limit :
  collected dir -> valid_datetime now_c -> valid_datetime now ->
  datetime_sub_hours now hours = Ok cutoff ->
  date_sub_days (dt_date cutoff) 1 = Ok limit ->
  exists files ts cs,
    (Collector.save_to_csv now_c (Collector.PyInt count) dir).2 = Some files /\
    load_data now hours files = Ok (ts, cs) /\
    (datetime_le cutoff (minute_of now_c) -> In (minute_of now_c, count) (combine ts cs)) /\
    (datetime_lt (minute_of now_c) cutoff -> ~ In (minute_of now_c) ts) /\
    (minute_of now_c = cutoff -> In (minute_of now_c, count) (combine ts cs)) /\
    (datetime_sub_minutes cutoff 1 = Ok (minute_of now_c) -> ~ In (minute_of now_c) ts).
Proof.
  intros Hcol Hnc Hnow Hc Hl.
  pose proof (collected_written dir Hcol) as Hw.
  destruct (save_written (default ∅ dir) now_c count Hw Hnc)
    as (files & Esave & Hw' & entries & Hfile & Hok).
  assert (Esave' : (Collector.save_to_csv now_c (Collector.PyInt count) dir).2 = Some files).
  { rewrite <- Esave. rewrite !save_to_csv_files. reflexivity. }
  destruct (kept_files_written now hours cutoff limit (csv_files files) Hc Hl)
    as (k & Hk & Hiff).
  { intros [name content] Hin. apply csv_files_elem in Hin. apply Hw'. tauto. }
  exists files, (map fst k), (map snd k).
  split; [exact Esave'|].
  split; [rewrite load_data_eq, Hc; cbn [bind]; rewrite Hk; reflexivity|].
  rewrite combine_fst_snd.
  assert (Hpresent : datetime_le cutoff (minute_of now_c) -> In (minute_of now_c, count) k).
  { intros Hle. apply Hiff. split; [exact Hle|].
    set (name := Collector.csv_name (strftime_Ymd (dt_date now_c))) in *.
    exists (name, partition_text (entries ++ [now_entry now_c count])). split.
    - apply csv_files_elem. split; [assumption|]. unfold name. rewrite csv_stem_name. eauto.
    - rewrite (partition_readings_written (dt_date now_c) (entries ++ [now_entry now_c count])).
      + rewrite map_app. apply in_app_iff. right. left. reflexivity.
      + split; [apply Hnc|]. split; [|split; reflexivity].
        apply Forall_app. split; [assumption|]. constructor; [|constructor].
        apply valid_datetime_entry. assumption. }
  assert (Habsent : datetime_lt (minute_of now_c) cutoff -> ~ In (minute_of now_c) (map fst k)).
  { intros Hlt Hin. apply in_map_iff in Hin. destruct Hin as ([t c] & Ht & Hin).
    cbn [fst] in Ht. subst t. apply Hiff in Hin. destruct Hin as [Hwin _].
    unfold in_window in Hwin. cbn [fst] in Hwin.
    apply datetime_geb_lt in Hlt. congruence. }
  split; [exact Hpresent|]. split; [exact Habsent|]. split.
  - intros E. apply Hpresent. rewrite E. apply datetime_le_refl.
  - intros E. apply Habsent. eapply datetime_sub_minutes_lt; [|exact E].
    unfold datetime_sub_hours in Hc.
    eapply datetime_sub_seconds_spec; [|exact Hc]. apply valid_datetime_wf. assumption.
Qed.

(** *** A new partition *)

Lemma writerow2_data_line now count :
  writerow2 (strftime_HM now) (str_int count) = data_line now count.
Proof.
  unfold writerow2, data_line.
  rewrite !write_field_clean by (apply strftime_HM_clean || apply str_int_clean).
  reflexivity.
Qed.

(** C3. Two readings recorded for the same date into a partition that
    does not exist yet give a file with the header line [time,count]
    once, followed by the two data lines in the order of the calls. *)
Theorem header_written_once dir now1 now2 c1 c2 :
  let name := Collector.csv_name (strftime_Ymd (dt_date now1)) in
  dt_date now1 = dt_date now2 ->
  default ∅ dir !! name = None ->
  exists files,
    (Collector.save_to_csv now2 (Collector.PyInt c2)
       (Collector.save_to_csv now1 (Collector.PyInt c1) dir).2).2 = Some files /\
    files !! name = Some (header_line +:+ data_line now1 c1 +:+ data_line now2 c2) /\
    file_lines (header_line +:+ data_line now1 c1 +:+ data_line now2 c2) =
      [header_line; data_line now1 c1; data_line now2 c2].
Proof.
  intros name Hdate Hfresh.
  rewrite (save_to_csv_files now1). cbv zeta. fold name. rewrite Hfresh.
  rewrite bool_decide_eq_false_2 by (intros [? ?]; discriminate).
  change (default EmptyString None) with EmptyString.
  rewrite (save_to_csv_files now2). cbv zeta. rewrite <- Hdate. fold name.
  change (default ∅ (Some ?m)) with m.
  rewrite lookup_insert_eq.
  rewrite bool_decide_eq_true_2 by eauto.
  change (default EmptyString (Some ?x)) with x.
  eexists. split; [reflexivity|]. rewrite lookup_insert_eq.
  cbn [Collector.csv_text]. rewrite !writerow2_data_line, !sapp_nil_l.
  change Collector.header_row with header_line.
  rewrite sapp_assoc. split; [reflexivity|].
  unfold file_lines.
  change header_line with (writerow2 "time" "count").
  rewrite <- !writerow2_data_line.
  rewrite file_lines_row by (apply header_clean).
  rewrite file_lines_row by (apply strftime_HM_clean || apply str_int_clean).
  rewrite <- (sapp_nil_r (writerow2 (strftime_HM now2) (str_int c2))) at 1.
  rewrite file_lines_row by (apply strftime_HM_clean || apply str_int_clean).
  reflexivity.
Qed.

(** *** A row with a count that is no number *)

(** A partition with a good row and a row whose count is a text that
    [int] refuses: the rows are read, the second is left out. *)
Lemma bad_count_row_skipped cutoff d e t s :
  valid_date d -> entry_ok e -> clean_row (t, s) ->
  int_of_str s = Raise ValueError ->
  let text := Collector.header_row +:+ rows_text [entry_row e; (t, s)] in
  (DictReader text).2 = None /\
  kept_rows cutoff d (DictReader text).1 =
    Ok (List.filter (in_window cutoff) [entry_reading d e]).
Proof.
  intros Hd He Hclean Hs text. subst text.
  change (Collector.header_row +:+ rows_text [entry_row e; (t, s)])
    with (rows_text [("time", "count"); entry_row e; (t, s)]).
  unfold DictReader. rewrite csv_reader_rows.
  2:{ constructor; [apply header_clean|]. constructor; [apply entry_row_clean|].
      constructor; [apply Hclean|constructor]. }
  cbn [map fst snd]. rewrite !filter_cons. cbn [is_nil negb].
  repeat (destruct (decide _) as [_|Hn]; [|exfalso; apply Hn; exact I]).
  rewrite filter_nil. cbn [map fst snd]. split; [reflexivity|].
  fold (entry_dict e). cbn [kept_rows]. rewrite row_reading_entry by assumption.
  assert (E : row_reading d (row_dict ["time"; "count"] [t; s]) = Raise ValueError).
  { unfold row_reading, row_dict, getitem. cbn [pad_row fold_left fst snd].
    rewrite lookup_insert_ne by discriminate. rewrite !lookup_insert_eq.
    cbn [bind int_of_cell]. rewrite Hs. reflexivity. }
  rewrite E. cbn [row_catches bind kept_rows List.filter].
  unfold in_window, entry_reading. cbn [fst].
  destruct (datetime_geb _ cutoff); reflexivity.
Qed.

(** ** Fetching, colours, unreadable rows *)

(** *** Fetching *)

Lemma fetch_error_status r :
  error_status r = true ->
  Collector.fetch_gym_load (Collector.PostReturns r) =
  (["Error fetching data: " +:+ Collector.http_error_msg r], Ok Collector.PyNone).
Proof.
  unfold error_status. intros H.
  unfold Collector.fetch_gym_load, Collector.requests_post, Collector.raise_for_status.
  cbn [bind]. rewrite H. reflexivity.
Qed.

Lemma fetch_network_failure msg :
  Collector.fetch_gym_load (Collector.PostRaises msg) =
  (["Error fetching data: " +:+ msg], Ok Collector.PyNone).
Proof. reflexivity. Qed.

Lemma fetch_not_json r msg :
  error_status r = false -> Collector.body r = inr msg ->
  Collector.fetch_gym_load (Collector.PostReturns r) =
  (["Error fetching data: " +:+ msg], Ok Collector.PyNone).
Proof.
  unfold error_status. intros H Hb.
  unfold Collector.fetch_gym_load, Collector.requests_post, Collector.raise_for_status,
    Collector.response_json.
  cbn [bind]. rewrite H. cbn [bind]. rewrite Hb. reflexivity.
Qed.

Lemma fetch_object r members :
  error_status r = false -> Collector.body r = inl (Collector.JObject members) ->
  Collector.fetch_gym_load (Collector.PostReturns r) =
  ([], Ok (default Collector.PyNone (members !! "number"))).
Proof.
  unfold error_status. intros H Hb.
  unfold Collector.fetch_gym_load, Collector.requests_post, Collector.raise_for_status,
    Collector.response_json.
  cbn [bind]. rewrite H. cbn [bind]. rewrite Hb. reflexivity.
Qed.

(** C2, amended. For a response whose status is no client or server
    error (not in 400..599) and whose body is a JSON object,
    [fetch_gym_load] returns the integer of the field [number], and [None]
    when the field is missing; for a body that is not JSON it returns
    [None]; for every status in 400..599 it returns [None]. *)
Theorem fetch_postcondition r :
  (forall members z,
     error_status r = false -> Collector.body r = inl (Collector.JObject members) ->
     members !! "number" = Some (Collector.PyInt z) ->
     (Collector.fetch_gym_load (Collector.PostReturns r)).2 = Ok (Collector.PyInt z)) /\
  (forall members,
     error_status r = false -> Collector.body r = inl (Collector.JObject members) ->
     members !! "number" = None ->
     (Collector.fetch_gym_load (Collector.PostReturns r)).2 = Ok Collector.PyNone) /\
  (forall msg,
     error_status r = false -> Collector.body r = inr msg ->
     (Collector.fetch_gym_load (Collector.PostReturns r)).2 = Ok Collector.PyNone) /\
  (error_status r = true ->
     (Collector.fetch_gym_load (Collector.PostReturns r)).2 = Ok Collector.PyNone).
Proof.
  repeat split.
  - intros members z Hs Hb Hn. rewrite (fetch_object r members Hs Hb), Hn. reflexivity.
  - intros members Hs Hb Hn. rewrite (fetch_object r members Hs Hb), Hn. reflexivity.
  - intros msg Hs Hb. rewrite (fetch_not_json r msg Hs Hb). reflexivity.
  - intros Hs. rewrite (fetch_error_status r Hs). reflexivity.
Qed.

Lemma fetch_postcondition_witness :
  (Collector.fetch_gym_load (Collector.PostReturns (number_reply 200 57))).2
    = Ok (Collector.PyInt 57) /\
  (Collector.fetch_gym_load (Collector.PostReturns
     (Collector.mkresponse 200 "error" (inl (Collector.JObject ∅))))).2 = Ok Collector.PyNone /\
  (Collector.fetch_gym_load (Collector.PostReturns
     (Collector.mkresponse 200 "error" (inr "not JSON")))).2 = Ok Collector.PyNone /\
  (Collector.fetch_gym_load (Collector.PostReturns (number_reply 503 57))).2 = Ok Collector.PyNone.
Proof.
  split; [|split; [|split]].
  - apply (proj1 (fetch_postcondition (number_reply 200 57))
             {[ "number" := Collector.PyInt 57 ]} 57); reflexivity.
  - apply (proj1 (proj2 (fetch_postcondition
             (Collector.mkresponse 200 "error" (inl (Collector.JObject ∅))))) ∅); reflexivity.
  - apply (proj1 (proj2 (proj2 (fetch_postcondition
             (Collector.mkresponse 200 "error" (inr "not JSON"))))) "not JSON"); reflexivity.
  - apply (proj2 (proj2 (proj2 (fetch_postcondition (number_reply 503 57))))); reflexivity.
Defined.

(** A status outside 200..299 that is no error status (300, Multiple
    Choices, which carries a body): the number is returned. *)
Lemma fetch_multiple_choices_returns_number :
  let r := number_reply 300 57 in
  ~ (200 <= Collector.status_code r < 300) /\
  (Collector.fetch_gym_load (Collector.PostReturns r)).2 = Ok (Collector.PyInt 57) /\
  (Collector.fetch_gym_load (Collector.PostReturns r)).2 <> Ok Collector.PyNone.
Proof.
  cbv zeta. split; [cbn; lia|]. split; [reflexivity|]. vm_compute. discriminate.
Qed.

(** C7, at the failing input. A response with status 200 whose body is
    JSON but no object (an array, a string, a number, null): [get] raises
    AttributeError, the handler does not catch it, nothing is printed and
    the exception leaves [fetch_gym_load] and [main]. *)
Theorem fetch_raises_on_non_object :
  let o := Collector.PostReturns (Collector.mkresponse 200 "error" (inl Collector.JOther)) in
  Collector.fetch_gym_load o = ([], Raise AttributeError) /\
  forall now dir, Collector.main o now dir = ([], Raise AttributeError).
Proof. split; reflexivity. Qed.

(** The failures that are caught: a line is printed and [None] returned. *)
Lemma fetch_failure_reported o :
  (exists msg, o = Collector.PostRaises msg) \/
  (exists r, o = Collector.PostReturns r /\
     (error_status r = true \/ exists msg, Collector.body r = inr msg)) ->
  exists line, Collector.fetch_gym_load o = ([line], Ok Collector.PyNone).
Proof.
  intros [[msg ->] | (r & -> & Hr)].
  - eexists. apply fetch_network_failure.
  - destruct (error_status r) eqn:E.
    + eexists. apply fetch_error_status. assumption.
    + destruct Hr as [Hr | [msg Hb]]; [discriminate|].
      eexists. apply fetch_not_json; eassumption.
Qed.

(** A missing field is not reported by [fetch_gym_load]; [main] prints
    the notice. *)
Lemma fetch_missing_field r members now dir :
  error_status r = false -> Collector.body r = inl (Collector.JObject members) ->
  members !! "number" = None ->
  Collector.fetch_gym_load (Collector.PostReturns r) = ([], Ok Collector.PyNone) /\
  Collector.main (Collector.PostReturns r) now dir = (["Failed to fetch gym load"], Ok dir).
Proof.
  intros Hs Hb Hn.
  assert (E : Collector.fetch_gym_load (Collector.PostReturns r) = ([], Ok Collector.PyNone)).
  { rewrite (fetch_object r members Hs Hb), Hn. reflexivity. }
  split; [exact E|]. unfold Collector.main. rewrite E. reflexivity.
Qed.

(** *** Colours *)


(** *** Rows that cannot be read *)

Lemma int_of_str_raises s e : int_of_str s = Raise e -> e = ValueError.
Proof.
  unfold int_of_str. cbv zeta.
  match goal with
  | |- match ?x with Some _ => _ | None => _ end = _ -> _ => destruct x
  end; [discriminate|]. intros [= <-]. reflexivity.
Qed.

Lemma load_row_skips_bad_count cutoff fd row s acc :
  row !! "count" = Some (CStr s) -> int_of_str s = Raise ValueError ->
  load_row cutoff fd row acc = Ok acc.
Proof.
  intros Hc Hs. destruct acc as [ts cs]. unfold load_row, try_except, getitem.
  destruct (row !! "time"); [|reflexivity]. cbn [bind]. rewrite Hc. cbn [bind int_of_cell].
  rewrite Hs. reflexivity.
Qed.

Lemma load_row_skips_bad_time cutoff fd row t s acc :
  row !! "time" = Some t -> row !! "count" = Some (CStr s) ->
  strptime_Ymd_HM (str_date fd +:+ " " +:+ format_cell t) = Raise ValueError ->
  load_row cutoff fd row acc = Ok acc.
Proof.
  intros Ht Hc Hs. destruct acc as [ts cs]. unfold load_row, try_except, getitem.
  rewrite Ht, Hc. cbn [bind int_of_cell].
  destruct (int_of_str s) as [z|e] eqn:E.
  - cbn [bind]. rewrite Hs. reflexivity.
  - apply int_of_str_raises in E. subst e. reflexivity.
Qed.

Lemma load_row_missing_count cutoff fd row t acc :
  row !! "time" = Some t -> row !! "count" = Some CNone ->
  load_row cutoff fd row acc = Raise TypeError.
Proof.
  intros Ht Hc. destruct acc as [ts cs]. unfold load_row, try_except, getitem.
  rewrite Ht, Hc. reflexivity.
Qed.

Lemma load_skips_bad_count :
  load_data noon_march_1 96 {[ "2024-03-01.csv" := bad_count_file ]} =
  Ok ([mkdatetime march_1 10 0 0 0], [5]).
Proof. vm_compute. reflexivity. Qed.

(** C4, at the failing input. A partition with one good row and a last
    line cut before its comma: the second row has no count, [int(None)]
    raises TypeError, which the handler of the row does not catch, and
    [load_data] raises instead of returning the good row. *)
Theorem load_aborts_on_short_row :
  (DictReader short_row_file).1 =
    [ {[ "time" := CStr "10:00"; "count" := CStr "5" ]};
      {[ "time" := CStr "10:1"; "count" := CNone ]} ] /\
  load_data noon_march_1 96 {[ "2024-03-01.csv" := short_row_file ]} = Raise TypeError.
Proof. split; vm_compute; reflexivity. Qed.

(** *** Instances *)

Lemma valid_late_feb_29 : valid_datetime late_feb_29.
Proof. split; [apply valid_dateb_spec; reflexivity|cbn; lia]. Qed.

Lemma valid_early_march_1 : valid_datetime early_march_1.
Proof. split; [apply valid_dateb_spec; reflexivity|cbn; lia]. Qed.

Lemma valid_three_days_on : valid_datetime three_days_on.
Proof. split; [apply valid_dateb_spec; reflexivity|cbn; lia]. Qed.

Lemma round_trip_witness :
  exists files ts cs,
    (Collector.save_to_csv early_march_1 (Collector.PyInt 141)
       (Collector.save_to_csv late_feb_29 (Collector.PyInt 120) None).2).2 = Some files /\
    load_data three_days_on 96 files = Ok (ts, cs) /\
    (datetime_le (mkdatetime (mkdate 2024 2 29) 9 30 15 250) (minute_of early_march_1) ->
     In (minute_of early_march_1, 141) (combine ts cs)) /\
    (datetime_lt (minute_of early_march_1) (mkdatetime (mkdate 2024 2 29) 9 30 15 250) ->
     ~ In (minute_of early_march_1) ts) /\
    (minute_of early_march_1 = mkdatetime (mkdate 2024 2 29) 9 30 15 250 ->
     In (minute_of early_march_1, 141) (combine ts cs)) /\
    (datetime_sub_minutes (mkdatetime (mkdate 2024 2 29) 9 30 15 250) 1
       = Ok (minute_of early_march_1) ->
     ~ In (minute_of early_march_1) ts).
Proof.
  apply (round_trip (Collector.save_to_csv late_feb_29 (Collector.PyInt 120) None).2
           early_march_1 141 three_days_on 96
           (mkdatetime (mkdate 2024 2 29) 9 30 15 250) (mkdate 2024 2 28)).
  - apply collected_save; [apply collected_absent|apply valid_late_feb_29].
  - apply valid_early_march_1.
  - apply valid_three_days_on.
  - vm_compute. reflexivity.
  - vm_compute. reflexivity.
Defined.

(** A reading stamped after the reporter's clock lies outside the window
    from [now - window] to [now], and is returned all the same. *)
Lemma round_trip_future_reading :
  let now := mkdatetime (mkdate 2024 2 29) 12 0 0 0 in
  let dir := (Collector.save_to_csv early_march_1 (Collector.PyInt 141) None).2 in
  datetime_lt now (minute_of early_march_1) /\
  load_data now 96 (default ∅ dir) = Ok ([minute_of early_march_1], [141]).
Proof. cbv zeta. split; vm_compute; reflexivity. Qed.

Lemma header_written_once_witness :
  exists files,
    (Collector.save_to_csv early_march_1 (Collector.PyInt 141)
       (Collector.save_to_csv noon_march_1 (Collector.PyInt 120) None).2).2 = Some files /\
    files !! Collector.csv_name (strftime_Ymd (dt_date noon_march_1)) =
      Some (header_line +:+ data_line noon_march_1 120 +:+ data_line early_march_1 141) /\
    file_lines (header_line +:+ data_line noon_march_1 120 +:+ data_line early_march_1 141) =
      [header_line; data_line noon_march_1 120; data_line early_march_1 141].
Proof.
  apply (header_written_once None noon_march_1 early_march_1 120 141).
  - reflexivity.
  - vm_compute. reflexivity.
Defined.

Lemma load_data_parallel_lists_witness :
  length [minute_of late_feb_29; minute_of early_march_1] = length [120; 141] /\
  exists cutoff,
    datetime_sub_hours three_days_on 96 = Ok cutoff /\
    forall (i : nat) t c,
      nth_error [minute_of late_feb_29; minute_of early_march_1] i = Some t ->
      nth_error [120; 141] i = Some c ->
      from_row cutoff (csv_files sample_files) (t, c).
Proof.
  apply (load_data_parallel_lists three_days_on 96 sample_files).
  vm_compute. reflexivity.
Defined.

Lemma written_canonical files : written_store files -> canonical_names files.
Proof.
  intros Hw name content fd Hfile Hdate.
  destruct (Hw _ _ Hfile) as (d & entries & Hd & _ & Hname & _). cbn [fst] in Hname.
  unfold partition_date in Hdate. rewrite Hname, partition_date_name in Hdate by assumption.
  congruence.
Qed.

Lemma sample_collected : collected sample_dir.
Proof.
  unfold sample_dir.
  apply collected_save; [|apply valid_early_march_1].
  apply collected_save; [apply collected_absent|apply valid_late_feb_29].
Qed.

Ltac sorted_by_computation :=
  match goal with
  | |- Sorted _ ?l => let v := eval vm_compute in l in change l with v
  end;
  repeat first [apply Sorted_nil | apply Sorted_cons | apply HdRel_nil | apply HdRel_cons];
  vm_compute; reflexivity.

Lemma sample_chronological : chronological sample_files.
Proof.
  intros name content fd.
  change sample_files with
    (<["2024-03-01.csv" := partition_text [(0, 5, 141)]]>
       (<["2024-02-29.csv" := partition_text [(23, 50, 120)]]> (∅ : gmap string string))).
  rewrite lookup_insert. case_decide as H1.
  - intros [= <-]. subst name. intros Hd. vm_compute in Hd. injection Hd as <-.
    sorted_by_computation.
  - rewrite lookup_insert. case_decide as H2.
    + intros [= <-]. subst name. intros Hd. vm_compute in Hd. injection Hd as <-.
      sorted_by_computation.
    + rewrite lookup_empty. discriminate.
Qed.

Lemma load_data_sorted_witness :
  StronglySorted datetime_le [minute_of late_feb_29; minute_of early_march_1].
Proof.
  apply (load_data_sorted three_days_on 96 sample_files
           [minute_of late_feb_29; minute_of early_march_1] [120; 141]).
  - apply written_canonical. apply (collected_written sample_dir). apply sample_collected.
  - apply sample_chronological.
  - vm_compute. reflexivity.
Defined.

Lemma prefilter_keeps_result_witness :
  load_data three_days_on 96 sample_files =
  Ok ([minute_of late_feb_29; minute_of early_march_1], [120; 141]).
Proof.
  apply (prefilter_keeps_result three_days_on 96 sample_files
           (mkdatetime (mkdate 2024 2 29) 9 30 15 250) (mkdate 2024 2 28)).
  - vm_compute. reflexivity.
  - vm_compute. reflexivity.
  - vm_compute. reflexivity.
Defined.

(** An old partition whose last line was cut: the pre-filter skips the
    file, the loop without it reads the row and raises. *)
Lemma prefilter_hides_short_row :
  let files : gmap string string := {[ "2024-01-01.csv" := short_row_file ]} in
  load_data noon_march_1 96 files = Ok ([], []) /\
  load_data_nofilter noon_march_1 96 files = Raise TypeError /\
  load_data noon_march_1 96 files <> load_data_nofilter noon_march_1 96 files.
Proof.
  cbv zeta. split; [vm_compute; reflexivity|]. split; [vm_compute; reflexivity|].
  vm_compute. discriminate.
Qed.


(** The boundary of the window on a small directory: the reporter runs at
    09:30:00 sharp with a window of 96 hours; the reading stamped 09:30
    four days earlier is returned, the reading stamped 09:29 is not. *)
Lemma boundary_reading_returned :
  let dir := (Collector.save_to_csv (mkdatetime (mkdate 2024 2 29) 9 30 59 7)
                (Collector.PyInt 88) None).2 in
  load_data (mkdatetime (mkdate 2024 3 4) 9 30 0 0) 96 (default ∅ dir) =
  Ok ([mkdatetime (mkdate 2024 2 29) 9 30 0 0], [88]).
Proof. vm_compute. reflexivity. Qed.

Lemma minute_before_boundary_left_out :
  let dir := (Collector.save_to_csv (mkdatetime (mkdate 2024 2 29) 9 29 59 7)
                (Collector.PyInt 88) None).2 in
  load_data (mkdatetime (mkdate 2024 3 4) 9 30 0 0) 96 (default ∅ dir) = Ok ([], []).
Proof. vm_compute. reflexivity. Qed.

(** Two partitions of consecutive dates with three readings each, all in
    the last 96 hours: six points, in the order of their times. *)
Lemma two_days_six_readings :
  let t d h m := mkdatetime (mkdate 2024 3 d) h m 30 0 in
  let save now c dir := (Collector.save_to_csv now (Collector.PyInt c) dir).2 in
  let dir := save (t 3 7 0) 45 (save (t 3 0 10) 9 (save (t 3 0 0) 12
               (save (t 2 23 50) 130 (save (t 2 18 0) 152 (save (t 2 9 0) 31 None))))) in
  load_data (t 4 8 0) 96 (default ∅ dir) =
  Ok ([mkdatetime (mkdate 2024 3 2) 9 0 0 0; mkdatetime (mkdate 2024 3 2) 18 0 0 0;
       mkdatetime (mkdate 2024 3 2) 23 50 0 0; mkdatetime (mkdate 2024 3 3) 0 0 0 0;
       mkdatetime (mkdate 2024 3 3) 0 10 0 0; mkdatetime (mkdate 2024 3 3) 7 0 0 0],
      [31; 152; 130; 12; 9; 45]).
Proof. vm_compute. reflexivity. Qed.

(** Why the names matter: a file named by a date without zero padding is
    read as a partition too, and the files are taken in the order of
    their names. *)
Lemma unpadded_names_out_of_order :
  let files : gmap string string :=
    {[ "2024-2-1.csv" := header_line +:+ "10:00,5" +:+ CRLF;
       "2024-10-01.csv" := header_line +:+ "10:00,7" +:+ CRLF ]} in
  load_data (mkdatetime (mkdate 2024 10 2) 0 0 0 0) 7200 files =
  Ok ([mkdatetime (mkdate 2024 10 1) 10 0 0 0; mkdatetime (mkdate 2024 2 1) 10 0 0 0],
      [7; 5]).
Proof. vm_compute. reflexivity. Qed.

(** ** The collector as a whole *)

(** *** Files only grow *)

Lemma sapp_inv_nil (a b : string) : a +:+ b = a -> b = EmptyString.
Proof.
  intros H. rewrite <- (sapp_nil_r a) in H at 2.
  eapply (String.app_inj a). exact H.
Qed.

Lemma save_to_csv_Some now v dir :
  exists files, (Collector.save_to_csv now v dir).2 = Some files.
Proof. rewrite save_to_csv_files. eexists. reflexivity. Qed.

Lemma save_grows now v dir name old :
  default ∅ dir !! name = Some old ->
  exists suffix,
    default ∅ (Collector.save_to_csv now v dir).2 !! name = Some (old +:+ suffix).
Proof.
  intros Hold. rewrite save_to_csv_files. cbv zeta.
  change (default ∅ (Some ?m)) with m.
  set (today := Collector.csv_name (strftime_Ymd (dt_date now))).
  rewrite lookup_insert. case_decide as Hn.
  - subst name. rewrite Hold. change (default EmptyString (Some old)) with old.
    eexists. reflexivity.
  - exists EmptyString. rewrite sapp_nil_r. exact Hold.
Qed.

Lemma record_all_cons r rs dir :
  record_all (r :: rs) dir =
  record_all rs (Collector.save_to_csv r.1 (Collector.PyInt r.2) dir).2.
Proof. reflexivity. Qed.

(** X1. [save_to_csv] only appends: a file that is in the directory
    before a sequence of writes is still there after it, and its old
    content is the beginning of its new content. *)
Theorem files_only_grow rs dir name old :
  default ∅ dir !! name = Some old ->
  exists suffix, default ∅ (record_all rs dir) !! name = Some (old +:+ suffix).
Proof.
  revert dir old. induction rs as [|r rs IH]; intros dir old Hold.
  - exists EmptyString. rewrite sapp_nil_r. exact Hold.
  - rewrite record_all_cons.
    destruct (save_grows r.1 (Collector.PyInt r.2) dir name old Hold) as [s1 H1].
    destruct (IH _ _ H1) as [s2 H2].
    exists (s1 +:+ s2). rewrite <- sapp_assoc. exact H2.
Qed.

Lemma files_only_grow_witness :
  exists suffix,
    default ∅ (record_all [(early_march_1, 141); (noon_march_1, 150)] sample_dir)
      !! "2024-02-29.csv" = Some (partition_text [(23, 50, 120)] +:+ suffix).
Proof.
  apply (files_only_grow [(early_march_1, 141); (noon_march_1, 150)] sample_dir
           "2024-02-29.csv" (partition_text [(23, 50, 120)])).
  vm_compute. reflexivity.
Defined.

(** *** The log of one date *)

Lemma save_existing now z files old :
  files !! Collector.csv_name (strftime_Ymd (dt_date now)) = Some old ->
  (Collector.save_to_csv now (Collector.PyInt z) (Some files)).2 =
  Some (<[Collector.csv_name (strftime_Ymd (dt_date now)) := old +:+ data_line now z]> files).
Proof.
  intros Hold. rewrite save_to_csv_files. cbv zeta.
  change (default ∅ (Some files)) with files. rewrite Hold.
  rewrite bool_decide_eq_true_2 by eauto.
  change (default EmptyString (Some old)) with old.
  cbn [Collector.csv_text]. rewrite sapp_nil_l, writerow2_data_line. reflexivity.
Qed.

Lemma save_fresh now z dir :
  default ∅ dir !! Collector.csv_name (strftime_Ymd (dt_date now)) = None ->
  (Collector.save_to_csv now (Collector.PyInt z) dir).2 =
  Some (<[Collector.csv_name (strftime_Ymd (dt_date now)) := header_line +:+ data_line now z]>
          (default ∅ dir)).
Proof.
  intros Hnew. rewrite save_to_csv_files. cbv zeta. rewrite Hnew.
  rewrite bool_decide_eq_false_2 by (intros [? ?]; discriminate).
  change (default EmptyString None) with EmptyString.
  cbn [Collector.csv_text]. rewrite sapp_nil_l, writerow2_data_line. reflexivity.
Qed.

Lemma record_all_existing d rs files old :
  Forall (fun r => dt_date r.1 = d) rs ->
  files !! Collector.csv_name (strftime_Ymd d) = Some old ->
  record_all rs (Some files) =
  Some (<[Collector.csv_name (strftime_Ymd d) := old +:+ lines_text rs]> files).
Proof.
  intros Hall. revert files old. induction Hall as [|r rs Hr _ IH]; intros files old Hold.
  - cbn [lines_text record_all fold_left]. rewrite sapp_nil_r, insert_id by assumption. reflexivity.
  - rewrite record_all_cons.
    rewrite (save_existing r.1 r.2 files old) by (rewrite Hr; assumption).
    rewrite Hr. rewrite (IH _ (old +:+ data_line r.1 r.2)) by apply lookup_insert_eq.
    rewrite insert_insert_eq. cbn [lines_text]. rewrite sapp_assoc. reflexivity.
Qed.

Lemma file_lines_data rs :
  file_lines (lines_text rs) = map (fun r => data_line r.1 r.2) rs.
Proof.
  unfold file_lines. induction rs as [|r rs IH]; [reflexivity|].
  cbn [lines_text map]. rewrite <- writerow2_data_line.
  rewrite file_lines_row by (apply strftime_HM_clean || apply str_int_clean).
  rewrite IH. reflexivity.
Qed.

(** *** What a run of the collector leaves behind *)

Lemma fetch_fails_None o :
  fetch_fails o = true ->
  exists out, Collector.fetch_gym_load o = (out, Ok Collector.PyNone).
Proof.
  destruct o as [msg|r]; cbn [fetch_fails].
  - intros _. eexists. apply fetch_network_failure.
  - destruct (error_status r) eqn:Hs; cbn [orb].
    + intros _. eexists. apply fetch_error_status. exact Hs.
    + destruct (Collector.body r) as [[members|]|msg] eqn:Hb; intros H.
      * rewrite (fetch_object r members Hs Hb).
        destruct (default Collector.PyNone (members !! "number")); try discriminate.
        eexists. reflexivity.
      * discriminate.
      * eexists. apply (fetch_not_json r msg Hs Hb).
Qed.

(** X3. When the request fails, the status is in 400..599, the body is
    not JSON, or the JSON object has no [number] or a null one, [main]
    of the collector leaves the directory exactly as it was (it does not
    even create it), raises nothing, and its last printed line is the
    failure notice. *)
Theorem failed_fetch_writes_nothing o now dir :
  fetch_fails o = true ->
  exists out,
    Collector.main o now dir = ((out ++ ["Failed to fetch gym load"])%list, Ok dir).
Proof.
  intros H. destruct (fetch_fails_None o H) as [out E].
  exists out. unfold Collector.main. rewrite E. reflexivity.
Qed.

Lemma failed_fetch_writes_nothing_witness :
  exists out,
    Collector.main (Collector.PostReturns (number_reply 503 57)) noon_march_1 sample_dir =
    ((out ++ ["Failed to fetch gym load"])%list, Ok sample_dir).
Proof.
  apply (failed_fetch_writes_nothing (Collector.PostReturns (number_reply 503 57))
           noon_march_1 sample_dir).
  reflexivity.
Defined.

(** X4. When the service answers with a JSON object holding an integer
    [number] (zero and negative numbers included) under a status that is
    no error, [main] of the collector prints the line of [save_to_csv]
    and writes exactly one data line: the partition of today is its old
    content followed by that line (with the header first when the file
    is new), every other file is unchanged, and the directory differs
    from the one before. *)
Theorem fetched_number_recorded r members z now dir :
  let name := Collector.csv_name (strftime_Ymd (dt_date now)) in
  error_status r = false ->
  Collector.body r = inl (Collector.JObject members) ->
  members !! "number" = Some (Collector.PyInt z) ->
  exists files,
    Collector.main (Collector.PostReturns r) now dir =
      (["Saved: " +:+ strftime_HM now +:+ " -> " +:+ str_int z +:+ " people"], Ok (Some files)) /\
    files !! name =
      Some (match default ∅ dir !! name with
            | Some old => old +:+ data_line now z
            | None => header_line +:+ data_line now z
            end) /\
    (forall other, other <> name -> files !! other = default ∅ dir !! other) /\
    Some files <> dir.
Proof.
  intros name Hs Hb Hn. unfold Collector.main.
  rewrite (fetch_object r members Hs Hb), Hn.
  change (default Collector.PyNone (Some (Collector.PyInt z))) with (Collector.PyInt z).
  cbn [Collector.is_none negb].
  assert (E : exists files,
    (Collector.save_to_csv now (Collector.PyInt z) dir).2 = Some files /\
    files !! name =
      Some (match default ∅ dir !! name with
            | Some old => old +:+ data_line now z
            | None => header_line +:+ data_line now z
            end) /\
    (forall other, other <> name -> files !! other = default ∅ dir !! other)).
  { destruct (default ∅ dir !! name) as [old|] eqn:Hold.
    - destruct dir as [files0|]; [|discriminate Hold].
      change (default ∅ (Some files0)) with files0 in *.
      rewrite (save_existing now z files0 old Hold). eexists. split; [reflexivity|].
      split; [apply lookup_insert_eq|]. intros other Hne. apply lookup_insert_ne.
      intros Hc. apply Hne. symmetry. exact Hc.
    - rewrite (save_fresh now z dir Hold). eexists. split; [reflexivity|].
      split; [apply lookup_insert_eq|]. intros other Hne. apply lookup_insert_ne.
      intros Hc. apply Hne. symmetry. exact Hc. }
  destruct E as (files & Hsave & Hname & Hother).
  exists files. split; [|split; [exact Hname|split; [exact Hother|]]].
  - destruct (Collector.save_to_csv now (Collector.PyInt z) dir) as [out' dir'] eqn:Es.
    cbn [snd] in Hsave. subst dir'.
    assert (Ho : out' = (Collector.save_to_csv now (Collector.PyInt z) dir).1)
      by (rewrite Es; reflexivity).
    rewrite Ho. reflexivity.
  - intros Heq. subst dir. change (default ∅ (Some files)) with files in Hname.
    destruct (files !! name) as [old|] eqn:Hold; [|discriminate].
    injection Hname as Hname. symmetry in Hname. apply sapp_inv_nil in Hname.
    unfold data_line in Hname. revert Hname. clear.
    destruct (strftime_HM now); discriminate.
Qed.

Lemma fetched_number_recorded_witness :
  exists files,
    Collector.main (Collector.PostReturns (number_reply 200 57)) noon_march_1 sample_dir =
      (["Saved: " +:+ strftime_HM noon_march_1 +:+ " -> " +:+ str_int 57 +:+ " people"],
       Ok (Some files)) /\
    files !! Collector.csv_name (strftime_Ymd (dt_date noon_march_1)) =
      Some (match default ∅ sample_dir !! Collector.csv_name (strftime_Ymd (dt_date noon_march_1)) with
            | Some old => old +:+ data_line noon_march_1 57
            | None => header_line +:+ data_line noon_march_1 57
            end) /\
    (forall other, other <> Collector.csv_name (strftime_Ymd (dt_date noon_march_1)) ->
       files !! other = default ∅ sample_dir !! other) /\
    Some files <> sample_dir.
Proof.
  apply (fetched_number_recorded (number_reply 200 57) {[ "number" := Collector.PyInt 57 ]}
           57 noon_march_1 sample_dir); reflexivity.
Defined.

(** X5. The only way an exception leaves [fetch_gym_load], and with it
    [main] of the collector: a response whose status is not in 400..599
    and whose body is JSON but no object. The exception is then
    AttributeError and nothing is printed; for every other outcome of the
    request both functions return. *)
Theorem fetch_escape_exactly o :
  (fetch_crashes o = true ->
     Collector.fetch_gym_load o = ([], Raise AttributeError) /\
     forall now dir, Collector.main o now dir = ([], Raise AttributeError)) /\
  (fetch_crashes o = false ->
     (exists out v, Collector.fetch_gym_load o = (out, Ok v)) /\
     forall now dir, exists out dir', Collector.main o now dir = (out, Ok dir')).
Proof.
  assert (Hmain : forall out v, Collector.fetch_gym_load o = (out, Ok v) ->
            forall now dir, exists out' dir', Collector.main o now dir = (out', Ok dir')).
  { intros out v E now dir. unfold Collector.main. rewrite E.
    destruct (negb (Collector.is_none v)).
    - destruct (Collector.save_to_csv now v dir). eexists _, _. reflexivity.
    - eexists _, _. reflexivity. }
  destruct o as [msg|r]; cbn [fetch_crashes].
  - split; [discriminate|]. intros _. split; [|eapply Hmain]; try (eexists _, _); apply fetch_network_failure.
  - destruct (error_status r) eqn:Hs; cbn [negb andb].
    + split; [discriminate|]. intros _.
      split; [|eapply Hmain]; try (eexists _, _); apply (fetch_error_status r Hs).
    + destruct (Collector.body r) as [[members|]|msg] eqn:Hb.
      * split; [discriminate|]. intros _.
        split; [|eapply Hmain]; try (eexists _, _); apply (fetch_object r members Hs Hb).
      * split; [|discriminate]. intros _.
        assert (E : Collector.fetch_gym_load (Collector.PostReturns r) = ([], Raise AttributeError)).
        { unfold error_status in Hs.
          unfold Collector.fetch_gym_load, Collector.requests_post, Collector.raise_for_status,
            Collector.response_json.
          cbn [bind]. rewrite Hs. cbn [bind]. rewrite Hb. reflexivity. }
        split; [exact E|]. intros now dir. unfold Collector.main. rewrite E. reflexivity.
      * split; [discriminate|]. intros _.
        split; [|eapply Hmain]; try (eexists _, _); apply (fetch_not_json r msg Hs Hb).
Qed.

Lemma fetch_escape_exactly_witness :
  (exists out v,
     Collector.fetch_gym_load
       (Collector.PostReturns (Collector.mkresponse 404 "Not Found" (inl Collector.JOther)))
     = (out, Ok v)) /\
  (Collector.fetch_gym_load
     (Collector.PostReturns (Collector.mkresponse 301 "Moved" (inl Collector.JOther)))
   = ([], Raise AttributeError)).
Proof.
  split.
  - apply (proj2 (fetch_escape_exactly
      (Collector.PostReturns (Collector.mkresponse 404 "Not Found" (inl Collector.JOther))))
      eq_refl).
  - apply (proj1 (fetch_escape_exactly
      (Collector.PostReturns (Collector.mkresponse 301 "Moved" (inl Collector.JOther)))) eq_refl).
Defined.

(** ** What the reporter returns *)

(** *** Nothing in the window is lost *)

Lemma rows_readings_In fd rows row r :
  In row rows -> row_reading fd row = Ok r -> In r (rows_readings fd rows).
Proof.
  induction rows as [|row' rows IH]; [intros []|].
  intros [->|Hin] Hr; cbn [rows_readings].
  - rewrite Hr. left. reflexivity.
  - destruct (row_reading fd row'); [right|]; apply IH; assumption.
Qed.

Lemma kept_files_elem cutoff paths k p :
  kept_files cutoff paths = Ok k -> In p paths ->
  exists kp, kept_file cutoff p = Ok kp /\ forall r, In r kp -> In r k.
Proof.
  revert k. induction paths as [|path paths IH]; intros k; cbn [kept_files]; [intros _ []|].
  destruct (kept_file cutoff path) as [k1|] eqn:E1; cbn [bind]; [|discriminate].
  destruct (kept_files cutoff paths) as [k2|]; cbn [bind]; [|discriminate].
  intros [= <-] [<-|Hin].
  - exists k1. split; [assumption|]. intros r Hr. apply in_or_app. left. assumption.
  - destruct (IH k2 eq_refl Hin) as (kp & Hkp & Hsub).
    exists kp. split; [assumption|]. intros r Hr. apply in_or_app. right. auto.
Qed.

Lemma partition_date_stem name fd : partition_date name = Ok fd -> is_Some (csv_stem name).
Proof.
  unfold partition_date. destruct (csv_stem name) as [stem|]; [eauto|].
  cbn [default]. vm_compute. discriminate.
Qed.

(** X6. No reading of the window is lost: when [load_data] returns, every
    row of a file named by a date that can be read (time and integer
    count) and whose timestamp is at or after the window start is among
    the pairs returned. *)
Theorem nothing_in_window_lost now hours files ts cs cutoff name content fd row r :
  load_data now hours files = Ok (ts, cs) ->
  datetime_sub_hours now hours = Ok cutoff ->
  files !! name = Some content ->
  partition_date name = Ok fd ->
  In row (DictReader content).1 ->
  row_reading fd row = Ok r ->
  datetime_geb r.1 cutoff = true ->
  In r (combine ts cs).
Proof.
  intros Hload Hcut Hfile Hname Hrow Hread Hwin.
  destruct (load_data_kept _ _ _ _ _ Hload) as (cutoff' & k & Hcut' & Hk & -> & ->).
  rewrite Hcut in Hcut'. injection Hcut' as <-.
  rewrite combine_fst_snd.
  assert (Hin : In (name, content) (csv_files files)).
  { apply csv_files_elem. split; [assumption|]. eapply partition_date_stem. eassumption. }
  destruct (kept_files_elem _ _ _ _ Hk Hin) as (kp & Hkp & Hsub).
  apply Hsub. revert Hkp. unfold kept_file. cbn [fst snd].
  unfold partition_date in Hname. rewrite Hname.
  destruct (date_sub_days (dt_date cutoff) 1) as [limit|] eqn:Hlim; cbn [bind]; [|discriminate].
  destruct (date_ltb fd limit) eqn:Hold.
  - exfalso. destruct r as [dt c].
    assert (Hdate : dt_date dt = fd).
    { eapply row_reading_date; [|eassumption]. eapply strptime_Ymd_valid. eassumption. }
    cbn [fst] in Hwin.
    rewrite (prefilter_sound now hours cutoff limit fd dt Hcut Hlim Hold Hdate) in Hwin.
    discriminate.
  - destruct (kept_rows cutoff fd _) as [k'|] eqn:Ek; cbn [bind]; [|discriminate].
    destruct (DictReader content).2; [discriminate|]. intros [= <-].
    apply kept_rows_filter in Ek. subst k'.
    apply filter_In. split; [|exact Hwin].
    eapply rows_readings_In; eassumption.
Qed.

(** *** The timestamps are whole minutes of real days *)

Section Inversion.
Context {R : Type}.

Lemma re_two_inv lo1 hi1 lo2 hi2 (k : Z -> string -> option R) s v :
  re_two lo1 hi1 lo2 hi2 k s = Some v ->
  exists a b s', lo1 <= a <= hi1 /\ lo2 <= b <= hi2 /\ k (a * 10 + b) s' = Some v.
Proof.
  unfold re_two. destruct s as [|c1 [|c2 s']]; try discriminate.
  destruct (_ && _) eqn:E; [|discriminate]. intros H.
  repeat (apply andb_prop in E; destruct E as [E ?]).
  exists (digit_val c1), (digit_val c2), s'. repeat split; try lia. exact H.
Qed.

Lemma re_one_inv lo hi (k : Z -> string -> option R) s v :
  re_one lo hi k s = Some v ->
  exists a s', lo <= a <= hi /\ k a s' = Some v.
Proof.
  unfold re_one. destruct s as [|c s']; try discriminate.
  destruct (_ && _) eqn:E; [|discriminate]. intros H.
  repeat (apply andb_prop in E; destruct E as [E ?]).
  exists (digit_val c), s'. repeat split; try lia. exact H.
Qed.

Lemma orelse_inv (a b : option R) v : orelse a b = Some v -> a = Some v \/ b = Some v.
Proof. destruct a; cbn [orelse]; auto. Qed.

Lemma re_H_inv (k : Z -> string -> option R) s v :
  re_H k s = Some v -> exists h s', 0 <= h <= 23 /\ k h s' = Some v.
Proof.
  unfold re_H. intros H.
  apply orelse_inv in H. destruct H as [H|H]; [|apply orelse_inv in H; destruct H as [H|H]].
  - apply re_two_inv in H. destruct H as (a & b & s' & ? & ? & H). exists (a * 10 + b), s'.
    split; [lia|exact H].
  - apply re_two_inv in H. destruct H as (a & b & s' & ? & ? & H). exists (a * 10 + b), s'.
    split; [lia|exact H].
  - apply re_one_inv in H. destruct H as (a & s' & ? & H). exists a, s'.
    split; [lia|exact H].
Qed.

Lemma re_M_inv (k : Z -> string -> option R) s v :
  re_M k s = Some v -> exists m s', 0 <= m <= 59 /\ k m s' = Some v.
Proof.
  unfold re_M. intros H. apply orelse_inv in H. destruct H as [H|H].
  - apply re_two_inv in H. destruct H as (a & b & s' & ? & ? & H). exists (a * 10 + b), s'.
    split; [lia|exact H].
  - apply re_one_inv in H. destruct H as (a & s' & ? & H). exists a, s'.
    split; [lia|exact H].
Qed.

Lemma re_lit_inv ch (k : string -> option R) s v :
  re_lit ch k s = Some v -> exists s', k s' = Some v.
Proof.
  unfold re_lit. destruct s as [|c s']; [discriminate|].
  destruct (char_eqb c ch); [eauto|discriminate].
Qed.

Lemma re_spaces0_inv (k : string -> option R) s v :
  re_spaces0 k s = Some v -> exists s', k s' = Some v.
Proof.
  induction s as [|c s IH]; cbn [re_spaces0]; [eauto|].
  destruct (is_space c); [|eauto].
  intros H. apply orelse_inv in H. destruct H; eauto.
Qed.

End Inversion.

Lemma re_time_shape d t dt r :
  re_time d t = Some (dt, r) ->
  exists h mi, 0 <= h <= 23 /\ 0 <= mi <= 59 /\ dt = mkdatetime d h mi 0 0.
Proof.
  unfold re_time. intros H.
  apply re_spaces0_inv in H. destruct H as (s1 & H).
  apply re_H_inv in H. destruct H as (h & s2 & Hh & H).
  apply re_lit_inv in H. destruct H as (s3 & H).
  apply re_M_inv in H. destruct H as (mi & s4 & Hm & H).
  injection H as <- _. exists h, mi. repeat split; lia.
Qed.

Lemma row_reading_shape fd row dt c :
  valid_date fd -> row_reading fd row = Ok (dt, c) ->
  exists h mi, 0 <= h <= 23 /\ 0 <= mi <= 59 /\ dt = mkdatetime fd h mi 0 0.
Proof.
  intros Hv. unfold row_reading, bind.
  destruct (getitem row "time") as [time_str|]; [|discriminate].
  destruct (getitem row "count") as [cnt|]; [|discriminate].
  destruct (int_of_cell cnt) as [count|]; [|discriminate].
  rewrite strptime_Ymd_HM_unfold by assumption.
  destruct (re_time fd _) as [[dt' [|? ?]]|] eqn:Et; try discriminate.
  intros [= <- <-]. eapply re_time_shape. eassumption.
Qed.

(** X7. Every timestamp that [load_data] returns is a datetime of the
    calendar with an hour in 0..23 and a minute in 0..59, and is a whole
    minute: its seconds and microseconds are zero. *)
Theorem timestamps_whole_minutes now hours files ts cs :
  load_data now hours files = Ok (ts, cs) ->
  Forall (fun t => valid_datetime t /\ second t = 0 /\ microsecond t = 0 /\
                   minute_of t = t) ts.
Proof.
  intros Hload.
  destruct (load_data_kept _ _ _ _ _ Hload) as (cutoff & k & _ & Hk & -> & _).
  apply kept_files_origin in Hk.
  apply List.Forall_forall. intros t Ht. apply in_map_iff in Ht.
  destruct Ht as ([dt c] & <- & Hin). cbn [fst].
  rewrite List.Forall_forall in Hk. destruct (Hk _ Hin) as (path & fd & row & _ & Hfd & _ & Hr & _).
  apply strptime_Ymd_valid in Hfd.
  destruct (row_reading_shape fd row dt c Hfd Hr) as (h & mi & Hh & Hm & ->).
  unfold valid_datetime, minute_of. cbn [dt_date hour minute second microsecond].
  repeat split; try lia; apply Hfd.
Qed.

Lemma nothing_in_window_lost_witness :
  In (mkdatetime march_1 10 0 0 0, 5)
     (combine [mkdatetime march_1 10 0 0 0] [5]).
Proof.
  apply (nothing_in_window_lost three_days_on 96 {[ "2024-03-01.csv" := bad_count_file ]}
           [mkdatetime march_1 10 0 0 0] [5]
           (mkdatetime (mkdate 2024 2 29) 9 30 15 250)
           "2024-03-01.csv" bad_count_file march_1
           (row_dict ["time"; "count"] ["10:00"; "5"])
           (mkdatetime march_1 10 0 0 0, 5)).
  - vm_compute. reflexivity.
  - vm_compute. reflexivity.
  - vm_compute. reflexivity.
  - vm_compute. reflexivity.
  - vm_compute. left. reflexivity.
  - vm_compute. reflexivity.
  - vm_compute. reflexivity.
Defined.

Lemma timestamps_whole_minutes_witness :
  Forall (fun t => valid_datetime t /\ second t = 0 /\ microsecond t = 0 /\
                   minute_of t = t)
    [minute_of late_feb_29; minute_of early_march_1].
Proof.
  apply (timestamps_whole_minutes three_days_on 96 sample_files
           [minute_of late_feb_29; minute_of early_march_1] [120; 141]).
  vm_compute. reflexivity.
Defined.

(** *** The statistics of the chart *)






(** ** Files that contribute nothing *)

(** *** The sorted list of files after a file is added *)

Lemma NoDup_fst_inj {A B} (l : list (A * B)) x1 x2 :
  NoDup l.*1 -> x1 ∈ l -> x2 ∈ l -> x1.1 = x2.1 -> x1 = x2.
Proof.
  induction l as [|y l IH]; [intros _ H; inversion H|].
  rewrite fmap_cons. intros Hnd H1 H2 Heq.
  apply NoDup_cons in Hnd. destruct Hnd as [Hy Hnd].
  apply elem_of_cons in H1. apply elem_of_cons in H2.
  destruct H1 as [->|H1], H2 as [->|H2]; [reflexivity| | |auto].
  - exfalso. apply Hy. rewrite Heq. apply list_elem_of_fmap. exists x2. auto.
  - exfalso. apply Hy. rewrite <- Heq. apply list_elem_of_fmap. exists x1. auto.
Qed.

Lemma paths_unique (l1 l2 : list (string * string)) :
  NoDup l1.*1 -> StronglySorted path_le l1 -> StronglySorted path_le l2 ->
  l1 ≡ₚ l2 -> l1 = l2.
Proof.
  intros Hnd Hs1 Hs2 Hperm. apply (StronglySorted_unique_strong path_le); try assumption.
  intros x1 x2 H1 H2 R12 R21. rewrite <- Hperm in H2.
  apply (NoDup_fst_inj l1); try assumption.
  unfold path_le in *. apply (anti_symm String.le); assumption.
Qed.

Lemma csv_files_Permutation files :
  csv_files files ≡ₚ filter (fun p => is_Some (csv_stem p.1)) (map_to_list files).
Proof. unfold csv_files. apply merge_sort_Permutation. Qed.

Lemma csv_files_insert_other files name content :
  files !! name = None -> csv_stem name = None ->
  csv_files (<[name := content]> files) = csv_files files.
Proof.
  intros Hnew Hstem. apply paths_unique.
  - apply csv_files_NoDup.
  - apply csv_files_sorted.
  - apply csv_files_sorted.
  - rewrite !csv_files_Permutation, map_to_list_insert by assumption.
    rewrite filter_cons_False; [reflexivity|].
    cbn [fst]. rewrite Hstem. intros [? ?]. discriminate.
Qed.

Lemma csv_files_insert_csv files name content :
  files !! name = None -> is_Some (csv_stem name) ->
  exists l1 l2,
    csv_files (<[name := content]> files) = (l1 ++ (name, content) :: l2)%list /\
    csv_files files = (l1 ++ l2)%list.
Proof.
  intros Hnew Hstem.
  assert (Hperm : csv_files (<[name := content]> files) ≡ₚ (name, content) :: csv_files files).
  { rewrite !csv_files_Permutation, map_to_list_insert by assumption.
    rewrite filter_cons_True by exact Hstem. reflexivity. }
  assert (Hin : (name, content) ∈ csv_files (<[name := content]> files)).
  { rewrite Hperm. left. }
  apply list_elem_of_split in Hin. destruct Hin as (l1 & l2 & E).
  exists l1, l2. split; [exact E|].
  pose proof (csv_files_sorted (<[name := content]> files)) as Hs.
  pose proof (csv_files_NoDup (<[name := content]> files)) as Hnd.
  rewrite E in Hs, Hperm.
  rewrite <- Permutation_middle in Hperm. apply Permutation_cons_inv in Hperm.
  symmetry. apply paths_unique.
  - rewrite Hperm. apply csv_files_NoDup.
  - apply StronglySorted_app in Hs. destruct Hs as (Hcross & Hs1 & Hs2).
    apply StronglySorted_cons in Hs2. destruct Hs2 as [_ Hs2].
    apply StronglySorted_app. split; [|split; assumption].
    intros x1 x2 H1 H2. apply Hcross; [assumption|]. right. assumption.
  - apply csv_files_sorted.
  - exact Hperm.
Qed.

Lemma kept_files_app cutoff l1 l2 :
  kept_files cutoff (l1 ++ l2) =
  let* k1 := kept_files cutoff l1 in
  let* k2 := kept_files cutoff l2 in
  Ok (k1 ++ k2)%list.
Proof.
  induction l1 as [|p l1 IH]; cbn [kept_files app bind].
  - destruct (kept_files cutoff l2); reflexivity.
  - destruct (kept_file cutoff p) as [k|]; cbn [bind]; [|reflexivity].
    rewrite IH. destruct (kept_files cutoff l1) as [k1|]; cbn [bind]; [|reflexivity].
    destruct (kept_files cutoff l2) as [k2|]; cbn [bind]; [|reflexivity].
    rewrite app_assoc. reflexivity.
Qed.

(** A file that adds no reading and raises nothing can be added to the
    directory without changing what is loaded. *)
Lemma load_data_insert_silent now hours files name content :
  files !! name = None ->
  (forall cutoff, datetime_sub_hours now hours = Ok cutoff ->
     is_Some (csv_stem name) ->
     kept_file cutoff (name, content) = Ok []) ->
  load_data now hours (<[name := content]> files) = load_data now hours files.
Proof.
  intros Hnew Hsilent. rewrite !load_data_eq.
  destruct (datetime_sub_hours now hours) as [cutoff|] eqn:Hcut; cbn [bind]; [|reflexivity].
  destruct (csv_stem name) as [stem|] eqn:Hstem.
  - destruct (csv_files_insert_csv files name content Hnew) as (l1 & l2 & E' & E);
      [rewrite Hstem; eauto|].
    rewrite E', E, !kept_files_app.
    destruct (kept_files cutoff l1) as [k1|e1] eqn:E1; cbn [bind]; [|reflexivity].
    cbn [kept_files]. rewrite Hsilent by eauto. cbn [bind].
    destruct (kept_files cutoff l2) as [k2|e2] eqn:E2; cbn [bind]; reflexivity.
  - rewrite csv_files_insert_other by assumption. reflexivity.
Qed.

(** *** Files that are no partitions *)

(** X9. A file whose name is no [*.csv] name, or whose stem is no date of
    the calendar in the format of the partitions, has no effect on
    [load_data], whatever its content: with and without the file the
    result is the same. *)
Theorem other_files_ignored now hours files name content :
  files !! name = None ->
  (forall fd, partition_date name <> Ok fd) ->
  load_data now hours (<[name := content]> files) = load_data now hours files.
Proof.
  intros Hnew Hname. apply load_data_insert_silent; [assumption|].
  intros cutoff _ _. unfold kept_file. cbn [fst].
  unfold partition_date in Hname.
  destruct (strptime_Ymd _) as [fd|e] eqn:E; [destruct (Hname fd); reflexivity|].
  assert (e = ValueError) as ->; [|reflexivity].
  revert E. unfold strptime_Ymd.
  destruct (re_Y _ _) as [[d [|? ?]]|]; try (intros [= <-]; reflexivity).
  destruct (valid_dateb d); [discriminate|intros [= <-]; reflexivity].
Qed.

Lemma other_files_ignored_witness :
  load_data three_days_on 96 (<["notes.csv" := (partition_text [(10, 0, 999)])]> sample_files) =
    load_data three_days_on 96 sample_files /\
  load_data three_days_on 96 (<["2024-02-30.csv" := (partition_text [(10, 0, 999)])]> sample_files) =
    load_data three_days_on 96 sample_files /\
  load_data three_days_on 96 (<["gym_load_chart.png" := (partition_text [(10, 0, 999)])]> sample_files) =
    load_data three_days_on 96 sample_files.
Proof.
  split; [|split].
  - apply (other_files_ignored three_days_on 96 sample_files "notes.csv" (partition_text [(10, 0, 999)])).
    + vm_compute. reflexivity.
    + intros fd. vm_compute. discriminate.
  - apply (other_files_ignored three_days_on 96 sample_files "2024-02-30.csv" (partition_text [(10, 0, 999)])).
    + vm_compute. reflexivity.
    + intros fd. vm_compute. discriminate.
  - apply (other_files_ignored three_days_on 96 sample_files "gym_load_chart.png" (partition_text [(10, 0, 999)])).
    + vm_compute. reflexivity.
    + intros fd. vm_compute. discriminate.
Defined.

(** *** A file without the expected columns *)

Lemma fold_insert_other (l : list (string * cell)) (m : gmap string cell) k :
  (forall kv, In kv l -> kv.1 <> k) ->
  fold_left (fun d kv => <[kv.1 := kv.2]> d) l m !! k = m !! k.
Proof.
  revert m. induction l as [|kv l IH]; intros m Hl; cbn [fold_left]; [reflexivity|].
  rewrite IH by (intros kv' Hin; apply Hl; right; exact Hin).
  apply lookup_insert_ne. apply Hl. left. reflexivity.
Qed.

Lemma pad_row_keys fieldnames row kv : In kv (pad_row fieldnames row) -> In kv.1 fieldnames.
Proof.
  revert row. induction fieldnames as [|k ks IH]; intros row; [intros []|].
  destruct row as [|v vs]; cbn [pad_row]; (intros [<-|Hin]; [left; reflexivity|right; eauto]).
Qed.

Lemma row_dict_missing fieldnames row k :
  ~ In k fieldnames -> row_dict fieldnames row !! k = None.
Proof.
  intros Hk. unfold row_dict. rewrite fold_insert_other; [apply lookup_empty|].
  intros kv Hin <-. apply Hk. eapply pad_row_keys. eassumption.
Qed.

Lemma row_reading_missing_column fd fieldnames row :
  ~ In "time" fieldnames \/ ~ In "count" fieldnames ->
  row_reading fd (row_dict fieldnames row) = Raise KeyError.
Proof.
  intros H. unfold row_reading, getitem.
  destruct H as [H|H].
  - rewrite (row_dict_missing fieldnames row "time" H). reflexivity.
  - rewrite (row_dict_missing fieldnames row "count" H).
    destruct (row_dict fieldnames row !! "time"); reflexivity.
Qed.

Lemma kept_rows_missing_column cutoff fd fieldnames rows :
  ~ In "time" fieldnames \/ ~ In "count" fieldnames ->
  kept_rows cutoff fd (map (row_dict fieldnames) rows) = Ok [].
Proof.
  intros H. induction rows as [|row rows IH]; cbn [map kept_rows]; [reflexivity|].
  rewrite (row_reading_missing_column fd fieldnames row H). exact IH.
Qed.

Lemma kept_file_missing_column cutoff limit name content fieldnames rows :
  date_sub_days (dt_date cutoff) 1 = Ok limit ->
  csv_reader content = (fieldnames :: rows, None) ->
  ~ In "time" fieldnames \/ ~ In "count" fieldnames ->
  kept_file cutoff (name, content) = Ok [].
Proof.
  intros Hlim Hread Hcol. unfold kept_file. cbn [fst snd].
  destruct (strptime_Ymd _) as [fd|e] eqn:E.
  - rewrite Hlim. cbn [bind]. destruct (date_ltb fd limit); [reflexivity|].
    unfold DictReader. rewrite Hread. cbn [fst snd].
    rewrite kept_rows_missing_column by assumption. reflexivity.
  - assert (e = ValueError) as ->; [|reflexivity].
    revert E. unfold strptime_Ymd.
    destruct (re_Y _ _) as [[d [|? ?]]|]; try (intros [= <-]; reflexivity).
    destruct (valid_dateb d); [discriminate|intros [= <-]; reflexivity].
Qed.



(** *** A partition that was created without its header *)

Lemma lines_text_rows rs :
  lines_text rs = rows_text (map (fun r => (strftime_HM r.1, str_int r.2)) rs).
Proof.
  induction rs as [|r rs IH]; [reflexivity|].
  cbn [lines_text map rows_text]. rewrite writerow2_data_line, IH. reflexivity.
Qed.

Lemma csv_reader_lines rs :
  csv_reader (lines_text rs) = (map (fun r => [strftime_HM r.1; str_int r.2]) rs, None).
Proof.
  rewrite lines_text_rows, csv_reader_rows.
  - rewrite map_map. reflexivity.
  - apply List.Forall_forall. intros x Hx. apply in_map_iff in Hx.
    destruct Hx as (r & <- & _). repeat split; cbn [fst snd].
    + apply strftime_HM_clean.
    + apply str_int_clean.
    + apply strftime_HM_nonempty.
    + apply str_int_nonempty.
Qed.

Lemma str_int_not_count z : str_int z <> "count".
Proof.
  intros H. pose proof (int_of_str_str_int z) as E. rewrite H in E.
  vm_compute in E. discriminate.
Qed.

Lemma strftime_HM_not_count t : valid_datetime t -> strftime_HM t <> "count".
Proof.
  intros (_ & Hh & Hm & _) H.
  pose proof (re_time_strftime (dt_date t) (hour t) (minute t) ltac:(lia) ltac:(lia)) as E.
  unfold strftime_HM in H. rewrite H in E. vm_compute in E. discriminate.
Qed.

(** X11. The header is written when the file is absent, not when it is
    empty. If the partition of a date exists and is empty when readings
    of that date are recorded, the file gets the data lines and no
    header; the reader then takes the first data line for the header,
    and [load_data] returns none of these readings: its result is the
    one it gives for the directory without the file. *)
Theorem headerless_partition_unread d r rs files now hours cutoff limit :
  let name := Collector.csv_name (strftime_Ymd d) in
  Forall (fun x => valid_datetime x.1 /\ dt_date x.1 = d) (r :: rs) ->
  files !! name = Some EmptyString ->
  datetime_sub_hours now hours = Ok cutoff ->
  date_sub_days (dt_date cutoff) 1 = Ok limit ->
  exists files',
    record_all (r :: rs) (Some files) = Some files' /\
    files' !! name = Some (lines_text (r :: rs)) /\
    load_data now hours files' = load_data now hours (delete name files).
Proof.
  intros name Hall Hempty Hcut Hlim.
  assert (Hdates : Forall (fun x : datetime * Z => dt_date x.1 = d) (r :: rs)).
  { eapply List.Forall_impl; [|exact Hall]. intros x [_ Hx]. exact Hx. }
  rewrite (record_all_existing d (r :: rs) files EmptyString Hdates Hempty).
  rewrite sapp_nil_l. fold name. eexists. split; [reflexivity|].
  split; [apply lookup_insert_eq|].
  rewrite <- insert_delete_eq.
  apply load_data_insert_silent; [apply lookup_delete_eq|].
  intros cutoff' Hcut' _. rewrite Hcut in Hcut'. injection Hcut' as <-.
  eapply kept_file_missing_column; [exact Hlim|rewrite csv_reader_lines; reflexivity|].
  right. intros [H|[H|[]]].
  - apply (strftime_HM_not_count r.1); [|exact H].
    apply (List.Forall_inv Hall).
  - apply (str_int_not_count r.2). exact H.
Qed.

Lemma headerless_partition_unread_witness :
  exists files',
    record_all [(early_march_1, 141); (noon_march_1, 150)]
      (Some (<["2024-03-01.csv" := EmptyString]> ∅)) = Some files' /\
    files' !! Collector.csv_name (strftime_Ymd march_1) =
      Some (lines_text [(early_march_1, 141); (noon_march_1, 150)]) /\
    load_data three_days_on 96 files' =
    load_data three_days_on 96
      (delete (Collector.csv_name (strftime_Ymd march_1)) (<["2024-03-01.csv" := EmptyString]> ∅)).
Proof.
  apply (headerless_partition_unread march_1 (early_march_1, 141) [(noon_march_1, 150)]
           (<["2024-03-01.csv" := EmptyString]> ∅) three_days_on 96
           (mkdatetime (mkdate 2024 2 29) 9 30 15 250) (mkdate 2024 2 28)).
  - repeat constructor; try apply valid_early_march_1; cbn; try lia;
      apply valid_dateb_spec; reflexivity.
  - vm_compute. reflexivity.
  - vm_compute. reflexivity.
  - vm_compute. reflexivity.
Defined.

(** ** The exceptions that leave the reporter *)

(** *** The reader raises nothing on the lines of a file *)

Lemma line_ok_app cur t : no_newline cur -> all_newline t = true -> line_ok (cur +:+ t) = true.
Proof.
  unfold no_newline. induction cur as [|c cur IH]; intros Hc Ht.
  - rewrite sapp_nil_l. destruct t as [|c t]; [reflexivity|].
    cbn [line_ok all_newline] in *. apply andb_prop in Ht. destruct Ht as [-> Ht]. exact Ht.
  - rewrite sapp_cons. cbn [any_char] in Hc. apply orb_false_iff in Hc. destruct Hc as [Hc Hcur].
    cbn [line_ok]. rewrite Hc. apply IH; assumption.
Qed.

Lemma line_ok_no_newline cur : no_newline cur -> line_ok cur = true.
Proof. intros H. rewrite <- (sapp_nil_r cur). apply line_ok_app; [assumption|reflexivity]. Qed.

Lemma no_newline_snoc cur c :
  no_newline cur -> is_newline c = false -> no_newline (cur +:+ String c EmptyString).
Proof.
  unfold no_newline. intros Hcur Hc. rewrite any_char_app, Hcur. cbn [any_char orb].
  rewrite Hc. reflexivity.
Qed.

Lemma lines_from_ok_bounded (n : nat) : forall s cur,
  (String.length s <= n)%nat -> no_newline cur ->
  Forall (fun l => line_ok l = true) (lines_from cur s).
Proof.
  assert (Hnil : no_newline EmptyString) by reflexivity.
  induction n as [|n IH]; intros s cur Hlen Hcur.
  - destruct s; [|cbn in Hlen; lia]. cbn [lines_from].
    destruct cur; constructor; [|constructor]. apply line_ok_no_newline. assumption.
  - destruct s as [|c s]; cbn [lines_from].
    { destruct cur; constructor; [|constructor]. apply line_ok_no_newline. assumption. }
    cbn [String.length] in Hlen.
    destruct (Ascii.eqb c LF) eqn:Elf.
    + constructor; [apply line_ok_app; [assumption|]|apply IH; [lia|assumption]].
      apply Ascii.eqb_eq in Elf. subst c. reflexivity.
    + destruct (Ascii.eqb c CR) eqn:Ecr.
      * apply Ascii.eqb_eq in Ecr. subst c.
        destruct s as [|c' s']; [constructor; [|constructor]; apply line_ok_app; auto|].
        cbn [String.length] in Hlen.
        destruct (Ascii.eqb c' LF).
        -- constructor; [apply line_ok_app; auto|apply IH; [lia|assumption]].
        -- constructor; [apply line_ok_app; auto|apply IH; [cbn [String.length]; lia|assumption]].
      * apply IH; [lia|]. apply no_newline_snoc; [assumption|].
        unfold is_newline. rewrite Elf, Ecr. reflexivity.
Qed.

Lemma lines_from_ok s cur :
  no_newline cur -> Forall (fun l => line_ok l = true) (lines_from cur s).
Proof. apply (lines_from_ok_bounded (String.length s)). lia. Qed.

Lemma parse_line_newlines line r :
  all_newline line = true -> exists r', parse_line r line = Ok r'.
Proof.
  revert r. induction line as [|c line IH]; intros r; cbn [all_newline parse_line]; [eauto|].
  intros H. apply andb_prop in H. destruct H as [Hc Hl].
  unfold parse_process_char, start_field. rewrite Hc.
  destruct (state r); cbn [bind]; try (apply IH; assumption);
    destruct (Ascii.eqb c QUOTE); cbn [bind]; try (apply IH; assumption);
    destruct (Ascii.eqb c COMMA); cbn [bind]; apply IH; assumption.
Qed.

Lemma parse_process_char_ok r c :
  state r <> EAT_CRNL ->
  exists r', parse_process_char r c = Ok r' /\ (is_newline c = false -> state r' <> EAT_CRNL).
Proof.
  intros Hst. unfold parse_process_char, start_field.
  destruct (state r) eqn:E; try congruence;
    destruct (is_newline c); destruct (Ascii.eqb c QUOTE); destruct (Ascii.eqb c COMMA);
    eexists; (split; [reflexivity|]);
    cbn [state set_state parse_save_field parse_add_char]; rewrite ?E; congruence.
Qed.

Lemma parse_line_ok line r :
  line_ok line = true -> state r <> EAT_CRNL -> exists r', parse_line r line = Ok r'.
Proof.
  revert r. induction line as [|c line IH]; intros r; cbn [line_ok parse_line]; [eauto|].
  intros Hl Hst. destruct (parse_process_char_ok r c Hst) as (r1 & -> & Hr1). cbn [bind].
  destruct (is_newline c).
  - apply parse_line_newlines. assumption.
  - apply IH; auto.
Qed.

Lemma parse_process_eol_state r :
  state (parse_process_eol r) = START_RECORD \/ state (parse_process_eol r) = IN_QUOTED_FIELD.
Proof.
  unfold parse_process_eol. destruct (state r) eqn:E; cbn [state set_state]; auto.
Qed.

Lemma reader_rows_no_error lines r :
  Forall (fun l => line_ok l = true) lines -> state r <> EAT_CRNL ->
  (reader_rows r lines).2 = None.
Proof.
  intros Hall. revert r. induction Hall as [|line lines Hl _ IH]; intros r Hst; cbn [reader_rows].
  - destruct (_ || _); reflexivity.
  - destruct (parse_line_ok line r Hl Hst) as [r' ->].
    destruct (is_start_record (state (parse_process_eol r'))).
    + specialize (IH parse_reset ltac:(discriminate)).
      destruct (reader_rows parse_reset lines) as [rows err]. exact IH.
    + apply IH. destruct (parse_process_eol_state r') as [-> | ->]; discriminate.
Qed.

Lemma csv_reader_no_error text : (csv_reader text).2 = None.
Proof.
  unfold csv_reader, file_lines. apply reader_rows_no_error; [|discriminate].
  apply lines_from_ok. reflexivity.
Qed.

Lemma DictReader_no_error text : (DictReader text).2 = None.
Proof.
  unfold DictReader. pose proof (csv_reader_no_error text) as H.
  destruct (csv_reader text) as [[|fieldnames rows] err]; exact H.
Qed.

(** *** What can be raised *)









(** ** The window *)

(** *** A narrower window *)

Lemma datetime_le_date a b :
  datetime_le a b -> date_compare (dt_date a) (dt_date b) <> Gt.
Proof.
  rewrite datetime_le_alt. unfold datetime_compare.
  destruct (date_compare (dt_date a) (dt_date b)); congruence.
Qed.

Lemma cutoff_order now h1 h2 c1 c2 :
  wf_datetime now -> h1 <= h2 ->
  datetime_sub_hours now h1 = Ok c1 -> datetime_sub_hours now h2 = Ok c2 ->
  datetime_le c2 c1.
Proof.
  intros Hw Hh H1 H2. unfold datetime_sub_hours in *.
  destruct (datetime_sub_seconds_spec now _ c1 Hw H1) as (Hw1 & Hs1 & Hu1).
  destruct (datetime_sub_seconds_spec now _ c2 Hw H2) as (Hw2 & Hs2 & Hu2).
  apply datetime_le_alt. rewrite datetime_compare_linear by assumption.
  rewrite Z.compare_gt_iff. lia.
Qed.

Lemma limit_order d1 d2 l1 l2 :
  wf_date d1 -> wf_date d2 -> date_compare d2 d1 <> Gt ->
  date_sub_days d1 1 = Ok l1 -> date_sub_days d2 1 = Ok l2 ->
  date_compare l2 l1 <> Gt.
Proof.
  intros Hw1 Hw2 Hle. unfold date_sub_days.
  destruct (_ && _); [|discriminate]. intros [= <-].
  destruct (_ && _); [|discriminate]. intros [= <-].
  destruct (ord2ymd_spec (ymd2ord d1 - 1)) as [Hl1 E1].
  destruct (ord2ymd_spec (ymd2ord d2 - 1)) as [Hl2 E2].
  rewrite ymd2ord_compare in * by assumption. rewrite E1, E2.
  rewrite Z.compare_gt_iff in *. lia.
Qed.

Lemma filter_none {A} (f : A -> bool) l :
  (forall x, In x l -> f x = false) -> List.filter f l = [].
Proof.
  induction l as [|x l IH]; [reflexivity|]. intros H. cbn [List.filter].
  rewrite (H x (or_introl eq_refl)). apply IH. intros y Hy. apply H. right. exact Hy.
Qed.

Lemma filter_filter_weaker {A} (f g : A -> bool) l :
  (forall x, f x = true -> g x = true) ->
  List.filter f (List.filter g l) = List.filter f l.
Proof.
  intros H. induction l as [|x l IH]; [reflexivity|]. cbn [List.filter].
  destruct (g x) eqn:Eg.
  - cbn [List.filter]. rewrite IH. reflexivity.
  - destruct (f x) eqn:Ef; [rewrite (H x Ef) in Eg; discriminate|exact IH].
Qed.

Lemma kept_file_narrower now h1 h2 c1 c2 path k1 k2 :
  wf_datetime now -> h1 <= h2 ->
  datetime_sub_hours now h1 = Ok c1 -> datetime_sub_hours now h2 = Ok c2 ->
  kept_file c1 path = Ok k1 -> kept_file c2 path = Ok k2 ->
  k1 = List.filter (in_window c1) k2.
Proof.
  intros Hw Hh H1 H2. pose proof (cutoff_order now h1 h2 c1 c2 Hw Hh H1 H2) as Hle.
  unfold kept_file. destruct (strptime_Ymd _) as [fd|e] eqn:Efd.
  - destruct (date_sub_days (dt_date c1) 1) as [l1|] eqn:El1; cbn [bind]; [|discriminate].
    destruct (date_sub_days (dt_date c2) 1) as [l2|] eqn:El2; cbn [bind];
      [|destruct (date_ltb fd l1); discriminate].
    assert (Hlim : date_compare l2 l1 <> Gt).
    { eapply (limit_order (dt_date c1) (dt_date c2)); try eassumption.
      - eapply datetime_sub_seconds_wf_date. exact H1.
      - eapply datetime_sub_seconds_wf_date. exact H2.
      - apply datetime_le_date. exact Hle. }
    pose proof (strptime_Ymd_valid _ _ Efd) as Hv.
    destruct (date_ltb fd l2) eqn:Eo2.
    + assert (Eo1 : date_ltb fd l1 = true).
      { apply date_ltb_lt. apply date_ltb_lt in Eo2.
        eapply date_compare_lt_trans; eassumption. }
      rewrite Eo1. intros [= <-] [= <-]. reflexivity.
    + destruct (kept_rows c2 fd _) as [r2|] eqn:Ek2; cbn [bind];
        [|destruct (date_ltb fd l1); discriminate].
      rewrite DictReader_no_error.
      apply kept_rows_filter in Ek2. subst r2.
      destruct (date_ltb fd l1) eqn:Eo1.
      * intros [= <-] [= <-]. symmetry. apply filter_none.
        intros [dt c] Hin. apply filter_In in Hin. destruct Hin as [Hin _].
        apply rows_readings_elem in Hin. destruct Hin as (row & _ & Hr).
        unfold in_window. cbn [fst].
        eapply (prefilter_sound now h1 c1 l1 fd); try eassumption.
        eapply row_reading_date; eassumption.
      * destruct (kept_rows c1 fd _) as [r1|] eqn:Ek1; cbn [bind]; [|discriminate].
        apply kept_rows_filter in Ek1. subst r1.
        intros [= <-] [= <-]. symmetry. apply filter_filter_weaker.
        intros [dt c]. unfold in_window. cbn [fst]. intros Hin.
        change (datetime_le c2 dt). eapply datetime_le_trans; eassumption.
  - destruct (name_catches e); [|discriminate]. intros [= <-] [= <-]. reflexivity.
Qed.

Lemma kept_files_narrower now h1 h2 c1 c2 paths k1 k2 :
  wf_datetime now -> h1 <= h2 ->
  datetime_sub_hours now h1 = Ok c1 -> datetime_sub_hours now h2 = Ok c2 ->
  kept_files c1 paths = Ok k1 -> kept_files c2 paths = Ok k2 ->
  k1 = List.filter (in_window c1) k2.
Proof.
  intros Hw Hh H1 H2. revert k1 k2.
  induction paths as [|path paths IH]; intros k1 k2; cbn [kept_files].
  - intros [= <-] [= <-]. reflexivity.
  - destruct (kept_file c1 path) as [a1|] eqn:Ea1; cbn [bind]; [|discriminate].
    destruct (kept_files c1 paths) as [b1|]; cbn [bind]; [|discriminate].
    destruct (kept_file c2 path) as [a2|] eqn:Ea2; cbn [bind]; [|discriminate].
    destruct (kept_files c2 paths) as [b2|]; cbn [bind]; [|discriminate].
    intros [= <-] [= <-]. rewrite List.filter_app.
    rewrite <- (IH b1 b2 eq_refl eq_refl).
    rewrite <- (kept_file_narrower now h1 h2 c1 c2 path a1 a2 Hw Hh H1 H2 Ea1 Ea2).
    reflexivity.
Qed.

(** X13. Windows are consistent: on the same directory and at the same
    time, the pairs returned for a window are the pairs returned for any
    longer window that are at or after the start of the shorter one, in
    the same order. *)
Theorem narrower_window_filters now h1 h2 files c1 ts1 cs1 ts2 cs2 :
  valid_datetime now -> h1 <= h2 ->
  datetime_sub_hours now h1 = Ok c1 ->
  load_data now h1 files = Ok (ts1, cs1) ->
  load_data now h2 files = Ok (ts2, cs2) ->
  combine ts1 cs1 = List.filter (in_window c1) (combine ts2 cs2).
Proof.
  intros Hv Hh Hc1 L1 L2.
  destruct (load_data_kept _ _ _ _ _ L1) as (c1' & k1 & Hc1' & Hk1 & -> & ->).
  destruct (load_data_kept _ _ _ _ _ L2) as (c2 & k2 & Hc2 & Hk2 & -> & ->).
  rewrite Hc1 in Hc1'. injection Hc1' as <-.
  rewrite !combine_fst_snd.
  eapply (kept_files_narrower now h1 h2 c1 c2); try eassumption.
  apply valid_datetime_wf. assumption.
Qed.

Lemma narrower_window_filters_witness :
  combine [minute_of early_march_1] [141] =
  List.filter (in_window (mkdatetime (mkdate 2024 2 29) 23 55 15 250))
    (combine [minute_of late_feb_29; minute_of early_march_1] [120; 141]).
Proof.
  apply (narrower_window_filters (mkdatetime (mkdate 2024 3 1) 9 55 15 250) 10 96 sample_files
           (mkdatetime (mkdate 2024 2 29) 23 55 15 250)).
  - split; [apply valid_dateb_spec; reflexivity|cbn; lia].
  - lia.
  - vm_compute. reflexivity.
  - vm_compute. reflexivity.
  - vm_compute. reflexivity.
Defined.

(** *** The window of the reporter can always be computed *)





(** ** From the service to the chart *)




(** ** The directory after a sequence of writes *)

Lemma same_date_true d x : same_date d x = true <-> dt_date x.1 = d.
Proof.
  unfold same_date. split.
  - destruct (date_compare _ _) eqn:E; try discriminate. intros _. apply date_compare_eq. exact E.
  - intros ->. rewrite date_compare_refl. reflexivity.
Qed.

Lemma name_inj d1 d2 :
  valid_date d1 -> valid_date d2 ->
  Collector.csv_name (strftime_Ymd d1) = Collector.csv_name (strftime_Ymd d2) -> d1 = d2.
Proof.
  intros H1 H2 E. apply date_compare_eq.
  rewrite <- (compare_names d1 d2 H1 H2), E. apply compare_refl_string.
Qed.

Lemma lines_text_app a b : lines_text (a ++ b) = lines_text a +:+ lines_text b.
Proof.
  induction a as [|x a IH]; [rewrite sapp_nil_l; reflexivity|].
  cbn [app lines_text]. rewrite IH, sapp_assoc. reflexivity.
Qed.

Lemma on_date_snoc d rs x :
  on_date d (rs ++ [x]) = (on_date d rs ++ (if same_date d x then [x] else []))%list.
Proof. unfold on_date. rewrite List.filter_app. reflexivity. Qed.

Lemma holds_history_nil : holds_history [] ∅.
Proof.
  split.
  - intros d _. apply lookup_empty.
  - intros name content. rewrite lookup_empty. discriminate.
Qed.

Lemma holds_history_step rs dir x :
  holds_history rs (default ∅ dir) -> valid_datetime x.1 ->
  holds_history (rs ++ [x])
    (default ∅ (Collector.save_to_csv x.1 (Collector.PyInt x.2) dir).2).
Proof.
  intros [H1 H2] Hx. pose proof Hx as [Hd0 _].
  set (d0 := dt_date x.1) in *.
  assert (Hx0 : same_date d0 x = true) by (apply same_date_true; reflexivity).
  assert (E : (Collector.save_to_csv x.1 (Collector.PyInt x.2) dir).2 =
              Some (<[Collector.csv_name (strftime_Ymd d0) :=
                       header_line +:+ lines_text (on_date d0 rs ++ [x])]> (default ∅ dir))).
  { specialize (H1 d0 Hd0).
    destruct (on_date d0 rs) as [|y l] eqn:El; cbn [partition_content] in H1.
    - rewrite (save_fresh x.1 x.2 dir H1). cbn [app lines_text].
      rewrite sapp_nil_r. reflexivity.
    - destruct dir as [files|];
        [|change (default ∅ None) with (∅ : gmap string string) in H1;
          rewrite lookup_empty in H1; discriminate].
      change (default ∅ (Some files)) with files in *.
      rewrite (save_existing x.1 x.2 files _ H1).
      rewrite lines_text_app. cbn [lines_text]. rewrite sapp_nil_r, !sapp_assoc. reflexivity. }
  rewrite E. change (default ∅ (Some ?m)) with m. split.
  - intros d Hd. rewrite on_date_snoc. rewrite lookup_insert. case_decide as Hn.
    + apply name_inj in Hn; [|assumption..]. subst d. rewrite Hx0.
      destruct (on_date d0 rs ++ [x])%list eqn:El; [|reflexivity].
      apply app_eq_nil in El. destruct El as [_ El]. discriminate.
    + assert (Hne : same_date d x = false).
      { destruct (same_date d x) eqn:Es; [|reflexivity].
        apply same_date_true in Es. fold d0 in Es. subst d. congruence. }
      rewrite Hne, app_nil_r. apply H1. assumption.
  - intros name content. rewrite lookup_insert. case_decide as Hn.
    + intros _. exists d0. split; [assumption|congruence].
    + apply H2.
Qed.

Lemma record_all_snoc rs x dir :
  record_all (rs ++ [x]) dir =
  (Collector.save_to_csv x.1 (Collector.PyInt x.2) (record_all rs dir)).2.
Proof. unfold record_all. rewrite fold_left_app. reflexivity. Qed.

Lemma record_all_history rs :
  Forall (fun x => valid_datetime x.1) rs ->
  holds_history rs (default ∅ (record_all rs None)).
Proof.
  induction rs as [|x rs IH] using rev_ind; intros Hall.
  - apply holds_history_nil.
  - apply Forall_app in Hall. destruct Hall as [Hrs Hx].
    rewrite record_all_snoc. apply holds_history_step; [apply IH; assumption|].
    apply (List.Forall_inv Hx).
Qed.

(** X2. The directory after a sequence of writes that starts without a
    data directory: the partition of a date is absent when no reading of
    the sequence was taken on that date, and otherwise holds the header
    line once, followed by the data lines of the readings of that date
    in the order of the calls, whatever readings of other dates came in
    between; and every file of the directory is the partition of a date. *)
Theorem store_after_writes rs d :
  let files := default ∅ (record_all rs None) in
  Forall (fun x => valid_datetime x.1) rs -> valid_date d ->
  match on_date d rs with
  | [] => files !! Collector.csv_name (strftime_Ymd d) = None
  | l =>
      files !! Collector.csv_name (strftime_Ymd d) = Some (header_line +:+ lines_text l) /\
      file_lines (header_line +:+ lines_text l) =
        header_line :: map (fun x => data_line x.1 x.2) l
  end /\
  (forall name content, files !! name = Some content ->
     exists d', valid_date d' /\ name = Collector.csv_name (strftime_Ymd d')).
Proof.
  intros files Hall Hd. destruct (record_all_history rs Hall) as [H1 H2].
  split; [|exact H2]. specialize (H1 d Hd). fold files in H1.
  destruct (on_date d rs) as [|y l]; [exact H1|]. split; [exact H1|].
  unfold file_lines. change header_line with (writerow2 "time" "count").
  rewrite file_lines_row by apply header_clean.
  f_equal. apply (file_lines_data (y :: l)).
Qed.

Lemma store_after_writes_witness :
  (default ∅ (record_all [(early_march_1, 141); (late_feb_29, 120); (noon_march_1, 150)] None)
     !! Collector.csv_name (strftime_Ymd march_1) =
     Some (header_line +:+ lines_text [(early_march_1, 141); (noon_march_1, 150)]) /\
   file_lines (header_line +:+ lines_text [(early_march_1, 141); (noon_march_1, 150)]) =
     header_line :: map (fun x => data_line x.1 x.2) [(early_march_1, 141); (noon_march_1, 150)]) /\
  (forall name content,
     default ∅ (record_all [(early_march_1, 141); (late_feb_29, 120); (noon_march_1, 150)] None)
       !! name = Some content ->
     exists d', valid_date d' /\ name = Collector.csv_name (strftime_Ymd d')).
Proof.
  apply (store_after_writes [(early_march_1, 141); (late_feb_29, 120); (noon_march_1, 150)]
           march_1).
  - repeat constructor; try apply valid_early_march_1; try apply valid_late_feb_29;
      cbn; try lia; apply valid_dateb_spec; reflexivity.
  - apply valid_dateb_spec. reflexivity.
Defined.

(** ** What is recorded is what is charted *)

Lemma charted_entry x :
  entry_reading (dt_date x.1) (now_entry x.1 x.2) = charted x.
Proof. reflexivity. Qed.

Lemma history_partition d l :
  valid_date d -> Forall (fun x => valid_datetime x.1 /\ dt_date x.1 = d) l ->
  partition_of d (map (fun x => now_entry x.1 x.2) l)
    (Collector.csv_name (strftime_Ymd d), header_line +:+ lines_text l).
Proof.
  intros Hd Hall. split; [exact Hd|]. split; [|split; [reflexivity|]].
  - apply List.Forall_forall. intros e He. apply in_map_iff in He.
    destruct He as (x & <- & Hx). rewrite List.Forall_forall in Hall.
    apply valid_datetime_entry. apply (Hall x Hx).
  - cbn [snd]. unfold partition_text. rewrite lines_text_rows, map_map. reflexivity.
Qed.

Lemma history_readings d l :
  valid_date d -> Forall (fun x => valid_datetime x.1 /\ dt_date x.1 = d) l ->
  partition_readings (Collector.csv_name (strftime_Ymd d), header_line +:+ lines_text l) =
  map charted l.
Proof.
  intros Hd Hall.
  rewrite (partition_readings_written d _ _ (history_partition d l Hd Hall)).
  rewrite map_map. apply map_ext_in. intros x Hx.
  rewrite List.Forall_forall in Hall. destruct (Hall x Hx) as [_ <-]. apply charted_entry.
Qed.

Lemma on_date_all d rs :
  Forall (fun x => valid_datetime x.1) rs ->
  Forall (fun x => valid_datetime x.1 /\ dt_date x.1 = d) (on_date d rs).
Proof.
  intros Hall. apply List.Forall_forall. intros x Hx. apply filter_In in Hx.
  destruct Hx as [Hin Hs]. rewrite List.Forall_forall in Hall.
  split; [apply Hall; assumption|apply same_date_true; assumption].
Qed.

Lemma history_file rs files name content :
  Forall (fun x => valid_datetime x.1) rs -> holds_history rs files ->
  files !! name = Some content ->
  exists d, valid_date d /\ name = Collector.csv_name (strftime_Ymd d) /\
            content = header_line +:+ lines_text (on_date d rs) /\
            on_date d rs <> [].
Proof.
  intros Hall [H1 H2] Hfile. destruct (H2 _ _ Hfile) as (d & Hd & ->).
  exists d. split; [exact Hd|]. split; [reflexivity|].
  rewrite (H1 d Hd) in Hfile. destruct (on_date d rs); [discriminate|].
  injection Hfile as <-. split; [reflexivity|discriminate].
Qed.

Lemma history_written rs files :
  Forall (fun x => valid_datetime x.1) rs -> holds_history rs files -> written_store files.
Proof.
  intros Hall Hh name content Hfile.
  destruct (history_file rs files name content Hall Hh Hfile) as (d & Hd & -> & -> & _).
  exists d, (map (fun x => now_entry x.1 x.2) (on_date d rs)).
  apply history_partition; [assumption|]. apply on_date_all. assumption.
Qed.

(** X16. What is recorded is what is loaded: after a sequence of writes
    that starts without a data directory, [load_data] returns, and a
    pair is among the pairs returned exactly when it is the minute and
    the count of a recorded reading and the minute is at or after the
    window start. *)
Theorem recorded_readings_loaded rs now hours cutoff limit :
  Forall (fun x => valid_datetime x.1) rs ->
  datetime_sub_hours now hours = Ok cutoff ->
  date_sub_days (dt_date cutoff) 1 = Ok limit ->
  exists ts cs,
    load_data now hours (default ∅ (record_all rs None)) = Ok (ts, cs) /\
    forall t c,
      In (t, c) (combine ts cs) <->
      datetime_le cutoff t /\ exists x, In x rs /\ t = minute_of x.1 /\ c = x.2.
Proof.
  intros Hall Hc Hl. pose proof (record_all_history rs Hall) as Hh.
  set (files := default ∅ (record_all rs None)) in *.
  pose proof (history_written rs files Hall Hh) as Hw.
  destruct (kept_files_written now hours cutoff limit (csv_files files) Hc Hl)
    as (k & Hk & Hiff).
  { intros [name content] Hin. apply csv_files_elem in Hin. apply Hw. tauto. }
  exists (map fst k), (map snd k).
  split; [rewrite load_data_eq, Hc; cbn [bind]; rewrite Hk; reflexivity|].
  intros t c. rewrite combine_fst_snd, Hiff. unfold in_window. cbn [fst].
  change (datetime_geb t cutoff = true) with (datetime_le cutoff t).
  split; intros [Hwin H]; (split; [exact Hwin|]).
  - destruct H as ([name content] & Hin & Hr).
    apply csv_files_elem in Hin. destruct Hin as [Hfile _].
    destruct (history_file rs files name content Hall Hh Hfile) as (d & Hd & -> & -> & _).
    rewrite (history_readings d _ Hd (on_date_all d rs Hall)) in Hr.
    apply in_map_iff in Hr. destruct Hr as (x & Hx & Hin).
    apply filter_In in Hin. destruct Hin as [Hin _].
    exists x. injection Hx as <- <-. auto.
  - destruct H as (x & Hx & -> & ->).
    rewrite List.Forall_forall in Hall. pose proof (Hall x Hx) as [Hd _].
    set (d := dt_date x.1) in *.
    assert (Hon : In x (on_date d rs)).
    { apply filter_In. split; [assumption|]. apply same_date_true. reflexivity. }
    exists (Collector.csv_name (strftime_Ymd d), header_line +:+ lines_text (on_date d rs)).
    split.
    + apply csv_files_elem. split; [|rewrite csv_stem_name; eauto].
      destruct Hh as [H1 _]. rewrite (H1 d Hd).
      destruct (on_date d rs); [destruct Hon|reflexivity].
    + rewrite (history_readings d _ Hd); [|apply on_date_all; apply List.Forall_forall; exact Hall].
      apply in_map_iff. exists x. split; [reflexivity|exact Hon].
Qed.

Lemma recorded_readings_loaded_witness :
  exists ts cs,
    load_data three_days_on 96
      (default ∅ (record_all [(early_march_1, 141); (late_feb_29, 120); (noon_march_1, 150)] None))
      = Ok (ts, cs) /\
    forall t c,
      In (t, c) (combine ts cs) <->
      datetime_le (mkdatetime (mkdate 2024 2 29) 9 30 15 250) t /\
      exists x, In x [(early_march_1, 141); (late_feb_29, 120); (noon_march_1, 150)] /\
                t = minute_of x.1 /\ c = x.2.
Proof.
  apply (recorded_readings_loaded
           [(early_march_1, 141); (late_feb_29, 120); (noon_march_1, 150)]
           three_days_on 96 (mkdatetime (mkdate 2024 2 29) 9 30 15 250) (mkdate 2024 2 28)).
  - repeat constructor; try apply valid_early_march_1; try apply valid_late_feb_29;
      cbn; try lia; apply valid_dateb_spec; reflexivity.
  - vm_compute. reflexivity.
  - vm_compute. reflexivity.
Defined.

(** ** A clock that never goes back *)

Lemma minute_of_mono a b : datetime_le a b -> datetime_le (minute_of a) (minute_of b).
Proof.
  rewrite !datetime_le_alt. unfold datetime_compare, minute_of.
  cbn [dt_date hour minute second microsecond].
  destruct (date_compare (dt_date a) (dt_date b)); try congruence.
  destruct (hour a ?= hour b); try congruence.
  destruct (minute a ?= minute b); try congruence; intros _; cbn; discriminate.
Qed.

Lemma charted_sorted rs :
  StronglySorted (fun a b : datetime * Z => datetime_le a.1 b.1) rs ->
  StronglySorted datetime_le (map (fun x => (charted x).1) rs).
Proof.
  induction 1 as [|x rs _ IH Hx]; cbn [map]; constructor; [exact IH|].
  apply List.Forall_forall. intros t Ht. apply in_map_iff in Ht.
  destruct Ht as (y & <- & Hy). rewrite List.Forall_forall in Hx.
  cbn [charted fst]. apply minute_of_mono. apply Hx. exact Hy.
Qed.

Lemma history_chronological rs files :
  Forall (fun x => valid_datetime x.1) rs ->
  StronglySorted (fun a b : datetime * Z => datetime_le a.1 b.1) rs ->
  holds_history rs files -> chronological files.
Proof.
  intros Hall Hs Hh name content fd Hfile Hdate.
  destruct (history_file rs files name content Hall Hh Hfile) as (d & Hd & -> & -> & _).
  pose proof (history_readings d _ Hd (on_date_all d rs Hall)) as E.
  unfold partition_readings in E. cbn [fst snd] in E. rewrite Hdate in E. rewrite E.
  apply StronglySorted_Sorted. rewrite map_map. unfold on_date.
  apply (StronglySorted_map_filter datetime_le (fun x => (charted x).1)).
  apply charted_sorted. exact Hs.
Qed.

(** X17. When the clock of the collector never goes back from one write
    to the next, the timestamps that [load_data] returns on the
    directory it wrote are in nondecreasing order. *)
Theorem steady_clock_sorted_chart rs now hours ts cs :
  Forall (fun x => valid_datetime x.1) rs ->
  StronglySorted (fun a b : datetime * Z => datetime_le a.1 b.1) rs ->
  load_data now hours (default ∅ (record_all rs None)) = Ok (ts, cs) ->
  StronglySorted datetime_le ts.
Proof.
  intros Hall Hs Hload. pose proof (record_all_history rs Hall) as Hh.
  set (files := default ∅ (record_all rs None)) in *.
  destruct (load_data_kept _ _ _ _ _ Hload) as (cutoff & k & _ & Hk & -> & _).
  apply (kept_files_sorted cutoff files (csv_files files) k).
  - apply written_canonical. eapply history_written; eassumption.
  - eapply history_chronological; eassumption.
  - intros name content Hin. apply csv_files_elem in Hin. tauto.
  - apply csv_files_sorted.
  - apply csv_files_NoDup.
  - exact Hk.
Qed.

Lemma steady_clock_sorted_chart_witness :
  StronglySorted datetime_le
    [minute_of late_feb_29; minute_of early_march_1; minute_of noon_march_1;
     minute_of noon_march_1].
Proof.
  apply (steady_clock_sorted_chart
           [(late_feb_29, 120); (early_march_1, 141); (noon_march_1, 150); (noon_march_1, 149)]
           three_days_on 96
           [minute_of late_feb_29; minute_of early_march_1; minute_of noon_march_1;
            minute_of noon_march_1]
           [120; 141; 150; 149]).
  - repeat constructor; try apply valid_early_march_1; try apply valid_late_feb_29;
      cbn; try lia; apply valid_dateb_spec; reflexivity.
  - repeat constructor.
  - vm_compute. reflexivity.
Defined.

(** ** The series of a steady clock *)

Lemma names_le d1 d2 :
  valid_date d1 -> valid_date d2 -> date_compare d1 d2 <> Gt ->
  String.le (Collector.csv_name (strftime_Ymd d1)) (Collector.csv_name (strftime_Ymd d2)).
Proof.
  intros H1 H2 Hle. unfold String.le, String.leb.
  rewrite compare_names by assumption.
  destruct (date_compare d1 d2); [exact I|exact I|contradiction].
Qed.

Lemma csv_files_insert_last files name content :
  files !! name = None -> is_Some (csv_stem name) ->
  (forall q, In q (csv_files files) -> String.le q.1 name) ->
  csv_files (<[name := content]> files) = (csv_files files ++ [(name, content)])%list.
Proof.
  intros Hnew Hstem Hlast.
  destruct (csv_files_insert_csv files name content Hnew Hstem) as (l1 & l2 & E' & E).
  rewrite E'. rewrite E in *.
  assert (l2 = []) as ->; [|rewrite app_nil_r; reflexivity].
  destruct l2 as [|q l2]; [reflexivity|exfalso].
  pose proof (csv_files_sorted (<[name := content]> files)) as Hs.
  pose proof (csv_files_NoDup (<[name := content]> files)) as Hnd.
  rewrite E' in Hs, Hnd.
  apply StronglySorted_app in Hs. destruct Hs as (_ & _ & Hs).
  apply StronglySorted_cons in Hs. destruct Hs as [Hall _].
  apply Forall_cons in Hall. destruct Hall as [Hq _]. unfold path_le in Hq. cbn [fst] in Hq.
  assert (Hq' : String.le q.1 name).
  { apply Hlast. apply in_or_app. right. left. reflexivity. }
  assert (Heq : name = q.1) by (apply (anti_symm String.le); assumption).
  rewrite fmap_app, fmap_cons, fmap_cons in Hnd.
  apply NoDup_app in Hnd. destruct Hnd as (_ & _ & Hnd).
  apply NoDup_cons in Hnd. destruct Hnd as [Hnd _]. apply Hnd.
  cbn [fst]. rewrite Heq. left.
Qed.

Lemma steady_clock_dates rs x y :
  steady_clock (rs ++ [x]) -> In y rs -> date_compare (dt_date y.1) (dt_date x.1) <> Gt.
Proof.
  intros Hs Hy. apply StronglySorted_app in Hs. destruct Hs as (Hcross & _ & _).
  apply datetime_le_date. apply (Hcross y x).
  - apply list_elem_of_In. exact Hy.
  - left.
Qed.

Lemma kept_file_history now hours cutoff limit d l :
  datetime_sub_hours now hours = Ok cutoff ->
  date_sub_days (dt_date cutoff) 1 = Ok limit ->
  valid_date d -> Forall (fun x => valid_datetime x.1 /\ dt_date x.1 = d) l ->
  kept_file cutoff (Collector.csv_name (strftime_Ymd d), header_line +:+ lines_text l) =
  Ok (List.filter (in_window cutoff) (map charted l)).
Proof.
  intros Hc Hl Hd Hall.
  rewrite (kept_file_partition now hours cutoff limit d _ _ Hc Hl (history_partition d l Hd Hall)).
  rewrite (history_readings d l Hd Hall). reflexivity.
Qed.

Lemma kept_files_snoc cutoff l p :
  kept_files cutoff (l ++ [p]) =
  let* k1 := kept_files cutoff l in
  let* k2 := kept_file cutoff p in
  Ok (k1 ++ k2)%list.
Proof.
  rewrite kept_files_app. destruct (kept_files cutoff l) as [k1|]; cbn [bind]; [|reflexivity].
  cbn [kept_files]. destruct (kept_file cutoff p) as [k2|]; cbn [bind]; [|reflexivity].
  rewrite app_nil_r. reflexivity.
Qed.

Lemma kept_files_history now hours cutoff limit rs :
  datetime_sub_hours now hours = Ok cutoff ->
  date_sub_days (dt_date cutoff) 1 = Ok limit ->
  Forall (fun x => valid_datetime x.1) rs -> steady_clock rs ->
  kept_files cutoff (csv_files (default ∅ (record_all rs None))) =
  Ok (List.filter (in_window cutoff) (map charted rs)).
Proof.
  intros Hc Hl. induction rs as [|x rs IH] using rev_ind; intros Hall Hs.
  - change (default ∅ (record_all [] None)) with (∅ : gmap string string).
    rewrite csv_files_empty. reflexivity.
  - pose proof Hall as Hall'. apply Forall_app in Hall'. destruct Hall' as [Hrs Hx].
    apply List.Forall_inv in Hx. pose proof Hx as [Hd0 _].
    assert (Hs' : steady_clock rs) by (apply StronglySorted_app in Hs; tauto).
    specialize (IH Hrs Hs').
    pose proof (record_all_history rs Hrs) as Hh.
    pose proof (record_all_history (rs ++ [x]) Hall) as Hh'.
    set (files := default ∅ (record_all rs None)) in *.
    set (files' := default ∅ (record_all (rs ++ [x]) None)) in *.
    set (d0 := dt_date x.1) in *.
    set (name := Collector.csv_name (strftime_Ymd d0)).
    set (content' := header_line +:+ lines_text (on_date d0 rs ++ [x])).
    assert (Hx0 : same_date d0 x = true) by (apply same_date_true; reflexivity).
    assert (E' : files' = <[name := content']> (delete name files)).
    { apply map_eq. intros n. rewrite lookup_insert. case_decide as Hn.
      - subst n. unfold name, content'.
        destruct Hh' as [H1 _]. rewrite (H1 d0 Hd0), on_date_snoc, Hx0.
        destruct (on_date d0 rs ++ [x])%list eqn:El; [|reflexivity].
        apply app_eq_nil in El. destruct El as [_ El]. discriminate.
      - rewrite lookup_delete_ne by assumption.
        destruct (files' !! n) as [c|] eqn:En.
        + destruct Hh' as [H1' H2']. destruct (H2' _ _ En) as (d & Hd & ->).
          destruct Hh as [H1 _]. rewrite (H1 d Hd). rewrite (H1' d Hd) in En.
          rewrite on_date_snoc in En.
          assert (Hne : same_date d x = false).
          { destruct (same_date d x) eqn:Es; [|reflexivity].
            apply same_date_true in Es. fold d0 in Es. subst d. contradiction. }
          rewrite Hne, app_nil_r in En. symmetry. exact En.
        + destruct (files !! n) as [c|] eqn:En0; [|reflexivity].
          destruct Hh as [H1 H2]. destruct (H2 _ _ En0) as (d & Hd & ->).
          destruct Hh' as [H1' _]. rewrite (H1' d Hd) in En. rewrite (H1 d Hd) in En0.
          rewrite on_date_snoc in En.
          destruct (on_date d rs); [discriminate|]. discriminate. }
    assert (Hlast : forall q, In q (csv_files (delete name files)) -> String.le q.1 name).
    { intros [n c] Hq. apply csv_files_elem in Hq. destruct Hq as [Hq _].
      apply lookup_delete_Some in Hq. destruct Hq as [_ Hq]. cbn [fst].
      destruct (history_file rs files n c Hrs Hh Hq) as (d & Hd & -> & _ & Hne).
      destruct (on_date d rs) as [|y l] eqn:El; [contradiction|].
      assert (Hy : In y (on_date d rs)) by (rewrite El; left; reflexivity).
      apply filter_In in Hy. destruct Hy as [Hy Hyd]. apply same_date_true in Hyd.
      apply names_le; [assumption..|]. rewrite <- Hyd.
      apply (steady_clock_dates rs x y Hs Hy). }
    assert (Hstem : is_Some (csv_stem name)) by (unfold name; rewrite csv_stem_name; eauto).
    rewrite E', (csv_files_insert_last _ name content' (lookup_delete_eq _ _) Hstem Hlast).
    rewrite kept_files_snoc.
    unfold content', name.
    rewrite (kept_file_history now hours cutoff limit d0 (on_date d0 rs ++ [x]) Hc Hl Hd0).
    2:{ apply Forall_app. split; [apply on_date_all; assumption|].
        constructor; [|constructor]. split; [assumption|reflexivity]. }
    rewrite !map_app, !List.filter_app.
    destruct (on_date d0 rs) as [|y l] eqn:El.
    + assert (Hnone : files !! name = None).
      { destruct Hh as [H1 _]. unfold name. rewrite (H1 d0 Hd0), El. reflexivity. }
      rewrite (delete_id _ _ Hnone), IH. cbn [bind map List.filter app]. reflexivity.
    + assert (Hsome : files !! name = Some (header_line +:+ lines_text (on_date d0 rs))).
      { destruct Hh as [H1 _]. unfold name. rewrite (H1 d0 Hd0), El. reflexivity. }
      assert (Ef : files = <[name := header_line +:+ lines_text (on_date d0 rs)]> (delete name files)).
      { symmetry. apply insert_delete_id. exact Hsome. }
      rewrite Ef in IH at 1.
      rewrite (csv_files_insert_last _ name _ (lookup_delete_eq _ _) Hstem Hlast) in IH.
      rewrite kept_files_snoc in IH. unfold name in IH at 2.
      rewrite (kept_file_history now hours cutoff limit d0 (on_date d0 rs) Hc Hl Hd0
                 (on_date_all d0 rs Hrs)) in IH.
      fold name.
      destruct (kept_files cutoff (csv_files (delete name files))) as [k1|]; cbn [bind] in *;
        [|discriminate].
      injection IH as IH. rewrite <- El, app_assoc, IH. reflexivity.
Qed.

Lemma filter_charted cutoff rs :
  List.filter (in_window cutoff) (map charted rs) =
  map charted (List.filter (fun x => datetime_geb (minute_of x.1) cutoff) rs).
Proof.
  induction rs as [|x rs IH]; [reflexivity|]. cbn [map List.filter].
  unfold in_window at 1. cbn [charted fst].
  destruct (datetime_geb (minute_of x.1) cutoff); cbn [map]; rewrite IH; reflexivity.
Qed.

(** X18. The series of a steady clock: after a sequence of writes that
    starts without a data directory and whose clock never goes back,
    [load_data] returns exactly the recorded readings whose minute is at
    or after the window start, each as its minute and its count, in the
    order of recording and as many times as recorded. *)
Theorem steady_clock_series rs now hours cutoff limit :
  Forall (fun x => valid_datetime x.1) rs -> steady_clock rs ->
  datetime_sub_hours now hours = Ok cutoff ->
  date_sub_days (dt_date cutoff) 1 = Ok limit ->
  let kept := List.filter (fun x => datetime_geb (minute_of x.1) cutoff) rs in
  load_data now hours (default ∅ (record_all rs None)) =
  Ok (map (fun x => minute_of x.1) kept, map snd kept).
Proof.
  intros Hall Hs Hc Hl kept. rewrite load_data_eq, Hc. cbn [bind].
  rewrite (kept_files_history now hours cutoff limit rs Hc Hl Hall Hs). cbn [bind].
  rewrite filter_charted, !map_map. reflexivity.
Qed.

Lemma steady_clock_series_witness :
  load_data three_days_on 96
    (default ∅ (record_all
       [(mkdatetime (mkdate 2024 2 29) 9 29 59 0, 80); (late_feb_29, 120);
        (early_march_1, 141); (noon_march_1, 150); (noon_march_1, 149)] None)) =
  Ok (map (fun x => minute_of x.1)
        (List.filter (fun x => datetime_geb (minute_of x.1)
                                 (mkdatetime (mkdate 2024 2 29) 9 30 15 250))
           [(mkdatetime (mkdate 2024 2 29) 9 29 59 0, 80); (late_feb_29, 120);
            (early_march_1, 141); (noon_march_1, 150); (noon_march_1, 149)]),
      map snd
        (List.filter (fun x => datetime_geb (minute_of x.1)
                                 (mkdatetime (mkdate 2024 2 29) 9 30 15 250))
           [(mkdatetime (mkdate 2024 2 29) 9 29 59 0, 80); (late_feb_29, 120);
            (early_march_1, 141); (noon_march_1, 150); (noon_march_1, 149)])).
Proof.
  apply (steady_clock_series
           [(mkdatetime (mkdate 2024 2 29) 9 29 59 0, 80); (late_feb_29, 120);
            (early_march_1, 141); (noon_march_1, 150); (noon_march_1, 149)]
           three_days_on 96 (mkdatetime (mkdate 2024 2 29) 9 30 15 250) (mkdate 2024 2 28)).
  - repeat constructor; try apply valid_early_march_1; try apply valid_late_feb_29;
      cbn; try lia; apply valid_dateb_spec; reflexivity.
  - repeat constructor.
  - vm_compute. reflexivity.
  - vm_compute. reflexivity.
Defined.
